(** * voz-data-scaper: the crawl, tagging and storage pipeline, and its paginated read path

    A shallow embedding of
      - [VOZ_neww/VOZ_neww/spiders/demospider.py]  (module [Spider]),
      - [VOZ_neww/VOZ_neww/pipelines.py]           (module [Pipelines]),
      - [VOZ_neww/main.py], the messages endpoint  (module [Api]),
    followed by the properties of the specification, stated on these
    definitions.

    Conventions.
      - A Python [str] is a Rocq [string] holding its UTF-8 bytes, so that
        [s.encode()] is the identity.
      - A call that may raise returns a [result]; [Raise e] carries the class
        of the Python exception.
      - Library functions the sources call but do not define ([urlparse],
        [urljoin], [datetime.fromisoformat], the [underthesea] classifier)
        are fields of a class, so every statement holds for whatever these
        functions compute.  [hashlib.md5] is written out in module [MD5]. *)

From Stdlib Require Import ZArith Ascii String List Lia Bool.
From stdpp Require Import base option list strings gmap fin_maps sorting.

Local Open Scope Z_scope.

(** ** Python values, exceptions and string operations *)

Module Py.

Inductive exn :=
| ValueError | TypeError | IndexError | KeyError | AttributeError
| DatabaseError | OtherError.

Inductive result (A : Type) :=
| Ok (a : A)
| Raise (e : exn).
Arguments Ok {A} a.
Arguments Raise {A} e.

Definition bind {A B} (r : result A) (k : A -> result B) : result B :=
  match r with
  | Ok a => k a
  | Raise e => Raise e
  end.

(** The values an item dictionary holds. [VStamp t] is the ISO-8601
    rendering of the clock reading [t] (microseconds), as written by
    [datetime.now().isoformat()]; the store casts it back to the
    timestamp [t]. *)
Inductive value :=
| VNone
| VStr (s : string)
| VInt (n : Z)
| VStamp (t : N).

(** [bool(s)] for [s : Optional[str]]: [None] and the empty string are false. *)
Definition truthy (o : option string) : bool :=
  match o with
  | Some s => negb (String.eqb s EmptyString)
  | None => false
  end.

Definition of_opt (o : option string) : value :=
  match o with
  | Some s => VStr s
  | None => VNone
  end.

(** [s.split(c)] for a one-character separator: never empty, one more
    part than there are separators. *)
Fixpoint split (c : ascii) (s : string) : list string :=
  match s with
  | EmptyString => [EmptyString]
  | String a s' =>
      if Ascii.eqb a c then EmptyString :: split c s'
      else match split c s' with
           | p :: ps => String a p :: ps
           | [] => [String a EmptyString]
           end
  end.

(** [sep.join(parts)] *)
Fixpoint join (sep : string) (parts : list string) : string :=
  match parts with
  | [] => EmptyString
  | [p] => p
  | p :: ps => String.append p (String.append sep (join sep ps))
  end.

(** [s.replace('Z', '+00:00')] *)
Fixpoint replace_Z (s : string) : string :=
  match s with
  | EmptyString => EmptyString
  | String a s' =>
      if Ascii.eqb a "Z" then String.append "+00:00" (replace_Z s')
      else String a (replace_Z s')
  end.

(** XPath [contains(hay, needle)], also Python [needle in hay]. *)
Fixpoint contains (needle hay : string) : bool :=
  String.prefix needle hay ||
  match hay with
  | EmptyString => false
  | String _ hay' => contains needle hay'
  end.

(** The UTF-8 encodings of the code points for which [str.isspace] holds:
    U+0009-000D, U+001C-0020, U+0085, U+00A0, U+1680, U+2000-200A,
    U+2028, U+2029, U+202F, U+205F, U+3000. *)
Definition bytes (l : list N) : string :=
  string_of_list_ascii (map ascii_of_N l).

Definition whitespace : list string :=
  map bytes
    [ [9]; [10]; [11]; [12]; [13]; [28]; [29]; [30]; [31]; [32];
      [194; 133]; [194; 160]; [225; 154; 128];
      [226; 128; 128]; [226; 128; 129]; [226; 128; 130]; [226; 128; 131];
      [226; 128; 132]; [226; 128; 133]; [226; 128; 134]; [226; 128; 135];
      [226; 128; 136]; [226; 128; 137]; [226; 128; 138];
      [226; 128; 168]; [226; 128; 169]; [226; 128; 175];
      [226; 129; 159]; [227; 128; 128] ]%N.

Fixpoint drop_prefix (p s : string) : option string :=
  match p, s with
  | EmptyString, _ => Some s
  | String a p', String b s' => if Ascii.eqb a b then drop_prefix p' s' else None
  | String _ _, EmptyString => None
  end.

(** The rest of [s] after one leading whitespace character, if it has one. *)
Fixpoint drop_space (ws : list string) (s : string) : option string :=
  match ws with
  | [] => None
  | w :: ws' =>
      match drop_prefix w s with
      | Some r => Some r
      | None => drop_space ws' s
      end
  end.

Fixpoint lstrip_fuel (fuel : nat) (ws : list string) (s : string) : string :=
  match fuel with
  | O => s
  | S k =>
      match drop_space ws s with
      | Some r => lstrip_fuel k ws r
      | None => s
      end
  end.

Definition rev_string (s : string) : string :=
  string_of_list_ascii (rev (list_ascii_of_string s)).

Definition lstrip (s : string) : string :=
  lstrip_fuel (String.length s) whitespace s.

(** Trailing whitespace is leading whitespace of the reversed string,
    matched against the reversed encodings. *)
Definition rstrip (s : string) : string :=
  rev_string (lstrip_fuel (String.length s) (map rev_string whitespace) (rev_string s)).

(** [s.strip()] *)
Definition strip (s : string) : string := rstrip (lstrip s).

Definition nonempty (s : string) : bool := negb (String.eqb s EmptyString).

End Py.

Export Py.

(** ** [hashlib.md5(b).hexdigest()] (RFC 1321)

    32-bit words are [Z] in [0, 2^32), additions are reduced modulo 2^32. *)

Module MD5.

Definition mask32 : Z := 0xFFFFFFFF.
Definition add32 (x y : Z) : Z := Z.land (x + y) mask32.
Definition not32 (x : Z) : Z := Z.lxor x mask32.
Definition rotl32 (x : Z) (s : Z) : Z :=
  Z.land (Z.lor (Z.shiftl x s) (Z.shiftr x (32 - s))) mask32.

Definition K : list Z :=
  [ 0xd76aa478; 0xe8c7b756; 0x242070db; 0xc1bdceee;
    0xf57c0faf; 0x4787c62a; 0xa8304613; 0xfd469501;
    0x698098d8; 0x8b44f7af; 0xffff5bb1; 0x895cd7be;
    0x6b901122; 0xfd987193; 0xa679438e; 0x49b40821;
    0xf61e2562; 0xc040b340; 0x265e5a51; 0xe9b6c7aa;
    0xd62f105d; 0x02441453; 0xd8a1e681; 0xe7d3fbc8;
    0x21e1cde6; 0xc33707d6; 0xf4d50d87; 0x455a14ed;
    0xa9e3e905; 0xfcefa3f8; 0x676f02d9; 0x8d2a4c8a;
    0xfffa3942; 0x8771f681; 0x6d9d6122; 0xfde5380c;
    0xa4beea44; 0x4bdecfa9; 0xf6bb4b60; 0xbebfbc70;
    0x289b7ec6; 0xeaa127fa; 0xd4ef3085; 0x04881d05;
    0xd9d4d039; 0xe6db99e5; 0x1fa27cf8; 0xc4ac5665;
    0xf4292244; 0x432aff97; 0xab9423a7; 0xfc93a039;
    0x655b59c3; 0x8f0ccc92; 0xffeff47d; 0x85845dd1;
    0x6fa87e4f; 0xfe2ce6e0; 0xa3014314; 0x4e0811a1;
    0xf7537e82; 0xbd3af235; 0x2ad7d2bb; 0xeb86d391 ].

Definition shifts : list Z :=
  [ 7; 12; 17; 22; 7; 12; 17; 22; 7; 12; 17; 22; 7; 12; 17; 22;
    5;  9; 14; 20; 5;  9; 14; 20; 5;  9; 14; 20; 5;  9; 14; 20;
    4; 11; 16; 23; 4; 11; 16; 23; 4; 11; 16; 23; 4; 11; 16; 23;
    6; 10; 15; 21; 6; 10; 15; 21; 6; 10; 15; 21; 6; 10; 15; 21 ].

Definition nthZ (l : list Z) (i : Z) : Z := nth (Z.to_nat i) l 0.

Record state := { sA : Z; sB : Z; sC : Z; sD : Z }.

Definition init : state :=
  {| sA := 0x67452301; sB := 0xefcdab89; sC := 0x98badcfe; sD := 0x10325476 |}.

(** One of the 64 operations of a block, on the block's 16 words [M]. *)
Definition step (M : list Z) (st : state) (i : Z) : state :=
  let '(Build_state a b c d) := st in
  let '(f, g) :=
    if i <? 16 then (Z.lor (Z.land b c) (Z.land (not32 b) d), i)
    else if i <? 32 then (Z.lor (Z.land d b) (Z.land (not32 d) c), (5 * i + 1) mod 16)
    else if i <? 48 then (Z.lxor (Z.lxor b c) d, (3 * i + 5) mod 16)
    else (Z.lxor c (Z.lor b (not32 d)), (7 * i) mod 16) in
  let f' := add32 (add32 (add32 f a) (nthZ K i)) (nthZ M g) in
  {| sA := d; sB := add32 b (rotl32 f' (nthZ shifts i)); sC := b; sD := c |}.

(** Little-endian word of four bytes. *)
Definition word_of (bs : list Z) : Z :=
  nthZ bs 0 + Z.shiftl (nthZ bs 1) 8 + Z.shiftl (nthZ bs 2) 16 + Z.shiftl (nthZ bs 3) 24.

Definition words_of (block : list Z) : list Z :=
  map (fun i => word_of (firstn 4 (skipn (4 * i) block))) (seq 0 16).

Definition process_block (st : state) (block : list Z) : state :=
  let M := words_of block in
  let st' := fold_left (step M) (map Z.of_nat (seq 0 64)) st in
  {| sA := add32 (sA st) (sA st'); sB := add32 (sB st) (sB st');
     sC := add32 (sC st) (sC st'); sD := add32 (sD st) (sD st') |}.

Fixpoint process (nblocks : nat) (st : state) (msg : list Z) : state :=
  match nblocks with
  | O => st
  | S k => process k (process_block st (firstn 64 msg)) (skipn 64 msg)
  end.

Definition le_bytes (n : nat) (x : Z) : list Z :=
  map (fun i => Z.land (Z.shiftr x (8 * Z.of_nat i)) 0xFF) (seq 0 n).

(** [0x80], zeros up to 56 modulo 64, then the bit length on 8 bytes. *)
Definition pad (msg : list Z) : list Z :=
  let len := Z.of_nat (length msg) in
  let zeros := Z.to_nat ((55 - len) mod 64) in
  msg ++ [0x80] ++ repeat 0 zeros ++ le_bytes 8 (Z.land (8 * len) 0xFFFFFFFFFFFFFFFF).

Definition digest (msg : list Z) : list Z :=
  let p := pad msg in
  let st := process (length p / 64)%nat init p in
  le_bytes 4 (sA st) ++ le_bytes 4 (sB st) ++ le_bytes 4 (sC st) ++ le_bytes 4 (sD st).

Definition hex_digit (n : Z) : ascii :=
  nth (Z.to_nat n) (list_ascii_of_string "0123456789abcdef") "0"%char.

Definition hex_byte (b : Z) : list ascii :=
  [hex_digit (Z.land (Z.shiftr b 4) 0xF); hex_digit (Z.land b 0xF)].

Definition bytes_of_string (s : string) : list Z :=
  map (fun a => Z.of_N (N_of_ascii a)) (list_ascii_of_string s).

(** [hashlib.md5(s.encode()).hexdigest()] *)
Definition hexdigest (s : string) : string :=
  string_of_list_ascii (flat_map hex_byte (digest (bytes_of_string s))).

End MD5.

(** ** Documents and the XPath fragment the spider uses

    A parsed page is a tree of elements and text nodes.  The location paths
    of the sources are chains of [//test] and [/test] steps; a node is
    selected when the chain of elements between the context node and the
    node matches the steps.  Selecting by the chain of each node, in one
    traversal, gives XPath's node sets: document order, every node once. *)

Module Dom.

Record elem := { tag : string; attrs : list (string * string) }.

#[local] Unset Elimination Schemes.
Inductive node :=
| Text (s : string)
| Elem (e : elem) (kids : list node).
#[local] Set Elimination Schemes.

Fixpoint get_attr (name : string) (l : list (string * string)) : option string :=
  match l with
  | [] => None
  | (k, v) :: l' => if String.eqb k name then Some v else get_attr name l'
  end.

Definition is_tag (t : string) (e : elem) : bool := String.eqb (tag e) t.

(** [[@name='v']] *)
Definition attr_eq (name v : string) (e : elem) : bool :=
  match get_attr name (attrs e) with
  | Some x => String.eqb x v
  | None => false
  end.

(** [[contains(@name, 'v')]] for a non-empty [v] *)
Definition attr_contains (name v : string) (e : elem) : bool :=
  match get_attr name (attrs e) with
  | Some x => contains v x
  | None => false
  end.

(** Every node of the subtree of [n], in document order, each with the
    elements above it, outermost first, starting from [anc]. *)
Fixpoint walk (anc : list elem) (n : node) : list (list elem * node) :=
  (anc, n) ::
  match n with
  | Text _ => []
  | Elem e kids => flat_map (walk (anc ++ [e])) kids
  end.

(** The nodes strictly below an element, with their chains relative to it. *)
Definition below (kids : list node) : list (list elem * node) :=
  flat_map (walk []) kids.

Inductive axis := Child | Desc.

Definition step : Type := axis * (elem -> bool).

Definition is_desc (a : axis) : bool :=
  match a with Desc => true | Child => false end.

(** Does [chain] match [steps]?  A [Desc] step may skip elements, a
    [Child] step takes the next one.  With [tail_any] the chain may go on
    below the last step (a final [//text()]), without it the last step is
    the last element of the chain. *)
Fixpoint match_path (tail_any : bool) (chain : list elem) (steps : list step)
  {struct chain} : bool :=
  match steps with
  | [] => tail_any || match chain with [] => true | _ => false end
  | (ax, test) :: rest =>
      match chain with
      | [] => false
      | e :: es =>
          (test e && match_path tail_any es rest)
          || (is_desc ax && match_path tail_any es steps)
      end
  end.

(** A selected element: the elements above it, itself, its children. *)
Record selected := { sel_anc : list elem; sel_elem : elem; sel_kids : list node }.

Definition select_elems (steps : list step) (cands : list (list elem * node))
  : list selected :=
  omap (fun '(anc, n) =>
          match n with
          | Elem e kids =>
              if match_path false (anc ++ [e]) steps
              then Some {| sel_anc := anc; sel_elem := e; sel_kids := kids |}
              else None
          | Text _ => None
          end) cands.

(** [steps/@name]: the attribute of every selected element that has it. *)
Definition select_attr (steps : list step) (name : string)
    (cands : list (list elem * node)) : list string :=
  omap (fun s => get_attr name (attrs (sel_elem s))) (select_elems steps cands).

(** [steps/text()] and [steps//text()], with a predicate on the chain of
    the text node. *)
Definition select_text (steps : list step) (tail_any : bool)
    (keep : list elem -> bool) (cands : list (list elem * node)) : list string :=
  omap (fun '(anc, n) =>
          match n with
          | Text s => if match_path tail_any anc steps && keep anc then Some s else None
          | Elem _ _ => None
          end) cands.

(** [.get()] *)
Definition get (l : list string) : option string := head l.

End Dom.

Export Dom.

(** ** [spiders/demospider.py] *)

Module Spider.

(** A [datetime]: microseconds since 0001-01-01T00:00:00 on the object's
    own clock, and for an aware object its UTC offset in microseconds. *)
Inductive datetime :=
| Naive (t : N)
| Aware (t : N) (utcoffset : Z).

(** [datetime.min] *)
Definition datetime_min : datetime := Naive 0.

(** [a < b]: two naive objects compare by their clocks, two aware ones by
    their UTC instants, and a naive one against an aware one raises
    [TypeError]. *)
Definition dt_lt (a b : datetime) : result bool :=
  match a, b with
  | Naive x, Naive y => Ok (x <? y)%N
  | Aware x ox, Aware y oy => Ok (Z.of_N x - ox <? Z.of_N y - oy)
  | _, _ => Raise TypeError
  end.

(** The library functions of the spider.  [urlparse_path url] is
    [urlparse(url).path]; [fromisoformat] raises [ValueError] on a string
    it cannot parse. *)
Class Lib := {
  urlparse_path : string -> string;
  urljoin : string -> string -> string;
  fromisoformat : string -> result datetime
}.

(** The [thread_info] dictionary built by [parse]. *)
Record ThreadInfo := {
  url : string;
  thread_title : option string;
  thread_date : option string;
  timestamp : option datetime
}.

(** [scrapy.Request(url, callback=self.parse_latest_message,
    meta={'thread_info': thread}, dont_filter=True)] *)
Record Request := { req_url : string; req_meta : ThreadInfo }.

Record Response := {
  resp_url : string;
  resp_meta : option ThreadInfo;
  resp_body : node
}.

Abbreviation item := (gmap string value).

Section WithLib.
Context `{Lib}.

Definition extract_thread_id (url : string) : option string :=
  let path_parts := split "." (urlparse_path url) in
  if (1 <? length path_parts)%nat
  then last path_parts
  else None.

Definition generate_item_id (thread_url : string) (timestamp : option string)
  : option string :=
  match extract_thread_id thread_url, timestamp with
  | Some thread_id, Some ts =>
      if nonempty thread_id && nonempty ts
      then Some (MD5.hexdigest (String.append thread_id (String.append "_" ts)))
      else None
  | _, _ => None
  end.

(** *** [parse] *)

Definition thread_containers (doc : node) : list selected :=
  select_elems
    [(Desc, fun e => is_tag "div" e
                     && attr_contains "class" "structItem structItem--thread" e)]
    (walk [] doc).

Definition latest_link_of (thread : selected) : option string :=
  get (select_attr
         [(Desc, fun e => is_tag "div" e
                          && attr_eq "class" "structItem-cell structItem-cell--latest" e);
          (Desc, fun e => is_tag "a" e && attr_contains "href" "/latest" e)]
         "href" (below (sel_kids thread))).

Definition thread_date_str_of (thread : selected) : option string :=
  get (select_attr
         [(Desc, fun e => is_tag "div" e
                          && attr_eq "class" "structItem-cell structItem-cell--main" e);
          (Desc, is_tag "time")]
         "datetime" (below (sel_kids thread))).

Definition thread_title_of (thread : selected) : option string :=
  get (select_text
         [(Desc, fun e => is_tag "div" e && attr_eq "class" "structItem-title" e);
          (Desc, is_tag "a")]
         false (fun _ => true) (below (sel_kids thread))).

(** The body of the [for thread in thread_containers] loop: the entry
    appended to [threads], if any. *)
Definition thread_info_of (base : string) (thread : selected)
  : result (option ThreadInfo) :=
  match latest_link_of thread with
  | Some latest_link =>
      if nonempty latest_link then
        let thread_date_str := thread_date_str_of thread in
        bind (match thread_date_str with
              | Some s => if nonempty s
                          then bind (fromisoformat (replace_Z s)) (fun d => Ok (Some d))
                          else Ok None
              | None => Ok None
              end)
             (fun ts =>
                Ok (Some {| url := urljoin base latest_link;
                            thread_title := thread_title_of thread;
                            thread_date := thread_date_str;
                            timestamp := ts |}))
      else Ok None
  | None => Ok None
  end.

Fixpoint collect_threads (base : string) (containers : list selected)
  : result (list ThreadInfo) :=
  match containers with
  | [] => Ok []
  | thread :: rest =>
      bind (thread_info_of base thread) (fun o =>
      bind (collect_threads base rest) (fun threads =>
      Ok (match o with Some ti => ti :: threads | None => threads end)))
  end.

(** [lambda x: x['timestamp'] if x['timestamp'] else datetime.min];
    a [datetime] is always true. *)
Definition sort_key (x : ThreadInfo) : datetime :=
  match timestamp x with
  | Some d => d
  | None => datetime_min
  end.

(** [sorted(threads, key=..., reverse=True)].  [list.sort] is a stable
    comparison sort that only asks [<] of the keys, and with
    [reverse=True] entries with equal keys keep their order.  Where all
    keys compare, the result is the one stable descending order, which
    the insertion below computes; where a naive and an aware key meet,
    every comparison sort has to compare one with the other, and the
    [TypeError] of that comparison leaves [sorted]. *)
Fixpoint insert_desc (x : ThreadInfo) (l : list ThreadInfo) : result (list ThreadInfo) :=
  match l with
  | [] => Ok [x]
  | y :: ys =>
      bind (dt_lt (sort_key x) (sort_key y)) (fun below_y =>
      if below_y
      then bind (insert_desc x ys) (fun r => Ok (y :: r))
      else Ok (x :: l))
  end.

Fixpoint sorted_desc (threads : list ThreadInfo) : result (list ThreadInfo) :=
  match threads with
  | [] => Ok []
  | x :: rest => bind (sorted_desc rest) (insert_desc x)
  end.

(** The requests [parse] yields, in order.  The sort completes before
    the first [yield], so an exception leaves no request behind. *)
Definition parse (response : Response) : result (list Request) :=
  bind (collect_threads (resp_url response) (thread_containers (resp_body response)))
    (fun threads =>
  bind (sorted_desc threads) (fun sorted_threads =>
  Ok (map (fun thread => {| req_url := url thread; req_meta := thread |})
          sorted_threads))).

(** *** [parse_latest_message] *)

Definition message_containers (doc : node) : list selected :=
  select_elems
    [(Desc, fun e => is_tag "article" e
                     && attr_contains "class" "message message--post" e)]
    (walk [] doc).

Definition is_blockquote (e : elem) : bool := is_tag "blockquote" e.

Definition body_path : list step :=
  [(Desc, fun e => is_tag "div" e && attr_contains "class" "message-userContent" e);
   (Desc, fun e => is_tag "div" e && attr_eq "class" "bbWrapper" e)].

(** [.//div[contains(@class, 'message-userContent')]//div[@class='bbWrapper']
     //text()[not(ancestor::blockquote)]], [.getall()].  The ancestors
    of a text node are those of the container, the container, and the
    chain below it. *)
Definition message_fragments (c : selected) : list string :=
  select_text body_path true
    (fun chain => negb (existsb is_blockquote (sel_anc c ++ [sel_elem c] ++ chain)))
    (below (sel_kids c)).

(** [' '.join([text.strip() for text in message_content if text.strip()])] *)
Definition normalize (fragments : list string) : string :=
  join " " (map strip (List.filter (fun text => nonempty (strip text)) fragments)).

Definition username_of (c : selected) : option string :=
  get (select_text
         [(Desc, fun e => is_tag "h4" e && attr_eq "class" "message-name" e);
          (Desc, fun e => is_tag "span" e && attr_eq "itemprop" "name" e)]
         false (fun _ => true) (below (sel_kids c))).

Definition timestamp_of (c : selected) : option string :=
  get (select_attr
         [(Desc, fun e => is_tag "time" e && attr_eq "class" "u-dt" e)]
         "datetime" (below (sel_kids c))).

(** The items [parse_latest_message] yields.  [xpath(...)[-1]] raises
    [IndexError] on a page without a message container; the container it
    returns otherwise is an element, which is true in [if
    message_container:]. *)
Definition parse_latest_message (response : Response) : result (list item) :=
  match resp_meta response with
  | None => Raise KeyError
  | Some thread_info =>
      match last (message_containers (resp_body response)) with
      | None => Raise IndexError
      | Some message_container =>
          let message_content := normalize (message_fragments message_container) in
          let username := username_of message_container in
          let timestamp := timestamp_of message_container in
          let item_id := generate_item_id (resp_url response) timestamp in
          Ok [ <["id" := of_opt item_id]>
               (<["thread_title" := of_opt (thread_title thread_info)]>
               (<["thread_date" := of_opt (thread_date thread_info)]>
               (<["latest_poster" := of_opt username]>
               (<["latest_post_time" := of_opt timestamp]>
               (<["message_content" := VStr message_content]>
               (<["thread_url" := VStr (resp_url response)]> ∅)))))) ]
      end
  end.

End WithLib.

End Spider.

(** ** The table [voz_messages] *)

Module Store.

(** Modelled from the spec: the declaration of the table [voz_messages],
    which is not in the sources.  The columns are those of the [INSERT]
    statement: the primary key [id] (so never null), six text columns
    holding [NULL] or a string, three integer counts and the timestamp
    [analyzed_at].  There is no [thread_id] column. *)
Record Row := {
  thread_title : option string;
  thread_date : option string;
  latest_poster : option string;
  latest_post_time : option string;
  message_content : option string;
  thread_url : option string;
  positive_count : Z;
  negative_count : Z;
  neutral_count : Z;
  analyzed_at : N
}.

(** The rows by primary key. *)
Abbreviation table := (gmap string Row).

(** [ON CONFLICT (id) DO UPDATE SET positive_count = EXCLUDED.positive_count,
    negative_count = ..., neutral_count = ..., analyzed_at = ...] *)
Definition on_conflict (old excluded : Row) : Row :=
  {| thread_title := thread_title old;
     thread_date := thread_date old;
     latest_poster := latest_poster old;
     latest_post_time := latest_post_time old;
     message_content := message_content old;
     thread_url := thread_url old;
     positive_count := positive_count excluded;
     negative_count := negative_count excluded;
     neutral_count := neutral_count excluded;
     analyzed_at := analyzed_at excluded |}.

(** [INSERT INTO voz_messages (...) VALUES (...) ON CONFLICT (id) DO UPDATE ...] *)
Definition upsert (t : table) (id : string) (r : Row) : table :=
  match t !! id with
  | Some old => <[id := on_conflict old r]> t
  | None => <[id := r]> t
  end.

End Store.

(** ** [pipelines.py] *)

Module Pipelines.

Import Store.

Abbreviation item := (gmap string value).

(** [underthesea.sentiment]: a label, or an exception. *)
Class Classifier := { sentiment : value -> result value }.

(** What the module's [logger] is told. *)
Inductive log_entry :=
| SentimentError (e : exn)            (* error: Error in sentiment analysis *)
| Processed (id : value)              (* info:  Processed item {id} *)
| ProcessingError (e : exn)           (* error: Error processing item *)
| ConnectError (e : exn)              (* error: Error connecting to database *)
| Stored (id : value)                 (* info:  Successfully stored item {id} *)
| StoreError (id : value) (e : exn).  (* error: Error storing item {id} *)

(** [{'positive': p, 'negative': n, 'neutral': u}] *)
Definition counts (p n u : Z) : gmap string value :=
  <["positive" := VInt p]> (<["negative" := VInt n]> (<["neutral" := VInt u]> ∅)).

Definition value_eqb (a b : value) : bool :=
  match a, b with
  | VNone, VNone => true
  | VStr x, VStr y => String.eqb x y
  | VInt x, VInt y => Z.eqb x y
  | VStamp x, VStamp y => N.eqb x y
  | _, _ => false
  end.

Module FetchMessagePipeline.
Section WithClassifier.
Context `{Classifier}.

Definition analyze_sentiment (text : value) : gmap string value * list log_entry :=
  match sentiment text with
  | Ok sentiment_label =>
      if value_eqb sentiment_label (VStr "positive") then (counts 1 0 0, [])
      else if value_eqb sentiment_label (VStr "negative") then (counts 0 1 0, [])
      else (counts 0 0 1, [])
  | Raise e => (counts 0 0 0, [SentimentError e])
  end.

(** [now] is the reading of [datetime.now()].  The dictionary is
    updated in place, so the item returned after a failing
    [item['id']] in the log line is the updated one. *)
Definition process_item (it : item) (now : N) : item * list log_entry :=
  match it !! "message_content" with
  | None => (it, [ProcessingError KeyError])
  | Some message_text =>
      let '(sentiment_counts, log) := analyze_sentiment message_text in
      let it' := (<["processed_at" := VStamp now]> sentiment_counts) ∪ it in
      match it' !! "id" with
      | Some id => (it', log ++ [Processed id])
      | None => (it', log ++ [ProcessingError KeyError])
      end
  end.

End WithClassifier.
End FetchMessagePipeline.

Module SentimentAnalysisPipeline.

(** The pipeline object: [has_conn] tells whether [__init__] got to set
    [self.conn] and [self.cur]; [db] is the committed content of the
    table the connection points to. *)
Record t := { has_conn : bool; db : table }.

(** [__init__]: an exception of [psycopg2.connect] is logged, and the
    object is left without [conn] and [cur]. *)
Definition init (connect : result unit) (d : table) : t * list log_entry :=
  match connect with
  | Ok _ => ({| has_conn := true; db := d |}, [])
  | Raise e => ({| has_conn := false; db := d |}, [ConnectError e])
  end.

(** What the driver does in one call of [process_item], beyond checking
    the statement: each of [execute], [commit] and [rollback] may raise. *)
Record Faults := {
  execute_fault : option exn;
  commit_fault : option exn;
  rollback_fault : option exn
}.

Definition no_fault : Faults :=
  {| execute_fault := None; commit_fault := None; rollback_fault := None |}.

Definition lookup_key (it : item) (k : string) : result value :=
  match it !! k with
  | Some v => Ok v
  | None => Raise KeyError
  end.

(** A parameter bound to a column: a text column takes [None] or a
    string, an integer column an integer, the timestamp column a
    timestamp; the store refuses anything else. *)
Definition as_text (v : value) : result (option string) :=
  match v with
  | VNone => Ok None
  | VStr s => Ok (Some s)
  | _ => Raise DatabaseError
  end.

Definition as_int (v : value) : result Z :=
  match v with
  | VInt n => Ok n
  | _ => Raise DatabaseError
  end.

Definition as_stamp (v : value) : result N :=
  match v with
  | VStamp t => Ok t
  | _ => Raise DatabaseError
  end.

(** The parameter tuple, in the order the tuple is built. *)
Definition params (it : item) : result (list value) :=
  let fix go ks :=
    match ks with
    | [] => Ok []
    | k :: ks' => bind (lookup_key it k) (fun v =>
                  bind (go ks') (fun vs => Ok (v :: vs)))
    end in
  go ["id"; "thread_title"; "thread_date"; "latest_poster"; "latest_post_time";
      "message_content"; "thread_url"; "positive"; "negative"; "neutral";
      "processed_at"].

(** The row and key the statement writes; a null key violates the
    primary key. *)
Definition row_of (ps : list value) : result (string * Row) :=
  match ps with
  | [vid; v1; v2; v3; v4; v5; v6; vp; vn; vu; vt] =>
      bind (as_text vid) (fun oid =>
      bind (as_text v1) (fun c1 => bind (as_text v2) (fun c2 =>
      bind (as_text v3) (fun c3 => bind (as_text v4) (fun c4 =>
      bind (as_text v5) (fun c5 => bind (as_text v6) (fun c6 =>
      bind (as_int vp) (fun p => bind (as_int vn) (fun n =>
      bind (as_int vu) (fun u => bind (as_stamp vt) (fun ts =>
      match oid with
      | None => Raise DatabaseError
      | Some id =>
          Ok (id, {| thread_title := c1; thread_date := c2; latest_poster := c3;
                     latest_post_time := c4; message_content := c5;
                     thread_url := c6; positive_count := p; negative_count := n;
                     neutral_count := u; analyzed_at := ts |})
      end)))))))))))
  | _ => Raise DatabaseError
  end.

Definition raise_if (f : option exn) : result unit :=
  match f with
  | Some e => Raise e
  | None => Ok tt
  end.

(** The [try] block: the table as committed, and the log line.  Without
    [self.cur] the first attribute access raises. *)
Definition try_store (p : t) (it : item) (f : Faults) : result (table * list log_entry) :=
  if has_conn p then
    bind (params it) (fun ps =>
    bind (raise_if (execute_fault f)) (fun _ =>
    bind (row_of ps) (fun '(id, r) =>
    bind (raise_if (commit_fault f)) (fun _ =>
    bind (lookup_key it "id") (fun vid =>
    Ok (upsert (db p) id r, [Stored vid]))))))
  else Raise AttributeError.

(** The [except] block: the log line needs [item['id']], the rollback
    needs [self.conn]; an exception of either leaves [process_item].
    The rollback discards what [execute] wrote. *)
Definition on_error (p : t) (it : item) (f : Faults) (e : exn)
  : result unit * list log_entry :=
  match lookup_key it "id" with
  | Raise e' => (Raise e', [])
  | Ok vid =>
      (if has_conn p then raise_if (rollback_fault f) else Raise AttributeError,
       [StoreError vid e])
  end.

(** [process_item]: the item returned or the exception raised, the
    pipeline afterwards, and the log. *)
Definition process_item (p : t) (it : item) (f : Faults)
  : result item * t * list log_entry :=
  match try_store p it f with
  | Ok (d, log) => (Ok it, {| has_conn := has_conn p; db := d |}, log)
  | Raise e =>
      let '(r, log) := on_error p it f e in
      (bind r (fun _ => Ok it), p, log)
  end.

End SentimentAnalysisPipeline.

(** Modelled from the spec: the order of the two stages, which the Scrapy
    settings fix and the sources do not show.  An item is tagged, then
    stored (spec section 2, data flow). *)
Definition run_item `{Classifier} (p : SentimentAnalysisPipeline.t) (it : item)
    (now : N) (f : SentimentAnalysisPipeline.Faults)
  : result item * SentimentAnalysisPipeline.t * list log_entry :=
  let '(it', log1) := FetchMessagePipeline.process_item it now in
  let '(r, p', log2) := SentimentAnalysisPipeline.process_item p it' f in
  (r, p', log1 ++ log2).

End Pipelines.

(** ** [main.py]: [GET /messages/sentiment] *)

Module Api.

Import Store.

(** A row of the [SELECT]. *)
Record Message := {
  id : string;
  m_thread_title : option string;
  m_thread_date : option string;
  m_message_content : option string;
  m_latest_poster : option string;
  m_latest_post_time : option string;
  m_thread_url : option string;
  sentiment : string;
  m_analyzed_at : N
}.

Record Page := {
  messages : list Message;
  total : Z;
  limit : Z;
  offset : Z
}.

(** A response body, or the status of the error response. *)
Inductive http (A : Type) :=
| Response200 (a : A)
| HTTPError (status : Z).
Arguments Response200 {A} a.
Arguments HTTPError {A} status.

(** [CASE WHEN positive_count = 1 THEN 'positive'
          WHEN negative_count = 1 THEN 'negative' ELSE 'neutral' END] *)
Definition sentiment_of (r : Row) : string :=
  if positive_count r =? 1 then "positive"
  else if negative_count r =? 1 then "negative"
  else "neutral".

Definition to_message (kr : string * Row) : Message :=
  let '(k, r) := kr in
  {| id := k;
     m_thread_title := thread_title r;
     m_thread_date := thread_date r;
     m_message_content := message_content r;
     m_latest_poster := latest_poster r;
     m_latest_post_time := latest_post_time r;
     m_thread_url := thread_url r;
     sentiment := sentiment_of r;
     m_analyzed_at := analyzed_at r |}.

(** [ORDER BY analyzed_at DESC] *)
Definition newer_first (a b : Message) : Prop :=
  (m_analyzed_at b <= m_analyzed_at a)%N.

#[export] Instance newer_first_dec : RelDecision newer_first.
Proof. intros a b. unfold newer_first. apply N.le_dec. Defined.

(** SQL leaves the order of rows with equal [analyzed_at] to the engine,
    and the engine may choose differently in each query.  The choice made
    in one query is a parameter [rank] of that query: among rows with
    equal [analyzed_at] the row whose id has the smaller rank comes
    first.  Every order the engine may return is the order of some
    [rank] (lemma [ordered_any_order] below). *)
Definition newer_first_by (rank : string -> N) (a b : Message) : Prop :=
  (m_analyzed_at b < m_analyzed_at a)%N
  \/ (m_analyzed_at a = m_analyzed_at b /\ (rank (id a) <= rank (id b))%N).

#[export] Instance newer_first_by_dec rank : RelDecision (newer_first_by rank).
Proof. intros a b. unfold newer_first_by. apply _. Defined.

(** The rows in the order of the [SELECT]. *)
Definition ordered (rank : string -> N) (conn : table) : list Message :=
  merge_sort (newer_first_by rank) (map to_message (map_to_list conn)).

(** The rank that gives the rows in the order of the list [l]: the
    position of the id in [l]. *)
Fixpoint rank_of (l : list Message) (k : string) : N :=
  match l with
  | [] => 0%N
  | m :: l => if decide (id m = k) then 0%N else N.succ (rank_of l k)
  end.

(** No two rows share their [analyzed_at]. *)
Definition no_ties (conn : table) : Prop :=
  NoDup ((fun kr : string * Row => analyzed_at kr.2) <$> map_to_list conn).

(** PostgreSQL evaluates [LIMIT] and [OFFSET] as [bigint]. *)
Definition bigint_max : Z := 9223372036854775807.

(** The driver prints an integer parameter with [str]; where Python
    limits that conversion, it is to 4300 digits.  The statements below
    that are about an integer [bigint] does not hold stay below this
    limit, so that the integer does reach the store. *)
Definition max_str_digits : Z := 4300.

(** The two queries of [get_messages_with_sentiment].  With a thread
    filter both name the column [thread_id], which the table does not
    have; a negative [LIMIT] or [OFFSET] is refused as well, and so is
    one that [bigint] cannot hold (Python's [int] has no bound and is sent
    as it is).  The [psycopg2.Error] becomes [HTTPException(500)]. *)
Definition get_messages_with_sentiment (rank : string -> N) (conn : table)
    (limit offset : Z) (thread_id : option string) : http Page :=
  if truthy thread_id then HTTPError 500
  else if (limit <? 0) || (offset <? 0) then HTTPError 500
  else if (bigint_max <? limit) || (bigint_max <? offset) then HTTPError 500
  else Response200
         {| messages := take (Z.to_nat limit)
                          (drop (Z.to_nat offset) (ordered rank conn));
            total := Z.of_nat (size conn);
            limit := limit;
            offset := offset |}.

(** The endpoint: [limit: int = Query(10, ge=1, le=100)],
    [offset: int = Query(0, ge=0)]; a value outside its bounds is answered
    with a validation error, status 422. *)
Definition get_messages (rank : string -> N) (conn : table)
    (limit offset : option Z) (thread_id : option string) : http Page :=
  let limit := default 10 limit in
  let offset := default 0 offset in
  if (1 <=? limit) && (limit <=? 100) && (0 <=? offset)
  then get_messages_with_sentiment rank conn limit offset thread_id
  else HTTPError 422.

(** The endpoint as the specification words it, to compare with
    [get_messages]: [limit] is clamped to [1, 100], [offset] to at least 0. *)
Definition clamp (lo hi x : Z) : Z := Z.max lo (Z.min hi x).

Definition get_messages_clamping (rank : string -> N) (conn : table)
    (limit offset : option Z) (thread_id : option string) : http Page :=
  get_messages_with_sentiment rank conn (clamp 1 100 (default 10 limit))
    (Z.max 0 (default 0 offset)) thread_id.

End Api.

(** ** Concrete library functions and pages, for the examples

    The statements below hold for every instance of [Spider.Lib] and
    [Pipelines.Classifier].  To run the definitions on concrete pages the
    library functions are written out here on the inputs the examples use. *)

Module Sample.

Import Spider.

Fixpoint drop_until (stop : ascii -> bool) (s : string) : string :=
  match s with
  | EmptyString => EmptyString
  | String a s' => if stop a then s else drop_until stop s'
  end.

Fixpoint take_until (stop : ascii -> bool) (s : string) : string :=
  match s with
  | EmptyString => EmptyString
  | String a s' => if stop a then EmptyString else String a (take_until stop s')
  end.

Definition after_scheme (u : string) : string :=
  match drop_prefix "https://" u with
  | Some r => r
  | None => default u (drop_prefix "http://" u)
  end.

Definition ends_netloc (a : ascii) : bool :=
  Ascii.eqb a "/" || Ascii.eqb a "?" || Ascii.eqb a "#".

Definition ends_path (a : ascii) : bool := Ascii.eqb a "?" || Ascii.eqb a "#".

(** [urlparse(u).path] for [u] of the shape
    [http(s)://host/path?query#fragment] without [;] parameters. *)
Definition url_path (u : string) : string :=
  take_until ends_path (drop_until ends_netloc (after_scheme u)).

(** [scheme://host] of such a URL. *)
Definition url_origin (u : string) : string :=
  let rest := after_scheme u in
  let scheme_len := (String.length u - String.length rest)%nat in
  String.append (String.substring 0 scheme_len u) (take_until ends_netloc rest).

(** [urljoin(base, link)] for a [link] that is an absolute URL or an
    absolute path. *)
Definition url_join (base link : string) : string :=
  if String.prefix "http://" link || String.prefix "https://" link then link
  else String.append (url_origin base) link.

Definition digit (a : ascii) : option N :=
  let n := N_of_ascii a in
  if (48 <=? n)%N && (n <=? 57)%N then Some (n - 48)%N else None.

(** The decimal number written by [s], all of whose characters are digits. *)
Fixpoint number (acc : N) (s : string) : option N :=
  match s with
  | EmptyString => Some acc
  | String a s' =>
      match digit a with
      | Some d => number (10 * acc + d)%N s'
      | None => None
      end
  end.

Definition field (s : string) (pos len : nat) : option N :=
  let f := String.substring pos len s in
  if (String.length f =? len)%nat then number 0 f else None.

Definition char_at (s : string) (pos : nat) (c : ascii) : bool :=
  match String.get pos s with
  | Some a => Ascii.eqb a c
  | None => false
  end.

Definition is_leap (y : N) : bool :=
  ((y mod 4 =? 0) && (negb (y mod 100 =? 0) || (y mod 400 =? 0)))%N.

Definition days_in_month (y m : N) : N :=
  if (m =? 2)%N then (if is_leap y then 29 else 28)%N
  else if (m =? 4)%N || (m =? 6)%N || (m =? 9)%N || (m =? 11)%N then 30%N
  else 31%N.

Definition days_before_year (y : N) : N :=
  let y' := (y - 1)%N in
  (y' * 365 + y' / 4 - y' / 100 + y' / 400)%N.

Definition days_before_month (y m : N) : N :=
  fold_left N.add (map (days_in_month y) (map N.of_nat (seq 1 (N.to_nat m - 1)))) 0%N.

(** Microseconds from 0001-01-01T00:00:00. *)
Definition clock (y m d hh mm ss : N) : N :=
  (((((days_before_year y + days_before_month y m + (d - 1)) * 24 + hh) * 60 + mm) * 60 + ss)
   * 1000000)%N.

Definition local_part (s : string) : option N :=
  match field s 0 4, field s 5 2, field s 8 2, field s 11 2, field s 14 2, field s 17 2 with
  | Some y, Some m, Some d, Some hh, Some mm, Some ss =>
      if char_at s 4 "-" && char_at s 7 "-" && char_at s 10 "T"
         && char_at s 13 ":" && char_at s 16 ":"
         && (1 <=? y)%N && (1 <=? m)%N && (m <=? 12)%N
         && (1 <=? d)%N && (d <=? days_in_month y m)%N
         && (hh <? 24)%N && (mm <? 60)%N && (ss <? 60)%N
      then Some (clock y m d hh mm ss)
      else None
  | _, _, _, _, _, _ => None
  end.

Definition offset_part (s : string) : option Z :=
  match field s 20 2, field s 23 2 with
  | Some hh, Some mm =>
      if char_at s 22 ":" && (hh <? 24)%N && (mm <? 60)%N then
        let us := Z.of_N ((hh * 60 + mm) * 60 * 1000000) in
        if char_at s 19 "+" then Some us
        else if char_at s 19 "-" then Some (- us)
        else None
      else None
  | _, _ => None
  end.

(** [datetime.fromisoformat] on [YYYY-MM-DDTHH:MM:SS] and
    [YYYY-MM-DDTHH:MM:SS+HH:MM] (or [-HH:MM]), and on strings that are
    no date at all. *)
Definition iso (s : string) : result datetime :=
  match local_part s with
  | None => Raise ValueError
  | Some t =>
      if (String.length s =? 19)%nat then Ok (Naive t)
      else if (String.length s =? 25)%nat then
        match offset_part s with
        | Some off => Ok (Aware t off)
        | None => Raise ValueError
        end
      else Raise ValueError
  end.

#[export] Instance lib : Lib :=
  {| urlparse_path := url_path; urljoin := url_join; fromisoformat := iso |}.

(** A classifier that fails on the empty text and recognises two words. *)
#[export] Instance classifier : Pipelines.Classifier :=
  {| Pipelines.sentiment v :=
       match v with
       | VStr s =>
           if String.eqb s EmptyString then Raise ValueError
           else if contains "tot" s then Ok (VStr "positive")
           else if contains "te" s then Ok (VStr "negative")
           else Ok (VStr "neutral")
       | _ => Raise TypeError
       end |}.

Definition el (t : string) (a : list (string * string)) (kids : list node) : node :=
  Elem {| tag := t; attrs := a |} kids.

(** One entry of the listing page. *)
Definition listing_entry (link title : string) (date : option string) : node :=
  el "div" [("class", "structItem structItem--thread js-inlineModContainer")]
    [ el "div" [("class", "structItem-cell structItem-cell--main")]
        [ el "div" [("class", "structItem-title")] [ el "a" [("href", link)] [Text title] ];
          el "time" (match date with Some d => [("datetime", d)] | None => [] end) [] ];
      el "div" [("class", "structItem-cell structItem-cell--latest")]
        [ el "a" [("href", String.append link "latest")] [Text "latest"] ] ].

Definition listing (entries : list node) : Response :=
  {| resp_url := "https://voz.vn/whats-new";
     resp_meta := None;
     resp_body := el "html" [] [ el "body" [] entries ] |}.

(** A reply: poster, optional post time, and the nodes of its body. *)
Definition reply (poster : string) (time : option string) (body : list node) : node :=
  el "article" [("class", "message message--post js-post")]
    [ el "h4" [("class", "message-name")]
        [ el "span" [("itemprop", "name")] [Text poster] ];
      el "time" (("class", "u-dt") :: match time with
                                      | Some t => [("datetime", t)]
                                      | None => []
                                      end) [];
      el "div" [("class", "message-userContent lbContainer")]
        [ el "div" [("class", "bbWrapper")] body ] ].

Definition thread_page (u : string) (ti : ThreadInfo) (replies : list node) : Response :=
  {| resp_url := u;
     resp_meta := Some ti;
     resp_body := el "html" [] [ el "body" [] replies ] |}.

Definition info : ThreadInfo :=
  {| url := "https://voz.vn/t/chuyen-tro.12345/latest";
     thread_title := Some "Chuyen tro";
     thread_date := Some "2024-05-01T10:00:00";
     timestamp := Some (Naive 63850154400000000) |}.

(** A quoted block followed by original text. *)
Definition quoted_reply : node :=
  reply "an" (Some "2024-05-01T12:30:00+0700")
    [ el "blockquote" [("class", "bbCodeBlock")]
        [ el "div" [] [Text "  binh said: "; Text "qua te"] ];
      Text "  toi thay ";
      el "b" [] [Text " tot "];
      Text "   " ].


(** A thread with a UTC date and one without a date. *)
Definition utc_and_undated : Response :=
  listing [ listing_entry "/t/mot.1/" "Mot" (Some "2024-05-01T10:00:00Z");
            listing_entry "/t/hai.2/" "Hai" None ].

(** An item as the tagging stage hands it to the storage stage. *)
Definition tagged_item (item_id : option string) (content : string)
    (p n u : Z) (processed_at : N) : gmap string value :=
  <["id" := of_opt item_id]>
  (<["thread_title" := VStr "Chuyen tro"]>
  (<["thread_date" := VStr "2024-05-01T10:00:00"]>
  (<["latest_poster" := VStr "an"]>
  (<["latest_post_time" := VStr "2024-05-01T12:30:00+0700"]>
  (<["message_content" := VStr content]>
  (<["thread_url" := VStr "https://voz.vn/t/chuyen-tro.12345/latest"]>
  (<["positive" := VInt p]>
  (<["negative" := VInt n]>
  (<["neutral" := VInt u]>
  (<["processed_at" := VStamp processed_at]> ∅)))))))))).

Definition stored_row (content : string) (p n u : Z) (t : N) : Store.Row :=
  {| Store.thread_title := Some "Chuyen tro";
     Store.thread_date := Some "2024-05-01T10:00:00";
     Store.latest_poster := Some "an";
     Store.latest_post_time := Some "2024-05-01T12:30:00+0700";
     Store.message_content := Some content;
     Store.thread_url := Some "https://voz.vn/t/chuyen-tro.12345/latest";
     Store.positive_count := p;
     Store.negative_count := n;
     Store.neutral_count := u;
     Store.analyzed_at := t |}.

(** Three stored messages, analysed at 100, 300 and 200. *)
Definition three_rows : gmap string Store.Row :=
  <["91a7" := stored_row "toi thay tot" 1 0 0 100]>
  (<["0b3c" := stored_row "qua te" 0 1 0 300]>
  (<["f2d1" := stored_row "khong biet" 0 0 1 200]> ∅)).

(** A reply without a post time. *)
Definition undated_reply : node := reply "an" None [Text "khong biet"].

End Sample.


(** ** The specification's own wording: quote stripping and ordering, to
    compare with the definitions above *)

Module Spec.

Import Spider.

(** A tree without its quoted-content blocks. *)
Fixpoint prune (n : node) : list node :=
  match n with
  | Text s => [Text s]
  | Elem e kids => if is_blockquote e then [] else [Elem e (flat_map prune kids)]
  end.

(** The text of the message body once every quoted block is cut out of the
    page; nothing if the reply itself sits in a quoted block. *)
Definition unquoted_fragments (c : selected) : list string :=
  if existsb is_blockquote (sel_anc c ++ [sel_elem c]) then []
  else select_text body_path true (fun _ => true) (below (flat_map prune (sel_kids c))).

(** Each fragment trimmed, the empty ones discarded, the rest joined by
    single spaces. *)
Definition trimmed_join (fragments : list string) : string :=
  join " " (List.filter nonempty (map strip fragments)).

(** The instant a [datetime] is ordered by. *)
Definition instant (d : datetime) : Z :=
  match d with
  | Naive t => Z.of_N t
  | Aware t off => Z.of_N t - off
  end.

Definition is_naive (d : datetime) : bool :=
  match d with Naive _ => true | Aware _ _ => false end.

(** Most recent first. *)
Definition newest_first (a b : ThreadInfo) : Prop :=
  instant (sort_key b) <= instant (sort_key a).

(** The keys are all naive or all aware, so that any two compare. *)
Definition same_kind (threads : list ThreadInfo) : Prop :=
  exists b, Forall (fun x => is_naive (sort_key x) = b) threads.

(** The entries whose key is the instant [k], in order. *)
Definition with_instant (k : Z) (threads : list ThreadInfo) : list ThreadInfo :=
  List.filter (fun x => instant (sort_key x) =? k) threads.

Definition is_hex (a : ascii) : bool :=
  existsb (Ascii.eqb a) (list_ascii_of_string "0123456789abcdef").

(** The digest the specification names is the one [hashlib.md5] computes:
    the test suite of RFC 1321 (A.5), messages with their digests. *)
Definition md5_test_suite : list (string * string) :=
  [ (EmptyString, "d41d8cd98f00b204e9800998ecf8427e");
    ("a", "0cc175b9c0f1b6a831c399e269772661");
    ("abc", "900150983cd24fb0d6963f7d28e17f72");
    ("message digest", "f96b697d7cb7938d525a2f31aaf161d0");
    ("abcdefghijklmnopqrstuvwxyz", "c3fcd3d76192e4007dfb496cca67e13b");
    ("ABCDEFGHIJKLMNOPQRSTUVWXYZabcdefghijklmnopqrstuvwxyz0123456789",
     "d174ab98d277d9f5a5611c2c9f419d9f");
    ("12345678901234567890123456789012345678901234567890123456789012345678901234567890",
     "57edf4a22be3c955ac49da2e2107b67a") ].

End Spec.

(** ** [main.py]: start-up, connections, statistics, ad-hoc analysis *)

Module Main.

Import Store.

(** A call of the API ends in a value or in a failure: an
    [HTTPException(status)] or another Python exception.  [DatabaseError]
    stands for [psycopg2.Error] and its subclasses. *)
Inductive failure :=
| Http (status : Z)
| Exn (e : exn).

Inductive outcome (A : Type) :=
| Return (a : A)
| Fail (f : failure).
Arguments Return {A} a.
Arguments Fail {A} f.

(** *** [wait_for_db] *)

(** What [wait_for_db] did: what it returned or raised, how many times it
    called [psycopg2.connect], and for how long it slept. *)
Record Waited := {
  returned : result bool;
  attempts : nat;
  slept : Z
}.

(** The [while retries < max_retries] loop; [remaining] is
    [max_retries - retries].  [connect i] is what the call number [i] of
    [psycopg2.connect] (and the [conn.close()] after it) does.  Only
    [psycopg2.Error] is caught; [time.sleep] raises [ValueError] on a
    negative delay. *)
Fixpoint wait_loop (remaining : nat) (connect : nat -> result unit)
    (delay_seconds : Z) (retries : nat) (slept : Z) : Waited :=
  match remaining with
  | O => {| returned := Raise OtherError; attempts := retries; slept := slept |}
  | S remaining' =>
      match connect retries with
      | Ok _ => {| returned := Ok true; attempts := S retries; slept := slept |}
      | Raise DatabaseError =>
          if delay_seconds <? 0
          then {| returned := Raise ValueError; attempts := S retries; slept := slept |}
          else wait_loop remaining' connect delay_seconds (S retries)
                 (slept + delay_seconds)
      | Raise e => {| returned := Raise e; attempts := S retries; slept := slept |}
      end
  end.

Definition wait_for_db (max_retries delay_seconds : Z) (connect : nat -> result unit)
  : Waited :=
  wait_loop (Z.to_nat max_retries) connect delay_seconds 0 0.

(** *** [get_db_connection] *)

Inductive event := Opened | Closed.

(** [with get_db_connection() as conn: body].  A [psycopg2.Error] of
    [connect] or of the body becomes [HTTPException(500)]; the [finally]
    clause closes the connection if there is one ([conn.close()] itself is
    taken not to raise). *)
Definition get_db_connection {A} (connect : result table) (body : table -> outcome A)
  : outcome A * list event :=
  match connect with
  | Ok conn =>
      (match body conn with
       | Fail (Exn DatabaseError) => Fail (Http 500)
       | o => o
       end, [Opened; Closed])
  | Raise DatabaseError => (Fail (Http 500), [])
  | Raise e => (Fail (Exn e), [])
  end.

(** [try: with conn.cursor() as cur: cur.execute(query); return ...
     except psycopg2.Error: raise HTTPException(500)]: [fault] is what
    [execute] raises, if it does. *)
Definition query {A} (fault : option exn) (rows : A) : outcome A :=
  match fault with
  | None => Return rows
  | Some DatabaseError => Fail (Http 500)
  | Some e => Fail (Exn e)
  end.

(** *** [get_sentiment_stats] and [get_sentiment_summary] *)

(** Microseconds. *)
Definition hour : N := 3600000000.
Definition day : Z := 86400000000.

(** [DATE_TRUNC('hour', t)] *)
Definition date_trunc_hour (t : N) : N := (t - t mod hour)%N.

(** [WHERE analyzed_at >= NOW() - INTERVAL '24 hours'] *)
Definition in_window (now : N) (r : Row) : bool :=
  Z.of_N now - day <=? Z.of_N (analyzed_at r).

Definition recent (conn : table) (now : N) : list Row :=
  List.filter (in_window now) (map snd (map_to_list conn)).

(** [SUM(column)] over a non-empty group, and [COUNT( * )]. *)
Definition sum_of (column : Row -> Z) (rows : list Row) : Z :=
  fold_right (fun r acc => column r + acc) 0 rows.

Record Bucket := {
  time_bucket : N;
  bucket_positive : Z;
  bucket_negative : Z;
  bucket_neutral : Z;
  total_messages : Z
}.

Definition in_bucket (k : N) (r : Row) : bool :=
  (date_trunc_hour (analyzed_at r) =? k)%N.

(** The row of the [GROUP BY] for the bucket [k]. *)
Definition bucket_of (rows : list Row) (k : N) : Bucket :=
  let group := List.filter (in_bucket k) rows in
  {| time_bucket := k;
     bucket_positive := sum_of positive_count group;
     bucket_negative := sum_of negative_count group;
     bucket_neutral := sum_of neutral_count group;
     total_messages := Z.of_nat (length group) |}.

(** [ORDER BY time_bucket DESC] *)
Definition later_first (a b : N) : Prop := (b <= a)%N.

#[export] Instance later_first_dec : RelDecision later_first.
Proof. intros a b. unfold later_first. apply N.le_dec. Defined.

(** [GROUP BY time_bucket ORDER BY time_bucket DESC]: one row for each
    hour that has a message. *)
Definition hourly (rows : list Row) : list Bucket :=
  map (bucket_of rows)
    (merge_sort later_first
       (remove_dups (map (fun r => date_trunc_hour (analyzed_at r)) rows))).

Definition get_sentiment_stats (conn : table) (now : N) (fault : option exn)
  : outcome (list Bucket) :=
  query fault (hourly (recent conn now)).

(** [SUM] over no row at all is [NULL]. *)
Definition sql_sum (column : Row -> Z) (rows : list Row) : option Z :=
  match rows with
  | [] => None
  | _ => Some (sum_of column rows)
  end.

Record Summary := {
  total_positive : option Z;
  total_negative : option Z;
  total_neutral : option Z;
  summary_total_messages : Z
}.

Definition summary_of (rows : list Row) : Summary :=
  {| total_positive := sql_sum positive_count rows;
     total_negative := sql_sum negative_count rows;
     total_neutral := sql_sum neutral_count rows;
     summary_total_messages := Z.of_nat (length rows) |}.

Definition get_sentiment_summary (conn : table) (now : N) (fault : option exn)
  : outcome Summary :=
  query fault (summary_of (recent conn now)).

(** A quantity added up over a list of hours. *)
Definition sum_over (g : N -> Z) (hours : list N) : Z :=
  fold_right (fun k acc => g k + acc) 0 hours.

(** A column of the hourly statistics added up over the buckets. *)
Definition total_over (column : Bucket -> Z) (buckets : list Bucket) : Z :=
  fold_right (fun b acc => column b + acc) 0 buckets.

(** The endpoints [GET /stats/sentiment] and [GET /stats/sentiment/summary]:
    the connection of [Depends(get_db)], then the query. *)
Definition sentiment_stats (connect : result table) (now : N) (fault : option exn)
  : outcome (list Bucket) * list event :=
  get_db_connection connect (fun conn => get_sentiment_stats conn now fault).

Definition sentiment_summary (connect : result table) (now : N) (fault : option exn)
  : outcome Summary * list event :=
  get_db_connection connect (fun conn => get_sentiment_summary conn now fault).

(** *** [analyze_text_sentiment] and [POST /analyze/text] *)

Definition analyze_text_sentiment `{Pipelines.Classifier} (text : value) : value :=
  match Pipelines.sentiment text with
  | Ok label => label
  | Raise _ => VStr "neutral"
  end.

(** *** [GET /health] *)

Record Health := {
  status : string;
  database : string;
  error : option failure;
  health_timestamp : N
}.

(** [fault] is what [cur.execute("SELECT 1")] raises, if it does; every
    exception, [HTTPException] included, is caught. *)
Definition health_check (connect : result table) (fault : option exn) (now : N)
  : Health * list event :=
  let '(o, events) :=
    get_db_connection connect
      (fun _ => match fault with
                | None => Return {| status := "healthy"; database := "connected";
                                    error := None; health_timestamp := now |}
                | Some e => Fail (Exn e)
                end) in
  (match o with
   | Return h => h
   | Fail f => {| status := "unhealthy"; database := "disconnected";
                  error := Some f; health_timestamp := now |}
   end, events).

End Main.

(** ** A crawl: the storage stage called on one item after the other *)

Module Crawl.

Import Pipelines.

(** [process_item] on each item in turn, on the same pipeline object, with
    the faults of each call; an exception of one call does not keep the
    next from being made. *)
Fixpoint store_all (p : SentimentAnalysisPipeline.t)
    (work : list (item * SentimentAnalysisPipeline.Faults))
  : SentimentAnalysisPipeline.t :=
  match work with
  | [] => p
  | (it, f) :: rest =>
      store_all (SentimentAnalysisPipeline.process_item p it f).1.2 rest
  end.

(** The links of the listing entries that have one, in page order. *)
Definition latest_links (doc : node) : list string :=
  omap (fun thread =>
          match Spider.latest_link_of thread with
          | Some link => if nonempty link then Some link else None
          | None => None
          end) (Spider.thread_containers doc).

(** The keys of the dictionary [parse_latest_message] yields. *)
Definition item_keys : gset string :=
  list_to_set ["id"; "thread_title"; "thread_date"; "latest_poster";
               "latest_post_time"; "message_content"; "thread_url"].

(** The six content columns of a row. *)
Definition content_of (r : Store.Row)
  : option string * option string * option string * option string
    * option string * option string :=
  (Store.thread_title r, Store.thread_date r, Store.latest_poster r,
   Store.latest_post_time r, Store.message_content r, Store.thread_url r).

(** The counts [analyze_sentiment] can produce. *)
Definition tagged_counts (r : Store.Row) : Prop :=
  (Store.positive_count r, Store.negative_count r, Store.neutral_count r)
  ∈ [(1, 0, 0); (0, 1, 0); (0, 0, 1); (0, 0, 0)].

(** The label of the read path for a label of the classifier. *)
Definition three_way (label : value) : string :=
  if value_eqb label (VStr "positive") then "positive"
  else if value_eqb label (VStr "negative") then "negative"
  else "neutral".

End Crawl.

(** ** More pages, tables and databases, for the examples *)

Module Scenario.

Import Spider.

(** A listing with two threads and, between them, a container without a
    latest-reply link. *)
Definition listing_with_ad : Response :=
  Sample.listing
    [ Sample.listing_entry "/t/mot.1/" "Mot" (Some "2024-05-01T10:00:00");
      Sample.el "div" [("class", "structItem structItem--thread is-ad")]
        [ Sample.el "div" [("class", "structItem-cell structItem-cell--main")]
            [ Text "quang cao" ] ];
      Sample.listing_entry "/t/hai.2/" "Hai" (Some "2024-05-01T12:00:00") ].

(** A thread page with two replies, the last one quoting the first. *)
Definition two_replies : Response :=
  Sample.thread_page "https://voz.vn/t/chuyen-tro.12345/latest" Sample.info
    [ Sample.reply "binh" (Some "2024-05-01T12:00:00+0700") [Text "qua te"];
      Sample.quoted_reply ].

(** The last reply of [two_replies], as the XPath selects it. *)
Definition last_reply : selected :=
  {| sel_anc := [ {| tag := "html"; attrs := [] |}; {| tag := "body"; attrs := [] |} ];
     sel_elem := {| tag := "article";
                    attrs := [("class", "message message--post js-post")] |};
     sel_kids := match Sample.quoted_reply with
                 | Elem _ kids => kids
                 | Text _ => []
                 end |}.

(** A page without any reply. *)
Definition no_reply : Response :=
  Sample.thread_page "https://voz.vn/t/chuyen-tro.12345/latest" Sample.info [].

(** A connected pipeline on an empty table, and one on three rows. *)
Definition fresh_pipeline : Pipelines.SentimentAnalysisPipeline.t :=
  {| Pipelines.SentimentAnalysisPipeline.has_conn := true;
     Pipelines.SentimentAnalysisPipeline.db := ∅ |}.

Definition running_pipeline : Pipelines.SentimentAnalysisPipeline.t :=
  {| Pipelines.SentimentAnalysisPipeline.has_conn := true;
     Pipelines.SentimentAnalysisPipeline.db := Sample.three_rows |}.

(** Two rows analysed at the same time, and two orders an engine may
    return them in. *)
Definition tied_rows : gmap string Store.Row :=
  <["91a7" := Sample.stored_row "toi thay tot" 1 0 0 300]>
  (<["0b3c" := Sample.stored_row "qua te" 0 1 0 300]> ∅).

Definition first_91a7 (k : string) : N := if String.eqb k "91a7" then 0%N else 1%N.

Definition first_0b3c (k : string) : N := if String.eqb k "0b3c" then 0%N else 1%N.

(** A database that refuses the first two connections. *)
Definition slow_start (i : nat) : result unit :=
  if (i <? 2)%nat then Raise DatabaseError else Ok tt.

(** A database that is down. *)
Definition down (i : nat) : result unit := Raise DatabaseError.

End Scenario.

(** * Properties *)

(** ** Strings *)

Lemma split_no_sep c s :
  ~ In c (list_ascii_of_string s) -> split c s = [s].
Proof.
  induction s as [|a s IH]; simpl; intros Hc; [reflexivity|].
  destruct (Ascii.eqb_spec a c) as [->|Hne].
  - exfalso. apply Hc. now left.
  - rewrite IH; [reflexivity|]. intros Hin. apply Hc. now right.
Qed.

Lemma split_snoc c pre tid :
  ~ In c (list_ascii_of_string tid) ->
  exists l, l <> [] /\ split c (pre +:+ String c tid) = l ++ [tid].
Proof.
  intros Hc. induction pre as [|a pre (l & Hl & IH)]; simpl.
  - rewrite Ascii.eqb_refl, split_no_sep by assumption.
    exists [EmptyString]. split; [discriminate|reflexivity].
  - destruct (Ascii.eqb a c).
    + exists (EmptyString :: l). split; [discriminate|]. now rewrite IH.
    + rewrite IH. destruct l as [|p l]; [contradiction|].
      exists (String a p :: l). split; [discriminate|reflexivity].
Qed.

Lemma length_string_of_list_ascii l :
  String.length (string_of_list_ascii l) = length l.
Proof. induction l; simpl; congruence. Qed.

Lemma length_hex_bytes l :
  length (flat_map MD5.hex_byte l) = (2 * length l)%nat.
Proof. induction l; simpl; lia. Qed.

Lemma length_le_bytes n x : length (MD5.le_bytes n x) = n.
Proof. unfold MD5.le_bytes. now rewrite length_map, length_seq. Qed.

(** The digest has 128 bits, written as 32 characters. *)
Lemma length_hexdigest s : String.length (MD5.hexdigest s) = 32%nat.
Proof.
  unfold MD5.hexdigest, MD5.digest.
  rewrite length_string_of_list_ascii, length_hex_bytes.
  now rewrite !length_app, !length_le_bytes.
Qed.

Lemma hex_digit_is_hex n : Spec.is_hex (MD5.hex_digit n) = true.
Proof.
  unfold MD5.hex_digit. generalize (Z.to_nat n) as k. intros k.
  do 16 (destruct k as [|k]; [reflexivity|]).
  destruct k; reflexivity.
Qed.

Lemma hexdigest_is_hex s :
  forallb Spec.is_hex (list_ascii_of_string (MD5.hexdigest s)) = true.
Proof.
  unfold MD5.hexdigest. rewrite list_ascii_of_string_of_list_ascii.
  induction (MD5.digest (MD5.bytes_of_string s)) as [|b l IH]; [reflexivity|].
  simpl. now rewrite !hex_digit_is_hex, IH.
Qed.

(** Known digests. *)
Example md5_empty : MD5.hexdigest EmptyString = "d41d8cd98f00b204e9800998ecf8427e".
Proof. vm_compute. reflexivity. Qed.

Example md5_abc : MD5.hexdigest "abc" = "900150983cd24fb0d6963f7d28e17f72".
Proof. vm_compute. reflexivity. Qed.

Lemma not_In_ascii c l :
  forallb (fun a => negb (Ascii.eqb a c)) l = true -> ~ In c l.
Proof.
  induction l as [|a l IH]; simpl; [tauto|].
  intros [Ha Hl]%andb_prop [->|Hin]; [|now apply IH].
  now rewrite Ascii.eqb_refl in Ha.
Qed.

Lemma nonempty_true s : s <> EmptyString -> nonempty s = true.
Proof. destruct s; [congruence|reflexivity]. Qed.

(** ** The ID generator *)

Section IdGenerator.
Context `{Spider.Lib}.
Import Spider.

Lemma extract_thread_id_last pre tid url :
  urlparse_path url = pre +:+ String "." tid ->
  ~ In "."%char (list_ascii_of_string tid) ->
  extract_thread_id url = Some tid.
Proof.
  intros Hpath Hdot. unfold extract_thread_id. rewrite Hpath.
  destruct (split_snoc "." pre tid Hdot) as (l & Hl & ->).
  rewrite last_snoc. destruct l as [|p l]; [contradiction|].
  rewrite length_app. simpl. destruct (length l); reflexivity.
Qed.

Lemma extract_thread_id_no_dot url :
  ~ In "."%char (list_ascii_of_string (urlparse_path url)) ->
  extract_thread_id url = None.
Proof. intros Hdot. unfold extract_thread_id. now rewrite split_no_sep. Qed.

(** C10. A thread URL whose path has no ['.'] has no thread identifier:
    [extract_thread_id] returns [None] instead of the whole path, and so
    [generate_item_id] returns [None] whatever the post timestamp is. *)
Theorem no_dot_no_id url :
  ~ In "."%char (list_ascii_of_string (urlparse_path url)) ->
  extract_thread_id url = None /\ forall ts, generate_item_id url ts = None.
Proof.
  intros Hdot. pose proof (extract_thread_id_no_dot url Hdot) as Hid.
  split; [exact Hid|]. intros ts. unfold generate_item_id. now rewrite Hid.
Qed.

(** C6. [generate_item_id] is a function of the thread URL and the post
    timestamp.  When the path of the URL ends in a non-empty segment after
    its last ['.'] and the timestamp is a non-empty string, it returns the
    MD5 digest of [segment + "_" + timestamp], 32 hexadecimal characters;
    when the timestamp is [None] or empty, or the path has no ['.'] or ends
    with one, it returns [None]; the result depends on the URL through
    that segment only, so equal inputs give equal outputs; and the digest
    is MD5: it gives the digests of the test suite of RFC 1321. *)
Theorem generate_item_id_spec url ts :
  (forall pre tid t,
      urlparse_path url = pre +:+ String "." tid ->
      ~ In "."%char (list_ascii_of_string tid) ->
      tid <> EmptyString -> ts = Some t -> t <> EmptyString ->
      generate_item_id url ts = Some (MD5.hexdigest (tid +:+ "_" +:+ t)))
  /\ (ts = None \/ ts = Some EmptyString
      \/ ~ In "."%char (list_ascii_of_string (urlparse_path url))
      \/ (exists pre, urlparse_path url = pre +:+ ".") ->
      generate_item_id url ts = None)
  /\ (forall h, generate_item_id url ts = Some h ->
        String.length h = 32%nat
        /\ forallb Spec.is_hex (list_ascii_of_string h) = true)
  /\ (forall url' ts',
        extract_thread_id url' = extract_thread_id url -> ts' = ts ->
        generate_item_id url' ts' = generate_item_id url ts)
  /\ Forall (fun md : string * string => MD5.hexdigest md.1 = md.2)
       Spec.md5_test_suite.
Proof.
  split; [|split; [|split; [|split]]].
  - intros pre tid t Hpath Hdot Htid -> Ht. unfold generate_item_id.
    rewrite (extract_thread_id_last pre tid) by assumption.
    now rewrite !nonempty_true.
  - unfold generate_item_id. intros [->|[->|[Hno|[pre Hpre]]]].
    + now destruct (extract_thread_id url).
    + destruct (extract_thread_id url); [|reflexivity].
      now rewrite andb_false_r.
    + now rewrite (extract_thread_id_no_dot url Hno).
    + rewrite (extract_thread_id_last pre EmptyString) by (assumption || (simpl; tauto)).
      now destruct ts.
  - unfold generate_item_id. intros h Hh.
    destruct (extract_thread_id url) as [tid|]; [|discriminate].
    destruct ts as [t|]; [|discriminate].
    destruct (nonempty tid && nonempty t); [|discriminate].
    injection Hh as <-. split; [apply length_hexdigest|apply hexdigest_is_hex].
  - intros url' ts' Hid ->. unfold generate_item_id. now rewrite Hid.
  - unfold Spec.md5_test_suite.
    repeat (apply List.Forall_cons; [vm_compute; reflexivity|]).
    apply List.Forall_nil.
Qed.

End IdGenerator.

Lemma no_dot_no_id_witness :
  ~ In "."%char (list_ascii_of_string (Sample.url_path "https://voz.vn/t/chuyen-tro/latest"))
  /\ Spider.extract_thread_id (H := Sample.lib) "https://voz.vn/t/chuyen-tro/latest" = None
  /\ Spider.generate_item_id (H := Sample.lib) "https://voz.vn/t/chuyen-tro/latest"
       (Some "2024-05-01T12:30:00+0700") = None.
Proof.
  assert (Hdot : ~ In "."%char
            (list_ascii_of_string (Sample.url_path "https://voz.vn/t/chuyen-tro/latest"))).
  { apply not_In_ascii. vm_compute. reflexivity. }
  split; [exact Hdot|].
  destruct (no_dot_no_id (H := Sample.lib) "https://voz.vn/t/chuyen-tro/latest" Hdot)
    as [Hid Hgen].
  split; [exact Hid|apply Hgen].
Defined.

Lemma generate_item_id_spec_witness :
  Spider.generate_item_id (H := Sample.lib) "https://voz.vn/t/chuyen-tro.12345/latest"
    (Some "2024-05-01T12:30:00+0700")
  = Some "91a7f088c2dccc6232f8e11fe59ce2d0"
  /\ Spider.generate_item_id (H := Sample.lib) "https://voz.vn/t/chuyen-tro.12345/latest"
       (Some "2024-05-01T12:31:00+0700")
     = Some "e5e7fcb335465bcd36abda698434da37"
  /\ Spider.generate_item_id (H := Sample.lib) "http://voz.vn/t/khac.12345/latest?page=2"
       (Some "2024-05-01T12:30:00+0700")
     = Some "91a7f088c2dccc6232f8e11fe59ce2d0"
  /\ MD5.hexdigest "message digest" = "f96b697d7cb7938d525a2f31aaf161d0".
Proof.
  pose proof (generate_item_id_spec (H := Sample.lib)
                "https://voz.vn/t/chuyen-tro.12345/latest"
                (Some "2024-05-01T12:30:00+0700")) as (Hvalue & _ & _ & Hsame & Hsuite).
  pose proof (generate_item_id_spec (H := Sample.lib)
                "https://voz.vn/t/chuyen-tro.12345/latest"
                (Some "2024-05-01T12:31:00+0700")) as (Hlater & _).
  assert (Hfirst : Spider.generate_item_id (H := Sample.lib)
                     "https://voz.vn/t/chuyen-tro.12345/latest"
                     (Some "2024-05-01T12:30:00+0700")
                   = Some "91a7f088c2dccc6232f8e11fe59ce2d0").
  { rewrite (Hvalue "/t/chuyen-tro" "12345/latest" "2024-05-01T12:30:00+0700").
    - vm_compute. reflexivity.
    - vm_compute. reflexivity.
    - apply not_In_ascii. vm_compute. reflexivity.
    - discriminate.
    - reflexivity.
    - discriminate. }
  split; [exact Hfirst|]. split; [|split].
  - rewrite (Hlater "/t/chuyen-tro" "12345/latest" "2024-05-01T12:31:00+0700").
    + vm_compute. reflexivity.
    + vm_compute. reflexivity.
    + apply not_In_ascii. vm_compute. reflexivity.
    + discriminate.
    + reflexivity.
    + discriminate.
  - rewrite (Hsame "http://voz.vn/t/khac.12345/latest?page=2"
               (Some "2024-05-01T12:30:00+0700")).
    + exact Hfirst.
    + vm_compute. reflexivity.
    + reflexivity.
  - unfold Spec.md5_test_suite in Hsuite.
    apply (proj1 (List.Forall_forall _ _) Hsuite
             ("message digest", "f96b697d7cb7938d525a2f31aaf161d0")).
    simpl. tauto.
Defined.

Example generate_item_id_value :
  Spider.generate_item_id (H := Sample.lib) "https://voz.vn/t/chuyen-tro.12345/latest"
    (Some "2024-05-01T12:30:00+0700")
  = Some "91a7f088c2dccc6232f8e11fe59ce2d0".
Proof. vm_compute. reflexivity. Qed.

(** ** Documents *)

Lemma node_ind (P : node -> Prop) :
  (forall s, P (Text s)) ->
  (forall e kids, Forall P kids -> P (Elem e kids)) ->
  forall n, P n.
Proof.
  intros HT HE. fix IH 1. intros [s|e kids]; [apply HT|].
  apply HE.
  refine ((fix go (ks : list node) : Forall P ks :=
             match ks with
             | [] => List.Forall_nil P
             | k :: ks' => @List.Forall_cons _ P k ks' (IH k) (go ks')
             end) kids).
Qed.

Lemma select_text_app steps ta keep l1 l2 :
  select_text steps ta keep (l1 ++ l2)
  = select_text steps ta keep l1 ++ select_text steps ta keep l2.
Proof. unfold select_text. apply omap_app. Qed.

Lemma select_text_ext steps ta keep keep' l :
  (forall chain, keep chain = keep' chain) ->
  select_text steps ta keep l = select_text steps ta keep' l.
Proof.
  intros Hk. induction l as [|[anc [s|e ks]] l IH]; simpl; [reflexivity| |exact IH].
  rewrite Hk. destruct (match_path ta anc steps && keep' anc); simpl; now rewrite IH.
Qed.

Section QuoteStripping.
Import Spider.
Variable pre : list elem.

Let keep (chain : list elem) : bool := negb (existsb is_blockquote (pre ++ chain)).

(** Below a quoted block nothing is selected. *)
Lemma select_text_quoted steps n : forall anc,
  existsb is_blockquote (pre ++ anc) = true ->
  select_text steps true keep (walk anc n) = [].
Proof.
  induction n as [s|e kids IH] using node_ind; intros anc Hq.
  - simpl. unfold keep. now rewrite Hq, andb_false_r.
  - simpl. change (select_text steps true keep
                     (flat_map (walk (anc ++ [e])) kids) = []).
    induction IH as [|k ks Hk _ IHks]; [reflexivity|].
    simpl. rewrite select_text_app, IHks, app_nil_r.
    apply Hk. rewrite app_assoc, existsb_app, Hq. reflexivity.
Qed.

(** Selecting the text outside quoted blocks is selecting all the text of
    the tree without its quoted blocks. *)
Lemma select_text_prune steps n : forall anc,
  existsb is_blockquote (pre ++ anc) = false ->
  select_text steps true keep (walk anc n)
  = select_text steps true (fun _ => true) (flat_map (walk anc) (Spec.prune n)).
Proof.
  induction n as [s|e kids IH] using node_ind; intros anc Hq.
  - simpl. unfold keep. now rewrite Hq.
  - simpl. change (select_text steps true keep (flat_map (walk (anc ++ [e])) kids)
                   = select_text steps true (fun _ => true)
                       (flat_map (walk anc)
                          (if is_blockquote e then []
                           else [Elem e (flat_map Spec.prune kids)]))).
    destruct (is_blockquote e) eqn:He.
    + simpl. clear IH. induction kids as [|k ks IHks]; [reflexivity|].
      simpl. rewrite select_text_app, IHks, app_nil_r.
      apply select_text_quoted.
      rewrite app_assoc, existsb_app. simpl. now rewrite He, orb_true_r.
    + simpl. rewrite app_nil_r.
      change (select_text steps true keep (flat_map (walk (anc ++ [e])) kids)
              = select_text steps true (fun _ => true)
                  (flat_map (walk (anc ++ [e])) (flat_map Spec.prune kids))).
      assert (Hq' : existsb is_blockquote (pre ++ anc ++ [e]) = false).
      { rewrite app_assoc, existsb_app, Hq. simpl. now rewrite He. }
      induction IH as [|k ks Hk _ IHks]; [reflexivity|].
      simpl. rewrite flat_map_app, !select_text_app, IHks.
      f_equal. now apply Hk.
Qed.

End QuoteStripping.

Section ReplyExtractor.
Context `{Spider.Lib}.
Import Spider.

Lemma message_fragments_unquoted c :
  message_fragments c = Spec.unquoted_fragments c.
Proof.
  unfold message_fragments, Spec.unquoted_fragments, below.
  set (pre := sel_anc c ++ [sel_elem c]).
  rewrite (select_text_ext _ _ _
             (fun chain => negb (existsb is_blockquote (pre ++ chain))))
    by (intros chain; unfold pre; now rewrite <- app_assoc).
  change (select_text body_path true
            (fun chain => negb (existsb is_blockquote (pre ++ chain)))
            (flat_map (walk []) (sel_kids c))
          = if existsb is_blockquote pre then []
            else select_text body_path true (fun _ => true)
                   (flat_map (walk []) (flat_map Spec.prune (sel_kids c)))).
  destruct (existsb is_blockquote pre) eqn:Hpre.
  - induction (sel_kids c) as [|k ks IH]; [reflexivity|].
    simpl. rewrite select_text_app, IH, app_nil_r.
    apply select_text_quoted. now rewrite app_nil_r.
  - induction (sel_kids c) as [|k ks IH]; [reflexivity|].
    simpl. rewrite flat_map_app, !select_text_app, IH. f_equal.
    apply select_text_prune. now rewrite app_nil_r.
Qed.

(** Two replies that differ only inside quoted blocks have the same
    fragments. *)
Lemma message_fragments_ignore_quotes c c' :
  sel_anc c' = sel_anc c -> sel_elem c' = sel_elem c ->
  flat_map Spec.prune (sel_kids c') = flat_map Spec.prune (sel_kids c) ->
  message_fragments c' = message_fragments c.
Proof.
  intros Hanc Helem Hkids. rewrite !message_fragments_unquoted.
  unfold Spec.unquoted_fragments. now rewrite Hanc, Helem, Hkids.
Qed.

Lemma normalize_trimmed_join fragments :
  normalize fragments = Spec.trimmed_join fragments.
Proof.
  unfold normalize, Spec.trimmed_join. f_equal.
  induction fragments as [|x l IH]; [reflexivity|].
  simpl. destruct (nonempty (strip x)); simpl; now rewrite IH.
Qed.

(** C7. On every thread page with a reply, the message content of the
    emitted item is computed from the text of the last reply's body with
    every quoted block (and all its descendants) cut out: these fragments,
    each trimmed, the empty ones discarded, joined by single spaces. *)
Theorem message_content_unquoted response thread_info c :
  resp_meta response = Some thread_info ->
  last (message_containers (resp_body response)) = Some c ->
  exists it,
    parse_latest_message response = Ok [it]
    /\ it !! "message_content"
       = Some (VStr (Spec.trimmed_join (Spec.unquoted_fragments c))).
Proof.
  intros Hmeta Hlast. unfold parse_latest_message. rewrite Hmeta, Hlast.
  eexists. split; [reflexivity|].
  rewrite !lookup_insert_ne by discriminate. rewrite lookup_insert_eq.
  now rewrite normalize_trimmed_join, message_fragments_unquoted.
Qed.

End ReplyExtractor.

Lemma message_content_unquoted_witness :
  exists it,
    Spider.parse_latest_message (H := Sample.lib)
      (Sample.thread_page "https://voz.vn/t/chuyen-tro.12345/latest" Sample.info
         [Sample.reply "binh" (Some "2024-05-01T12:00:00+0700") [Text "qua te"];
          Sample.quoted_reply]) = Ok [it]
    /\ it !! "message_content" = Some (VStr "toi thay tot").
Proof.
  destruct (message_content_unquoted (H := Sample.lib)
              (Sample.thread_page "https://voz.vn/t/chuyen-tro.12345/latest" Sample.info
                 [Sample.reply "binh" (Some "2024-05-01T12:00:00+0700") [Text "qua te"];
                  Sample.quoted_reply])
              Sample.info
              {| sel_anc := [ {| tag := "html"; attrs := [] |};
                              {| tag := "body"; attrs := [] |} ];
                 sel_elem := {| tag := "article";
                                attrs := [("class", "message message--post js-post")] |};
                 sel_kids := match Sample.quoted_reply with
                             | Elem _ kids => kids
                             | Text _ => []
                             end |})
    as (it & Hparse & Hcontent).
  - reflexivity.
  - vm_compute. reflexivity.
  - exists it. split; [exact Hparse|]. rewrite Hcontent. vm_compute. reflexivity.
Defined.

(** ** Thread discovery and ordering *)

Section Ordering.
Import Spider.

Lemma dt_lt_same_kind a b :
  Spec.is_naive a = Spec.is_naive b ->
  dt_lt a b = Ok (Spec.instant a <? Spec.instant b).
Proof.
  destruct a as [x|x ox], b as [y|y oy]; simpl; try discriminate; intros _.
  - f_equal. unfold N.ltb, Z.ltb. now rewrite N2Z.inj_compare.
  - reflexivity.
Qed.

Lemma naive_instant_nonneg d : Spec.is_naive d = true -> 0 <= Spec.instant d.
Proof. destruct d; simpl; [lia|discriminate]. Qed.

(** [insert_desc] puts [x] after the entries that are strictly newer and
    before the first one that is not. *)
Lemma insert_desc_shape x l :
  Spec.same_kind (x :: l) ->
  exists l1 l2,
    l = l1 ++ l2
    /\ insert_desc x l = Ok (l1 ++ x :: l2)
    /\ Forall (fun y => Spec.instant (sort_key x) < Spec.instant (sort_key y)) l1
    /\ (forall y l2', l2 = y :: l2' ->
          Spec.instant (sort_key y) <= Spec.instant (sort_key x)).
Proof.
  intros (b & Hk). apply Forall_cons in Hk as [Hx Hl].
  induction l as [|y ys IH].
  - exists [], []. repeat split; [constructor|discriminate].
  - apply Forall_cons in Hl as [Hy Hys]. simpl.
    rewrite dt_lt_same_kind by congruence.
    destruct (Z.ltb_spec (Spec.instant (sort_key x)) (Spec.instant (sort_key y)))
      as [Hlt|Hge].
    + destruct (IH Hys) as (l1 & l2 & -> & -> & Hl1 & Hl2).
      exists (y :: l1), l2. repeat split; [now constructor|exact Hl2].
    + exists [], (y :: ys). repeat split; [constructor|].
      intros y' l2' [= <- <-]. exact Hge.
Qed.

Lemma with_instant_app k l1 l2 :
  Spec.with_instant k (l1 ++ l2) = Spec.with_instant k l1 ++ Spec.with_instant k l2.
Proof. apply List.filter_app. Qed.

Lemma with_instant_newer k x l1 :
  Forall (fun y => Spec.instant (sort_key x) < Spec.instant (sort_key y)) l1 ->
  Spec.instant (sort_key x) = k ->
  Spec.with_instant k l1 = [].
Proof.
  intros Hl1 <-. induction Hl1 as [|y l Hy _ IH]; [reflexivity|].
  unfold Spec.with_instant in *. simpl. rewrite IH.
  destruct (Z.eqb_spec (Spec.instant (sort_key y)) (Spec.instant (sort_key x))); [lia|easy].
Qed.

(** On keys of one kind [sorted] returns: a permutation of its input, most
    recent first, entries with equal keys in their input order. *)
Lemma sorted_desc_ok threads :
  Spec.same_kind threads ->
  exists sorted,
    sorted_desc threads = Ok sorted
    /\ sorted ≡ₚ threads
    /\ StronglySorted Spec.newest_first sorted
    /\ (forall k, Spec.with_instant k sorted = Spec.with_instant k threads).
Proof.
  induction threads as [|x rest IH]; intros Hk.
  - exists []. repeat split; constructor.
  - destruct Hk as (b & Hk). pose proof Hk as Hk'.
    apply Forall_cons in Hk' as [Hx Hrest].
    destruct IH as (r & Hr & Hperm & Hsorted & Hstable); [now exists b|].
    destruct (insert_desc_shape x r) as (l1 & l2 & -> & Hins & Hl1 & Hl2).
    { exists b. constructor; [exact Hx|]. now rewrite Hperm. }
    exists (l1 ++ x :: l2). simpl. rewrite Hr. simpl. split; [exact Hins|].
    split; [|split].
    + rewrite <- Hperm. symmetry. apply Permutation_middle.
    + apply StronglySorted_app in Hsorted as (Hcross & Hs1 & Hs2).
      apply StronglySorted_app. split; [|split; [exact Hs1|]].
      * intros y1 y2 Hy1 [->|Hy2]%elem_of_cons; [|now apply Hcross].
        unfold Spec.newest_first.
        rewrite Forall_forall in Hl1. specialize (Hl1 y1 Hy1). lia.
      * constructor; [exact Hs2|].
        destruct l2 as [|y l2']; [constructor|].
        specialize (Hl2 y l2' eq_refl).
        apply StronglySorted_cons in Hs2 as [Hy _].
        constructor; [exact Hl2|].
        rewrite Forall_forall in Hy |- *. intros z Hz.
        specialize (Hy z Hz). unfold Spec.newest_first in *. lia.
    + intros k. rewrite <- Hstable, !with_instant_app.
      unfold Spec.with_instant at 2 4. simpl.
      destruct (Z.eqb_spec (Spec.instant (sort_key x)) k) as [Hxk|?]; [|reflexivity].
      now rewrite (with_instant_newer k x l1).
Qed.

End Ordering.

Section Discovery.
Context `{Spider.Lib}.
Import Spider.




End Discovery.



(** A date in UTC next to a missing date: the aware key meets
    [datetime.min], which is naive, and the comparison raises. *)
Example parse_utc_and_undated :
  Spider.parse (H := Sample.lib) Sample.utc_and_undated = Raise TypeError.
Proof. vm_compute. reflexivity. Qed.

(** ** The sentiment tagging stage *)

Section Tagging.
Context `{Pipelines.Classifier}.
Import Pipelines Pipelines.FetchMessagePipeline.

Lemma counts_lookup p n u :
  counts p n u !! "positive" = Some (VInt p)
  /\ counts p n u !! "negative" = Some (VInt n)
  /\ counts p n u !! "neutral" = Some (VInt u)
  /\ counts p n u !! "id" = None
  /\ counts p n u !! "processed_at" = None.
Proof. unfold counts. repeat split; now simplify_map_eq. Qed.

(** The counts of a tagged item are those of [analyze_sentiment]; the
    fields of the item that are not counts are kept. *)
Lemma process_item_tagged it text now :
  it !! "message_content" = Some text ->
  let tagged := (process_item it now).1 in
  let sentiment_counts := (analyze_sentiment text).1 in
  tagged !! "positive" = sentiment_counts !! "positive"
  /\ tagged !! "negative" = sentiment_counts !! "negative"
  /\ tagged !! "neutral" = sentiment_counts !! "neutral"
  /\ tagged !! "processed_at" = Some (VStamp now)
  /\ tagged !! "id" = it !! "id".
Proof.
  intros Htext. unfold process_item. rewrite Htext.
  assert (Hc : exists p n u, (analyze_sentiment text).1 = counts p n u).
  { unfold analyze_sentiment. destruct (sentiment text) as [l|e]; [|now exists 0, 0, 0].
    destruct (value_eqb l (VStr "positive")); [now exists 1, 0, 0|].
    destruct (value_eqb l (VStr "negative")); [now exists 0, 1, 0|now exists 0, 0, 1]. }
  destruct Hc as (p & n & u & Hc).
  destruct (analyze_sentiment text) as [sc log]. simpl in Hc. subst sc.
  destruct (counts_lookup p n u) as (Hp & Hn & Hu & Hid & Hat).
  set (it' := <["processed_at" := VStamp now]> (counts p n u) ∪ it).
  assert (Hl : it' !! "positive" = Some (VInt p) /\ it' !! "negative" = Some (VInt n)
               /\ it' !! "neutral" = Some (VInt u)
               /\ it' !! "processed_at" = Some (VStamp now)
               /\ it' !! "id" = it !! "id").
  { unfold it'. repeat split.
    1-3: apply lookup_union_Some_l; now rewrite lookup_insert_ne by discriminate.
    - apply lookup_union_Some_l. apply lookup_insert_eq.
    - apply lookup_union_r. now rewrite lookup_insert_ne by discriminate. }
  destruct (it' !! "id") eqn:Hid'; simpl; rewrite Hp, Hn, Hu, ?Hid'; exact Hl.
Qed.

(** Whatever label the classifier returns, exactly one count is 1. *)
Lemma analyze_sentiment_labelled text label :
  sentiment text = Ok label ->
  exists p n u,
    analyze_sentiment text = (counts p n u, [])
    /\ ((p, n, u) = (1, 0, 0) \/ (p, n, u) = (0, 1, 0) \/ (p, n, u) = (0, 0, 1))
    /\ p + n + u = 1.
Proof.
  intros Hl. unfold analyze_sentiment. rewrite Hl.
  destruct (value_eqb label (VStr "positive")); [exists 1, 0, 0; auto|].
  destruct (value_eqb label (VStr "negative")); [exists 0, 1, 0; auto|].
  exists 0, 0, 1; auto.
Qed.

(** C1, on the code. When the classifier raises on a text,
    [analyze_sentiment] logs the error and returns the counts
    [{positive: 0, negative: 0, neutral: 0}], all three zero, where the
    specification has [{0, 0, 1}]; [process_item] then returns the item
    with these counts, and the pipeline goes on. *)
Theorem analyze_sentiment_failure text e :
  sentiment text = Raise e ->
  analyze_sentiment text = (counts 0 0 0, [SentimentError e])
  /\ (analyze_sentiment text).1 !! "neutral" = Some (VInt 0)
  /\ forall it now v,
       it !! "message_content" = Some text -> it !! "id" = Some v ->
       process_item it now
       = (<["processed_at" := VStamp now]> (counts 0 0 0) ∪ it,
          [SentimentError e; Processed v]).
Proof.
  intros He.
  assert (Ha : analyze_sentiment text = (counts 0 0 0, [SentimentError e])).
  { unfold analyze_sentiment. now rewrite He. }
  split; [exact Ha|]. split; [rewrite Ha; apply counts_lookup|].
  intros it now v Htext Hid. unfold process_item. rewrite Htext, Ha.
  destruct (counts_lookup 0 0 0) as (_ & _ & _ & Hcid & _).
  rewrite lookup_union_r by (now rewrite lookup_insert_ne by discriminate).
  now rewrite Hid.
Qed.

(** C2, on the code. The item tagged after a classifier failure carries
    the counts 0, 0, 0: none of them is 1 and their sum is 0. *)
Theorem process_item_failure_counts it text e now :
  it !! "message_content" = Some text ->
  sentiment text = Raise e ->
  let tagged := (process_item it now).1 in
  tagged !! "positive" = Some (VInt 0)
  /\ tagged !! "negative" = Some (VInt 0)
  /\ tagged !! "neutral" = Some (VInt 0).
Proof.
  intros Htext He.
  destruct (process_item_tagged it text now Htext) as (Hp & Hn & Hu & _).
  assert (Ha : analyze_sentiment text = (counts 0 0 0, [SentimentError e])).
  { unfold analyze_sentiment. now rewrite He. }
  rewrite Ha in Hp, Hn, Hu. simpl in Hp, Hn, Hu.
  destruct (counts_lookup 0 0 0) as (Hp' & Hn' & Hu' & _).
  simpl. now rewrite Hp, Hn, Hu.
Qed.

(** Where the classifier returns a label, the tagged item is one-hot. *)
Lemma process_item_one_hot it text label now :
  it !! "message_content" = Some text ->
  sentiment text = Ok label ->
  let tagged := (process_item it now).1 in
  exists p n u,
    tagged !! "positive" = Some (VInt p)
    /\ tagged !! "negative" = Some (VInt n)
    /\ tagged !! "neutral" = Some (VInt u)
    /\ ((p, n, u) = (1, 0, 0) \/ (p, n, u) = (0, 1, 0) \/ (p, n, u) = (0, 0, 1))
    /\ p + n + u = 1.
Proof.
  intros Htext Hl.
  destruct (process_item_tagged it text now Htext) as (Hp & Hn & Hu & _).
  destruct (analyze_sentiment_labelled text label Hl) as (p & n & u & Ha & Hhot & Hsum).
  rewrite Ha in Hp, Hn, Hu. simpl in Hp, Hn, Hu.
  destruct (counts_lookup p n u) as (Hp' & Hn' & Hu' & _).
  exists p, n, u. simpl. rewrite Hp, Hn, Hu. auto.
Qed.

End Tagging.

Lemma analyze_sentiment_failure_witness :
  Pipelines.FetchMessagePipeline.analyze_sentiment (H := Sample.classifier) (VStr EmptyString)
  = (Pipelines.counts 0 0 0, [Pipelines.SentimentError ValueError]).
Proof.
  apply (analyze_sentiment_failure (H := Sample.classifier) (VStr EmptyString) ValueError).
  reflexivity.
Defined.

Lemma process_item_failure_counts_witness :
  let tagged :=
    (Pipelines.FetchMessagePipeline.process_item (H := Sample.classifier)
       (<["id" := VStr "91a7f088c2dccc6232f8e11fe59ce2d0"]>
          (<["message_content" := VStr EmptyString]> ∅)) 1714566600000000%N).1 in
  tagged !! "positive" = Some (VInt 0)
  /\ tagged !! "negative" = Some (VInt 0)
  /\ tagged !! "neutral" = Some (VInt 0).
Proof.
  apply (process_item_failure_counts (H := Sample.classifier) _ (VStr EmptyString) ValueError).
  - reflexivity.
  - reflexivity.
Defined.

(** ** The storage stage *)

Section Storage.
Import Store Pipelines Pipelines.SentimentAnalysisPipeline.

Lemma params_has_id it ps :
  params it = Ok ps -> exists v, lookup_key it "id" = Ok v.
Proof.
  unfold params. simpl. destruct (lookup_key it "id"); [eauto|discriminate].
Qed.

Lemma bind_Ok {A B} (r : result A) (k : A -> result B) b :
  bind r k = Ok b -> exists a, r = Ok a /\ k a = Ok b.
Proof. destruct r as [a|e]; simpl; [eauto|discriminate]. Qed.

Lemma lookup_key_Ok it k v : lookup_key it k = Ok v -> it !! k = Some v.
Proof. unfold lookup_key. destruct (it !! k); now intros [= <-]. Qed.

Lemma as_text_Ok v o : as_text v = Ok o -> v = of_opt o.
Proof. destruct v; simpl; intros [= <-]; reflexivity. Qed.

Lemma as_int_Ok v n : as_int v = Ok n -> v = VInt n.
Proof. destruct v; simpl; intros [= <-]; reflexivity. Qed.

Lemma as_stamp_Ok v t : as_stamp v = Ok t -> v = VStamp t.
Proof. destruct v; simpl; intros [= <-]; reflexivity. Qed.

Ltac invert_binds :=
  repeat match goal with
         | H : bind _ _ = Ok _ |- _ => apply bind_Ok in H as (? & ? & ?)
         | H : Ok _ = Ok _ |- _ => injection H as ?; subst
         | H : lookup_key _ _ = Ok _ |- _ => apply lookup_key_Ok in H
         | H : as_text _ = Ok _ |- _ => apply as_text_Ok in H; subst
         | H : as_int _ = Ok _ |- _ => apply as_int_Ok in H; subst
         | H : as_stamp _ = Ok _ |- _ => apply as_stamp_Ok in H; subst
         end.

(** The row written is the item, column by column. *)
Lemma row_of_item it id r :
  bind (params it) row_of = Ok (id, r) ->
  it !! "id" = Some (VStr id)
  /\ it !! "thread_title" = Some (of_opt (thread_title r))
  /\ it !! "thread_date" = Some (of_opt (thread_date r))
  /\ it !! "latest_poster" = Some (of_opt (latest_poster r))
  /\ it !! "latest_post_time" = Some (of_opt (latest_post_time r))
  /\ it !! "message_content" = Some (of_opt (message_content r))
  /\ it !! "thread_url" = Some (of_opt (thread_url r))
  /\ it !! "positive" = Some (VInt (positive_count r))
  /\ it !! "negative" = Some (VInt (negative_count r))
  /\ it !! "neutral" = Some (VInt (neutral_count r))
  /\ it !! "processed_at" = Some (VStamp (analyzed_at r)).
Proof.
  intros H. apply bind_Ok in H as (ps & Hps & Hrow).
  unfold params in Hps. invert_binds.
  unfold row_of in Hrow. invert_binds.
  match goal with
  | H : match ?o with Some _ => _ | None => _ end = Ok _ |- _ =>
      destruct o as [key|]; [|discriminate]; injection H as <- <-
  end.
  simpl. repeat split; assumption.
Qed.

(** Without faults, a well-formed item is upserted and committed. *)
Lemma process_item_stores p it id r :
  has_conn p = true ->
  bind (params it) row_of = Ok (id, r) ->
  (process_item p it no_fault).1
  = (Ok it, {| has_conn := true; db := upsert (db p) id r |}).
Proof.
  intros Hconn Hrow. unfold process_item, try_store. rewrite Hconn.
  destruct (params it) as [ps|e] eqn:Hps; simpl in Hrow; [|discriminate].
  destruct (params_has_id it ps Hps) as (v & Hv).
  simpl. rewrite Hrow. simpl. rewrite Hv. reflexivity.
Qed.

(** What [process_item] commits is the upsert of the item's row. *)
Lemma try_store_Ok p it f d log :
  try_store p it f = Ok (d, log) ->
  has_conn p = true
  /\ exists id r,
       bind (params it) row_of = Ok (id, r)
       /\ d = upsert (db p) id r /\ log = [Stored (VStr id)].
Proof.
  unfold try_store. destruct (has_conn p); [|discriminate]. intros H.
  apply bind_Ok in H as (ps & Hps & H).
  apply bind_Ok in H as ([] & _ & H).
  apply bind_Ok in H as ([id r] & Hrow & H).
  apply bind_Ok in H as ([] & _ & H).
  apply bind_Ok in H as (vid & Hvid & H).
  injection H as <- <-. split; [reflexivity|]. exists id, r.
  assert (Hitem : bind (params it) row_of = Ok (id, r)) by now rewrite Hps.
  split; [exact Hitem|]. split; [reflexivity|].
  apply row_of_item in Hitem as (Hid & _). apply lookup_key_Ok in Hvid.
  rewrite Hid in Hvid. now injection Hvid as <-.
Qed.

(** On a conflict only the three counts and [analyzed_at] change, and no
    other row does. *)
Lemma upsert_conflict t id old r :
  t !! id = Some old ->
  upsert t id r !! id = Some (on_conflict old r)
  /\ forall id', id' <> id -> upsert t id r !! id' = t !! id'.
Proof.
  intros Hold. unfold upsert. rewrite Hold. split; [apply lookup_insert_eq|].
  intros id' Hne. now rewrite lookup_insert_ne.
Qed.

Lemma upsert_fresh t id r :
  t !! id = None ->
  upsert t id r !! id = Some r
  /\ forall id', id' <> id -> upsert t id r !! id' = t !! id'.
Proof.
  intros Hnew. unfold upsert. rewrite Hnew. split; [apply lookup_insert_eq|].
  intros id' Hne. now rewrite lookup_insert_ne.
Qed.

(** C5. Two writes with the same id, the first one creating the row: after
    the second, the six content columns of the stored row are those of the
    first write, the three counts and [analyzed_at] are those of the second,
    and every other row is as it was. *)
Theorem upsert_twice p it1 it2 id r1 r2 :
  has_conn p = true ->
  db p !! id = None ->
  bind (params it1) row_of = Ok (id, r1) ->
  bind (params it2) row_of = Ok (id, r2) ->
  let p1 := (process_item p it1 no_fault).1.2 in
  let p2 := (process_item p1 it2 no_fault).1.2 in
  db p2 !! id
  = Some {| thread_title := thread_title r1;
            thread_date := thread_date r1;
            latest_poster := latest_poster r1;
            latest_post_time := latest_post_time r1;
            message_content := message_content r1;
            thread_url := thread_url r1;
            positive_count := positive_count r2;
            negative_count := negative_count r2;
            neutral_count := neutral_count r2;
            analyzed_at := analyzed_at r2 |}
  /\ forall id', id' <> id -> db p2 !! id' = db p !! id'.
Proof.
  intros Hconn Hnew H1 H2. simpl.
  rewrite (process_item_stores p it1 id r1 Hconn H1). simpl.
  rewrite (process_item_stores {| has_conn := true; db := upsert (db p) id r1 |}
             it2 id r2 eq_refl H2). simpl.
  destruct (upsert_fresh (db p) id r1 Hnew) as [Hrow1 Hother1].
  destruct (upsert_conflict _ id r1 r2 Hrow1) as [Hrow2 Hother2].
  split; [exact Hrow2|].
  intros id' Hne. now rewrite Hother2, Hother1.
Qed.

(** A fault of [execute] or [commit], or a refused statement, is logged
    with the id of the item and rolled back: the table is as before and the
    item is returned, if the pipeline has its connection and the rollback
    itself goes through. *)
Lemma process_item_contains_fault p it f v :
  has_conn p = true -> rollback_fault f = None -> it !! "id" = Some v ->
  (exists id r,
      bind (params it) row_of = Ok (id, r)
      /\ process_item p it f
         = (Ok it, {| has_conn := true; db := upsert (db p) id r |}, [Stored v]))
  \/ (exists e, process_item p it f = (Ok it, p, [StoreError v e])).
Proof.
  intros Hconn Hrb Hid. unfold process_item.
  destruct (try_store p it f) as [[d log]|e] eqn:Htry.
  - left. apply try_store_Ok in Htry as (_ & id & r & Hrow & -> & ->).
    exists id, r. split; [exact Hrow|]. rewrite Hconn.
    apply row_of_item in Hrow as (Hid' & _). rewrite Hid in Hid'.
    now injection Hid' as ->.
  - right. exists e. unfold on_error, lookup_key. now rewrite Hid, Hconn, Hrb.
Qed.

(** C9, on the code. A pipeline whose [__init__] could not connect has
    neither [self.conn] nor [self.cur]: for every item [process_item] logs
    the error and then raises [AttributeError] from its own [except] block,
    at [self.conn.rollback()], instead of returning the item. *)
Theorem process_item_without_connection e d it f v :
  it !! "id" = Some v ->
  let p := (init (Raise e) d).1 in
  has_conn p = false
  /\ process_item p it f = (Raise AttributeError, p, [StoreError v AttributeError]).
Proof.
  intros Hid. simpl. split; [reflexivity|].
  unfold process_item, try_store, on_error, lookup_key. simpl. now rewrite Hid.
Qed.

(** A rollback that raises leaves [process_item] as well. *)
Lemma process_item_rollback_raises p it f v e e' :
  has_conn p = true -> it !! "id" = Some v ->
  execute_fault f = Some e -> rollback_fault f = Some e' ->
  exists e0, process_item p it f = (Raise e', p, [StoreError v e0]).
Proof.
  intros Hconn Hid He Hrb. unfold process_item, try_store. rewrite Hconn, He.
  destruct (params it) as [ps|e0]; simpl;
    unfold on_error, lookup_key; rewrite Hid, Hconn, Hrb; simpl; eauto.
Qed.

(** A null id is refused by the primary key: nothing is stored. *)
Lemma try_store_null_id p it f :
  it !! "id" = Some VNone -> exists e, try_store p it f = Raise e.
Proof.
  intros Hid. destruct (try_store p it f) as [[d log]|e] eqn:Htry; [|eauto].
  apply try_store_Ok in Htry as (_ & id & r & Hrow & _).
  apply row_of_item in Hrow as (Hid' & _). rewrite Hid in Hid'. discriminate.
Qed.

Lemma process_item_null_id p it f :
  it !! "id" = Some VNone -> db (process_item p it f).1.2 = db p.
Proof.
  intros Hid. unfold process_item.
  destruct (try_store_null_id p it f Hid) as (e & ->).
  now destruct (on_error p it f e).
Qed.

End Storage.

Lemma upsert_twice_witness :
  let p := {| Pipelines.SentimentAnalysisPipeline.has_conn := true;
              Pipelines.SentimentAnalysisPipeline.db := ∅ |} in
  let it1 := Sample.tagged_item (Some "91a7") "toi thay tot" 1 0 0 100 in
  let it2 := Sample.tagged_item (Some "91a7") "sua lai roi" 0 1 0 200 in
  let p1 := (Pipelines.SentimentAnalysisPipeline.process_item p it1
               Pipelines.SentimentAnalysisPipeline.no_fault).1.2 in
  let p2 := (Pipelines.SentimentAnalysisPipeline.process_item p1 it2
               Pipelines.SentimentAnalysisPipeline.no_fault).1.2 in
  Store.message_content <$> (Pipelines.SentimentAnalysisPipeline.db p2 !! "91a7")
  = Some (Some "toi thay tot")
  /\ Store.negative_count <$> (Pipelines.SentimentAnalysisPipeline.db p2 !! "91a7")
     = Some 1
  /\ Store.analyzed_at <$> (Pipelines.SentimentAnalysisPipeline.db p2 !! "91a7")
     = Some 200%N.
Proof.
  intros p it1 it2 p1 p2.
  edestruct (upsert_twice p it1 it2 "91a7") as [Hrow _].
  - reflexivity.
  - reflexivity.
  - vm_compute. reflexivity.
  - vm_compute. reflexivity.
  - fold p1 p2 in Hrow. rewrite Hrow. simpl. repeat split; reflexivity.
Defined.

Lemma process_item_without_connection_witness :
  let p := (Pipelines.SentimentAnalysisPipeline.init (Raise DatabaseError) ∅).1 in
  let it := Sample.tagged_item (Some "91a7") "toi thay tot" 1 0 0 100 in
  Pipelines.SentimentAnalysisPipeline.process_item p it
    Pipelines.SentimentAnalysisPipeline.no_fault
  = (Raise AttributeError, p,
     [Pipelines.StoreError (VStr "91a7") AttributeError]).
Proof.
  apply (process_item_without_connection DatabaseError ∅
           (Sample.tagged_item (Some "91a7") "toi thay tot" 1 0 0 100)
           Pipelines.SentimentAnalysisPipeline.no_fault (VStr "91a7")).
  reflexivity.
Defined.

(** ** The messages endpoint *)

#[local] Instance newer_first_by_trans rank : Transitive (Api.newer_first_by rank).
Proof. unfold Api.newer_first_by. intros a b c Hab Hbc. lia. Qed.

#[local] Instance newer_first_by_total rank : Total (Api.newer_first_by rank).
Proof. unfold Api.newer_first_by. intros a b. lia. Qed.

Section Pagination.
Import Store Api.

Lemma newer_first_by_newer_first rank a b :
  newer_first_by rank a b -> newer_first a b.
Proof. unfold newer_first_by, newer_first. lia. Qed.

Lemma StronglySorted_weaken {A} (R S : relation A) l :
  (forall a b, R a b -> S a b) -> StronglySorted R l -> StronglySorted S l.
Proof.
  intros HRS. induction 1 as [|x l Hl IH Hx]; constructor; [exact IH|].
  eapply List.Forall_impl; [|exact Hx]. apply HRS.
Qed.

Lemma StronglySorted_drop {A} (R : relation A) n l :
  StronglySorted R l -> StronglySorted R (drop n l).
Proof.
  revert l. induction n as [|n IH]; intros l Hl; [exact Hl|].
  destruct Hl as [|x l Hl _]; [constructor|]. simpl. now apply IH.
Qed.

Lemma StronglySorted_take {A} (R : relation A) n l :
  StronglySorted R l -> StronglySorted R (take n l).
Proof.
  revert l. induction n as [|n IH]; intros l Hl; [constructor|].
  destruct Hl as [|x l Hl Hx]; [constructor|]. simpl.
  constructor; [now apply IH|now apply Forall_take].
Qed.

(** The [SELECT] returns every row once, newest first, however the engine
    orders rows with equal [analyzed_at]. *)
Lemma ordered_spec rank conn :
  ordered rank conn ≡ₚ map to_message (map_to_list conn)
  /\ StronglySorted newer_first (ordered rank conn)
  /\ length (ordered rank conn) = size conn.
Proof.
  unfold ordered. split; [apply merge_sort_Permutation|].
  split.
  - eapply StronglySorted_weaken; [apply newer_first_by_newer_first|].
    apply StronglySorted_merge_sort; apply _.
  - now rewrite merge_sort_Permutation, length_map, length_map_to_list.
Qed.

(** With a thread filter the query names a column the table does not
    have. *)
Lemma thread_filter_fails rank conn limit offset thread_id :
  truthy thread_id = true ->
  get_messages_with_sentiment rank conn limit offset thread_id = HTTPError 500.
Proof. intros Hfilter. unfold get_messages_with_sentiment. now rewrite Hfilter. Qed.

(** C8, amended. For a request without thread filter whose [limit] is in
    [1, 100] and whose [offset] is not negative and not above the largest
    [bigint], 2^63 - 1, the endpoint returns the rows from position
    [offset] on of the stored rows ordered by [analyzed_at] descending
    (every stored row once, rows with equal [analyzed_at] in the order the
    engine chooses), at most [limit] of them, and [total] is the number of
    stored rows, whatever [limit] and [offset] are.  A request whose
    [limit] is outside [1, 100] or whose [offset] is negative is answered
    with status 422: the value is refused, not clamped.  An [offset] above
    2^63 - 1 (of no more than 4300 digits) passes the validation and is
    refused by the store: status 500. *)
Theorem get_messages_page rank conn limit offset thread_id :
  let l := default 10 limit in
  let o := default 0 offset in
  (1 <= l <= 100 -> 0 <= o <= bigint_max -> truthy thread_id = false ->
   exists page,
     get_messages rank conn limit offset thread_id = Response200 page
     /\ messages page = take (Z.to_nat l) (drop (Z.to_nat o) (ordered rank conn))
     /\ ordered rank conn ≡ₚ map to_message (map_to_list conn)
     /\ StronglySorted newer_first (ordered rank conn)
     /\ (length (messages page) <= Z.to_nat l)%nat
     /\ StronglySorted newer_first (messages page)
     /\ total page = Z.of_nat (size conn)
     /\ Api.limit page = l /\ Api.offset page = o)
  /\ (~ (1 <= l <= 100 /\ 0 <= o) ->
      get_messages rank conn limit offset thread_id = HTTPError 422)
  /\ (1 <= l <= 100 -> bigint_max < o < 10 ^ max_str_digits ->
      get_messages rank conn limit offset thread_id = HTTPError 500).
Proof.
  intros l o. split; [|split].
  - intros Hl Ho Hfilter. unfold get_messages. fold l o.
    replace ((1 <=? l) && (l <=? 100) && (0 <=? o)) with true
      by (symmetry; rewrite !andb_true_iff, !Z.leb_le; lia).
    unfold get_messages_with_sentiment. rewrite Hfilter.
    replace ((l <? 0) || (o <? 0)) with false
      by (symmetry; rewrite orb_false_iff, !Z.ltb_ge; lia).
    replace ((bigint_max <? l) || (bigint_max <? o)) with false
      by (symmetry; rewrite orb_false_iff, !Z.ltb_ge; unfold bigint_max in *; lia).
    eexists. split; [reflexivity|]. simpl.
    destruct (ordered_spec rank conn) as (Hperm & Hsorted & _).
    repeat split; try assumption.
    + rewrite length_take. lia.
    + now apply StronglySorted_take, StronglySorted_drop.
  - intros Hout. unfold get_messages. fold l o.
    replace ((1 <=? l) && (l <=? 100) && (0 <=? o)) with false; [reflexivity|].
    symmetry. apply not_true_is_false. rewrite !andb_true_iff, !Z.leb_le. lia.
  - intros Hl [Ho _]. unfold get_messages. fold l o.
    replace ((1 <=? l) && (l <=? 100) && (0 <=? o)) with true
      by (symmetry; rewrite !andb_true_iff, !Z.leb_le; unfold bigint_max in *; lia).
    unfold get_messages_with_sentiment.
    destruct (truthy thread_id); [reflexivity|].
    replace ((l <? 0) || (o <? 0)) with false
      by (symmetry; rewrite orb_false_iff, !Z.ltb_ge; unfold bigint_max in *; lia).
    replace ((bigint_max <? l) || (bigint_max <? o)) with true; [reflexivity|].
    symmetry. rewrite orb_true_iff, !Z.ltb_lt. lia.
Qed.

End Pagination.

(** A request with [limit=500]: the endpoint answers 422, where clamping
    would serve the request with [limit = 100]. *)
Lemma limit_not_clamped :
  let rank : string -> N := fun _ => 0%N in
  Api.get_messages rank Sample.three_rows (Some 500) (Some 0) None
  = Api.HTTPError 422
  /\ (exists page,
        Api.get_messages_clamping rank Sample.three_rows (Some 500) (Some 0) None
        = Api.Response200 page
        /\ Api.limit page = 100
        /\ map Api.id (Api.messages page) = ["0b3c"; "f2d1"; "91a7"])
  /\ Api.get_messages rank Sample.three_rows (Some 500) (Some 0) None
     <> Api.get_messages_clamping rank Sample.three_rows (Some 500) (Some 0) None.
Proof.
  intros rank. split; [reflexivity|]. split.
  - eexists. split; [reflexivity|]. split; [reflexivity|]. vm_compute. reflexivity.
  - discriminate.
Qed.

Lemma get_messages_page_witness :
  let rank : string -> N := fun _ => 0%N in
  (exists page,
     Api.get_messages rank Sample.three_rows (Some 2) (Some 1) None
     = Api.Response200 page
     /\ map Api.id (Api.messages page) = ["f2d1"; "91a7"]
     /\ map Api.sentiment (Api.messages page) = ["neutral"; "positive"]
     /\ Api.total page = 3)
  /\ Api.get_messages rank Sample.three_rows (Some 500) (Some 0) None
     = Api.HTTPError 422
  /\ Api.get_messages rank Sample.three_rows (Some 2)
       (Some 9223372036854775808) None
     = Api.HTTPError 500.
Proof.
  intros rank.
  pose proof (get_messages_page rank Sample.three_rows (Some 2) (Some 1) None) as H1.
  pose proof (get_messages_page rank Sample.three_rows (Some 500) (Some 0) None) as H2.
  pose proof (get_messages_page rank Sample.three_rows (Some 2)
                (Some 9223372036854775808) None) as H3.
  split; [|split].
  - destruct (proj1 H1) as (page & Hpage & Hmessages & _ & _ & _ & _ & Htotal & _).
    + simpl. lia.
    + simpl. unfold Api.bigint_max. lia.
    + reflexivity.
    + exists page. split; [exact Hpage|]. rewrite Hmessages, Htotal.
      repeat split; vm_compute; reflexivity.
  - apply (proj1 (proj2 H2)). simpl. lia.
  - apply (proj2 (proj2 H3)).
    + simpl. lia.
    + split; vm_compute; reflexivity.
Defined.

(** * Further properties of the code *)

(** ** The spider *)

Lemma string_last_sep c s :
  ~ In c (list_ascii_of_string s)
  \/ exists pre tid, s = pre +:+ String c tid /\ ~ In c (list_ascii_of_string tid).
Proof.
  induction s as [|a s [Hno|(pre & tid & -> & Htid)]].
  - left. simpl. tauto.
  - destruct (Ascii.eqb_spec a c) as [->|Hne].
    + right. now exists EmptyString, s.
    + left. simpl. intros [?|?]; [congruence|tauto].
  - right. now exists (String a pre), tid.
Qed.

Section SpiderExtras.
Context `{Spider.Lib}.
Import Spider.

(** X1. [extract_thread_id] returns exactly the part of the path after its
    last ['.']: a value is returned if and only if the path has a ['.'],
    and it is the suffix that follows the last one (possibly empty). *)
Theorem extract_thread_id_iff url tid :
  extract_thread_id url = Some tid
  <-> exists pre, urlparse_path url = pre +:+ String "." tid
                  /\ ~ In "."%char (list_ascii_of_string tid).
Proof.
  split.
  - intros Hid.
    destruct (string_last_sep "." (urlparse_path url))
      as [Hno|(pre & tid' & Hpath & Htid')].
    + rewrite (extract_thread_id_no_dot url Hno) in Hid. discriminate.
    + rewrite (extract_thread_id_last pre tid' url Hpath Htid') in Hid.
      injection Hid as <-. now exists pre.
  - intros (pre & Hpath & Htid). now apply (extract_thread_id_last pre).
Qed.

Lemma collect_threads_urls base containers threads :
  collect_threads base containers = Ok threads ->
  map url threads
  = map (urljoin base)
      (omap (fun thread =>
               match latest_link_of thread with
               | Some link => if nonempty link then Some link else None
               | None => None
               end) containers).
Proof.
  revert threads. induction containers as [|c cs IH]; intros threads Hc.
  - now injection Hc as <-.
  - simpl in Hc.
    destruct (thread_info_of base c) as [o|e] eqn:Hinfo; [|discriminate].
    simpl in Hc. destruct (collect_threads base cs) as [rest|e]; [|discriminate].
    simpl in Hc. injection Hc as <-. specialize (IH rest eq_refl).
    unfold thread_info_of in Hinfo. simpl.
    destruct (latest_link_of c) as [link|]; [|injection Hinfo as <-; exact IH].
    destruct (nonempty link); [|injection Hinfo as <-; exact IH].
    destruct (match thread_date_str_of c with
              | Some s => if nonempty s
                          then bind (fromisoformat (replace_Z s)) (fun d => Ok (Some d))
                          else Ok None
              | None => Ok None
              end) as [ts|e]; [|discriminate].
    simpl in Hinfo. injection Hinfo as <-. simpl. now rewrite IH.
Qed.

Lemma sorted_desc_raises threads e :
  sorted_desc threads = Raise e -> e = TypeError.
Proof.
  assert (Hins : forall x l e', insert_desc x l = Raise e' -> e' = TypeError).
  { intros x l. induction l as [|y ys IH]; intros e' He'; [discriminate|].
    simpl in He'.
    destruct (sort_key x) as [tx|tx ox], (sort_key y) as [ty|ty oy]; simpl in He';
      try (now injection He' as <-).
    - destruct (tx <? ty)%N; [|discriminate].
      destruct (insert_desc x ys); [discriminate|]. injection He' as <-. now apply IH.
    - destruct (Z.of_N tx - ox <? Z.of_N ty - oy); [|discriminate].
      destruct (insert_desc x ys); [discriminate|]. injection He' as <-. now apply IH. }
  revert e. induction threads as [|x rest IH]; intros e He; [discriminate|].
  simpl in He. destruct (sorted_desc rest) as [r|e0]; simpl in He.
  - now apply (Hins x r).
  - injection He as <-. now apply IH.
Qed.

Lemma sorted_desc_same_kind threads sorted :
  sorted_desc threads = Ok sorted -> Spec.same_kind threads.
Proof.
  revert sorted. induction threads as [|x rest IH]; intros sorted Hs.
  - exists true. constructor.
  - simpl in Hs. destruct (sorted_desc rest) as [r|e] eqn:Hr; [|discriminate].
    simpl in Hs. pose proof (IH r eq_refl) as Hkind.
    destruct (sorted_desc_ok rest Hkind) as (r' & Hr' & Hperm & _).
    rewrite Hr in Hr'. injection Hr' as <-.
    destruct Hkind as (b & Hb). destruct r as [|y ys].
    + apply Permutation_nil_l in Hperm. subst rest.
      exists (Spec.is_naive (sort_key x)). now repeat constructor.
    + exists b. constructor; [|exact Hb].
      assert (Hy : Spec.is_naive (sort_key y) = b).
      { rewrite <- Hperm in Hb. now apply Forall_cons in Hb as [Hy _]. }
      simpl in Hs. rewrite <- Hy.
      destruct (sort_key x) as [tx|tx ox], (sort_key y) as [ty|ty oy];
        simpl in *; congruence.
Qed.

(** X2. When [parse] returns, it has yielded one request for each listing
    entry that has a latest-reply link, and none for the others: the
    URLs of the requests are, up to the order of the sort, the links of
    these entries joined to the URL of the page; each request carries the
    thread record whose URL it fetches. *)
Theorem parse_one_request_per_link response requests :
  parse response = Ok requests ->
  map req_url requests
  ≡ₚ map (urljoin (resp_url response)) (Crawl.latest_links (resp_body response))
  /\ length requests = length (Crawl.latest_links (resp_body response))
  /\ Forall (fun request => req_url request = url (req_meta request)) requests.
Proof.
  unfold parse. intros Hparse.
  destruct (collect_threads (resp_url response) (thread_containers (resp_body response)))
    as [threads|e] eqn:Hcollect; [|discriminate].
  simpl in Hparse. destruct (sorted_desc threads) as [sorted|e] eqn:Hsorted; [|discriminate].
  simpl in Hparse. injection Hparse as <-.
  destruct (sorted_desc_ok threads (sorted_desc_same_kind _ _ Hsorted))
    as (sorted' & Hs' & Hperm & _).
  rewrite Hsorted in Hs'. injection Hs' as <-.
  assert (Hurls : map req_url
                    (map (fun thread => {| req_url := url thread; req_meta := thread |})
                       sorted)
                  ≡ₚ map (urljoin (resp_url response))
                       (Crawl.latest_links (resp_body response))).
  { rewrite map_map. simpl. unfold Crawl.latest_links.
    rewrite <- (collect_threads_urls _ _ _ Hcollect). now rewrite Hperm. }
  split; [exact Hurls|]. split.
  - apply Permutation_length in Hurls.
    rewrite !List.length_map in Hurls. now rewrite List.length_map.
  - clear. induction sorted as [|x l IH]; constructor; [reflexivity|exact IH].
Qed.

(** X3. Once the listing is read, [parse] yields its requests exactly when
    the sort keys are all naive or all aware; otherwise the sort raises
    [TypeError] and nothing is yielded.  A thread without date is keyed
    with the naive [datetime.min], so it cannot share a listing with a
    thread whose date carries a UTC offset. *)
Theorem parse_mixed_keys response threads :
  collect_threads (resp_url response) (thread_containers (resp_body response))
  = Ok threads ->
  (Spec.same_kind threads <-> exists requests, parse response = Ok requests)
  /\ (~ Spec.same_kind threads -> parse response = Raise TypeError)
  /\ (forall x y, x ∈ threads -> y ∈ threads ->
                  timestamp x = None ->
                  (exists t off, timestamp y = Some (Aware t off)) ->
                  parse response = Raise TypeError).
Proof.
  intros Hcollect. unfold parse. rewrite Hcollect. simpl.
  assert (Hiff : Spec.same_kind threads
                 <-> exists requests,
                       bind (sorted_desc threads)
                         (fun sorted_threads =>
                            Ok (map (fun thread => {| req_url := url thread;
                                                      req_meta := thread |})
                                  sorted_threads)) = Ok requests).
  { split.
    - intros Hkind. destruct (sorted_desc_ok threads Hkind) as (sorted & -> & _).
      simpl. eauto.
    - intros (requests & Hreq).
      destruct (sorted_desc threads) as [sorted|e] eqn:Hs; [|discriminate].
      now apply (sorted_desc_same_kind _ sorted). }
  assert (Hraise : ~ Spec.same_kind threads ->
                   bind (sorted_desc threads)
                     (fun sorted_threads =>
                        Ok (map (fun thread => {| req_url := url thread;
                                                  req_meta := thread |})
                              sorted_threads)) = Raise TypeError).
  { intros Hmixed. destruct (sorted_desc threads) as [sorted|e] eqn:Hs.
    - exfalso. apply Hmixed. now apply (sorted_desc_same_kind _ sorted).
    - simpl. f_equal. now apply (sorted_desc_raises threads). }
  split; [exact Hiff|]. split; [exact Hraise|].
  intros x y Hx Hy Hnone (t & off & Haware). apply Hraise.
  intros (b & Hb). rewrite Forall_forall in Hb.
  pose proof (Hb x Hx) as Hbx. pose proof (Hb y Hy) as Hby.
  unfold sort_key in Hbx, Hby. rewrite Hnone in Hbx. rewrite Haware in Hby.
  simpl in Hbx, Hby. congruence.
Qed.

(** X4. With its thread record at hand, [parse_latest_message] raises
    [IndexError] on a page without message container, and otherwise yields
    exactly one dictionary, whose keys are the seven item keys. *)
Theorem parse_latest_message_shape response thread_info :
  resp_meta response = Some thread_info ->
  (message_containers (resp_body response) = [] ->
   parse_latest_message response = Raise IndexError)
  /\ (message_containers (resp_body response) <> [] ->
      exists it, parse_latest_message response = Ok [it]
                 /\ dom it = Crawl.item_keys).
Proof.
  intros Hmeta. unfold parse_latest_message. rewrite Hmeta. split.
  - now intros ->.
  - intros Hne.
    destruct (last (message_containers (resp_body response))) as [c|] eqn:Hlast.
    + eexists. split; [reflexivity|].
      rewrite !dom_insert_L, dom_empty_L. unfold Crawl.item_keys. simpl.
      set_solver.
    + apply last_None in Hlast. contradiction.
Qed.

(** X5. Fragments that are empty or all whitespace leave no trace in the
    message content: one of them can be dropped anywhere, and the content
    is empty exactly when every fragment is of this kind. *)
Theorem normalize_blank_fragments fragments :
  (forall l1 w l2, fragments = l1 ++ w :: l2 -> strip w = EmptyString ->
                   normalize fragments = normalize (l1 ++ l2))
  /\ (normalize fragments = EmptyString
      <-> Forall (fun f => strip f = EmptyString) fragments).
Proof.
  split.
  - intros l1 w l2 -> Hw. unfold normalize. f_equal. f_equal.
    rewrite !List.filter_app. simpl. now rewrite Hw.
  - unfold normalize. induction fragments as [|f l IH]; simpl.
    + split; [constructor|reflexivity].
    + destruct (strip f) as [|a s] eqn:Hf; simpl.
      * rewrite IH. split; [now constructor|now intros [_ ?]%Forall_cons].
      * rewrite Hf. split.
        -- destruct (map strip (List.filter (fun text => nonempty (strip text)) l));
             discriminate.
        -- intros [? _]%Forall_cons. congruence.
Qed.

End SpiderExtras.

(** ** The pipelines *)

Section TaggingExtras.
Context `{Pipelines.Classifier}.
Import Pipelines Pipelines.FetchMessagePipeline.

(** The counts of [analyze_sentiment] are one of four vectors. *)
Lemma analyze_sentiment_counts text :
  exists p n u,
    (analyze_sentiment text).1 = counts p n u
    /\ (p, n, u) ∈ [(1, 0, 0); (0, 1, 0); (0, 0, 1); (0, 0, 0)].
Proof.
  unfold analyze_sentiment. destruct (sentiment text) as [l|e].
  - destruct (value_eqb l (VStr "positive")); [exists 1, 0, 0; split; [easy|set_solver]|].
    destruct (value_eqb l (VStr "negative")); [exists 0, 1, 0; split; [easy|set_solver]|].
    exists 0, 0, 1. split; [easy|set_solver].
  - exists 0, 0, 0. split; [easy|set_solver].
Qed.

(** The tagging stage leaves every key but its own four as it was. *)
Lemma process_item_frame it now k :
  k ∉ ["positive"; "negative"; "neutral"; "processed_at"] ->
  (process_item it now).1 !! k = it !! k.
Proof.
  intros Hk. unfold process_item.
  destruct (it !! "message_content") as [text|]; [|reflexivity].
  destruct (analyze_sentiment_counts text) as (p & n & u & Hc & _).
  destruct (analyze_sentiment text) as [sc log]. simpl in Hc. subst sc.
  assert (Hl : (<["processed_at" := VStamp now]> (counts p n u) ∪ it) !! k = it !! k).
  { apply lookup_union_r. unfold counts.
    rewrite !lookup_insert_ne by (intros <-; apply Hk; set_solver).
    apply lookup_empty. }
  now destruct ((<["processed_at" := VStamp now]> (counts p n u) ∪ it) !! "id").
Qed.

(** Nothing the tagging stage logs is a [Stored] line. *)
Lemma process_item_log it now v : Stored v ∉ (process_item it now).2.
Proof.
  unfold process_item. destruct (it !! "message_content") as [text|]; simpl.
  - assert (Ha : Stored v ∉ (analyze_sentiment text).2).
    { unfold analyze_sentiment. destruct (sentiment text) as [l|e]; simpl.
      - destruct (value_eqb l (VStr "positive")); [apply not_elem_of_nil|].
        destruct (value_eqb l (VStr "negative")); apply not_elem_of_nil.
      - intros Hin. apply list_elem_of_singleton in Hin. discriminate. }
    destruct (analyze_sentiment text) as [sc log]. simpl in Ha.
    destruct ((<["processed_at" := VStamp now]> sc ∪ it) !! "id"); simpl;
      intros [Hin|Hin]%elem_of_app; try contradiction;
      apply list_elem_of_singleton in Hin; discriminate.
  - intros Hin. apply list_elem_of_singleton in Hin. discriminate.
Qed.

(** X6. The tagging stage writes four keys and nothing else: every other
    key of the item has the value it had, whether the item could be tagged
    or not.  An item without ['message_content'] is returned as it came,
    with one error in the log, and the classifier is not consulted. *)
Theorem process_item_keeps_fields it now :
  (forall k, k ∉ ["positive"; "negative"; "neutral"; "processed_at"] ->
             (process_item it now).1 !! k = it !! k)
  /\ (it !! "message_content" = None ->
      process_item it now = (it, [ProcessingError KeyError])).
Proof.
  split.
  - intros k. apply process_item_frame.
  - intros Hnone. unfold process_item. now rewrite Hnone.
Qed.

End TaggingExtras.

Section StorageExtras.
Import Store Pipelines Pipelines.SentimentAnalysisPipeline.

Lemma process_item_cases p it f :
  (exists id row,
      bind (params it) row_of = Ok (id, row)
      /\ process_item p it f
         = (Ok it, {| has_conn := true; db := upsert (db p) id row |},
            [Stored (VStr id)]))
  \/ ((process_item p it f).1.2 = p
      /\ forall v, Stored v ∉ (process_item p it f).2).
Proof.
  unfold process_item. destruct (try_store p it f) as [[d log]|e] eqn:Htry.
  - left. apply try_store_Ok in Htry as (-> & id & row & Hrow & -> & ->).
    now exists id, row.
  - right. unfold on_error. destruct (lookup_key it "id") as [vid|e']; simpl.
    + split; [reflexivity|]. intros v Hin.
      apply list_elem_of_singleton in Hin. discriminate.
    + split; [reflexivity|]. intros v Hin. now apply elem_of_nil in Hin.
Qed.

(** X7. A call of the storage stage is all or nothing: either the item's
    row is upserted, committed and logged as stored, and the item returned,
    or the pipeline and its table are exactly as before and nothing is
    logged as stored. *)
Theorem process_item_all_or_nothing p it f :
  (exists id row,
      bind (params it) row_of = Ok (id, row)
      /\ process_item p it f
         = (Ok it, {| has_conn := true; db := upsert (db p) id row |},
            [Stored (VStr id)]))
  \/ ((process_item p it f).1.2 = p
      /\ forall v, Stored v ∉ (process_item p it f).2).
Proof. apply process_item_cases. Qed.

Lemma upsert_keeps_content t id row k r :
  t !! k = Some r ->
  exists r', upsert t id row !! k = Some r' /\ Crawl.content_of r' = Crawl.content_of r.
Proof.
  intros Hk. unfold upsert. destruct (decide (id = k)) as [->|Hne].
  - rewrite Hk, lookup_insert_eq. now eexists.
  - destruct (t !! id); rewrite lookup_insert_ne by assumption; now exists r.
Qed.

Lemma process_item_keeps_content p it f k r :
  db p !! k = Some r ->
  exists r', db (process_item p it f).1.2 !! k = Some r'
             /\ Crawl.content_of r' = Crawl.content_of r.
Proof.
  intros Hk.
  destruct (process_item_cases p it f) as [(id & row & _ & ->)|[-> _]].
  - simpl. now apply upsert_keeps_content.
  - now exists r.
Qed.

(** X8. Whatever items are written afterwards and whatever faults occur,
    a stored row is never deleted and its six content columns never
    change. *)
Theorem store_all_keeps_content work : forall p k r,
  db p !! k = Some r ->
  exists r', db (Crawl.store_all p work) !! k = Some r'
             /\ Crawl.content_of r' = Crawl.content_of r.
Proof.
  induction work as [|[it f] rest IH]; intros p k r Hk; [now exists r|].
  simpl. destruct (process_item_keeps_content p it f k r Hk) as (r1 & Hr1 & Hc1).
  destruct (IH _ k r1 Hr1) as (r' & Hr' & Hc'). exists r'. split; [exact Hr'|].
  congruence.
Qed.

Lemma upsert_upsert t id row : upsert (upsert t id row) id row = upsert t id row.
Proof.
  unfold upsert.
  destruct (t !! id) as [old|] eqn:Hold; rewrite lookup_insert_eq, insert_insert_eq.
  - reflexivity.
  - f_equal. now destruct row.
Qed.

(** X9. Writing the same item twice, under the same faults, leaves the
    table as writing it once does. *)
Theorem store_twice_is_once p it f :
  db (Crawl.store_all p [(it, f); (it, f)]) = db (Crawl.store_all p [(it, f)]).
Proof.
  simpl.
  destruct (process_item_cases p it f) as [(id & row & Hrow & Hp)|[Hp _]].
  - rewrite Hp. simpl.
    destruct (process_item_cases
                {| has_conn := true; db := upsert (db p) id row |} it f)
      as [(id' & row' & Hrow' & ->)|[Hp' _]].
    + simpl. rewrite Hrow in Hrow'. injection Hrow' as <- <-. apply upsert_upsert.
    + now rewrite Hp'.
  - now rewrite !Hp.
Qed.

End StorageExtras.

(** ** The messages endpoint, page by page *)

Section PagingExtras.
Import Store Api.

Lemma ordered_rows rank conn m :
  m ∈ ordered rank conn <-> exists k r, conn !! k = Some r /\ m = to_message (k, r).
Proof.
  destruct (ordered_spec rank conn) as (Hperm & _). rewrite Hperm.
  change (map to_message (map_to_list conn)) with (to_message <$> map_to_list conn).
  rewrite list_elem_of_fmap. split.
  - intros ([k r] & -> & Hin). apply elem_of_map_to_list in Hin. eauto.
  - intros (k & r & Hk & ->). exists (k, r). split; [reflexivity|].
    now apply elem_of_map_to_list.
Qed.

Lemma rows_ids_NoDup (conn : table) :
  NoDup (id <$> map to_message (map_to_list conn)).
Proof.
  change (map to_message (map_to_list conn)) with (to_message <$> map_to_list conn).
  replace (id <$> (to_message <$> map_to_list conn)) with ((map_to_list conn).*1).
  - apply NoDup_fst_map_to_list.
  - induction (map_to_list conn) as [|[k r] l IH]; [reflexivity|].
    simpl. f_equal. exact IH.
Qed.

Lemma ordered_ids_NoDup rank conn : NoDup (id <$> ordered rank conn).
Proof.
  destruct (ordered_spec rank conn) as (Hperm & _). rewrite Hperm.
  apply rows_ids_NoDup.
Qed.

(** The rank is no restriction: every order of the rows that is
    descending in [analyzed_at] is the order of the query for some rank,
    the positions in that order. *)
Lemma StronglySorted_on_elements {A} (R S : relation A) l :
  (forall a b, a ∈ l -> b ∈ l -> R a b -> S a b) ->
  StronglySorted R l -> StronglySorted S l.
Proof.
  intros HRS Hl. induction Hl as [|x l Hl IH Hx]; constructor.
  - apply IH. intros a b Ha Hb. apply HRS; now apply list_elem_of_further.
  - rewrite List.Forall_forall in *. intros b Hb.
    apply HRS; [apply list_elem_of_here| |now apply Hx].
    apply list_elem_of_further. now apply list_elem_of_In.
Qed.

Lemma rank_of_fresh m l k :
  id m <> k -> rank_of (m :: l) k = N.succ (rank_of l k).
Proof. intros Hk. simpl. now destruct (decide (id m = k)). Qed.

Lemma rank_of_sorted l :
  NoDup (id <$> l) -> StronglySorted newer_first l ->
  StronglySorted (newer_first_by (rank_of l)) l.
Proof.
  induction l as [|m l IH]; intros Hnd Hl; [constructor|].
  rewrite fmap_cons in Hnd. apply NoDup_cons in Hnd as [Hm Hnd].
  apply StronglySorted_inv in Hl as [Hl Hfirst].
  assert (Hfresh : forall a, a ∈ l -> id m <> id a).
  { intros a Ha Heq. apply Hm. rewrite Heq. apply list_elem_of_fmap. eauto. }
  constructor.
  - apply StronglySorted_on_elements with (R := newer_first_by (rank_of l));
      [|now apply IH].
    intros a b Ha Hb [Hlt|[Heq Hrank]]; [now left|right]. split; [exact Heq|].
    rewrite !rank_of_fresh by auto. lia.
  - rewrite List.Forall_forall in *. intros b Hb. specialize (Hfirst b Hb).
    unfold newer_first in Hfirst. unfold newer_first_by.
    destruct (N.eq_dec (m_analyzed_at m) (m_analyzed_at b)) as [Heq|Hne].
    + right. split; [exact Heq|]. simpl.
      destruct (decide (id m = id m)); [|congruence]. lia.
    + left. lia.
Qed.

Lemma rank_of_inj l k1 k2 :
  k1 ∈ id <$> l -> k2 ∈ id <$> l -> rank_of l k1 = rank_of l k2 -> k1 = k2.
Proof.
  induction l as [|m l IH]; intros H1 H2; [now apply elem_of_nil in H1|].
  rewrite fmap_cons in H1, H2. simpl.
  destruct (decide (id m = k1)) as [<-|N1], (decide (id m = k2)) as [<-|N2];
    try reflexivity; try lia.
  apply elem_of_cons in H1 as [H1|H1]; [congruence|].
  apply elem_of_cons in H2 as [H2|H2]; [congruence|].
  intros Heq. apply IH; [assumption|assumption|lia].
Qed.

Lemma NoDup_fmap_inj {A B} (f : A -> B) (l : list A) a b :
  NoDup (f <$> l) -> a ∈ l -> b ∈ l -> f a = f b -> a = b.
Proof.
  induction l as [|m l IH]; intros Hnd Ha Hb Heq; [now apply elem_of_nil in Ha|].
  rewrite fmap_cons in Hnd. apply NoDup_cons in Hnd as [Hm Hnd].
  apply elem_of_cons in Ha as [->|Ha], Hb as [->|Hb].
  - reflexivity.
  - exfalso. apply Hm. rewrite Heq. apply list_elem_of_fmap. eauto.
  - exfalso. apply Hm. rewrite <- Heq. apply list_elem_of_fmap. eauto.
  - now apply IH.
Qed.

Lemma ordered_any_order conn l :
  l ≡ₚ map to_message (map_to_list conn) -> StronglySorted newer_first l ->
  ordered (rank_of l) conn = l.
Proof.
  intros Hperm Hl.
  assert (Hnd : NoDup (id <$> l)) by (rewrite Hperm; apply rows_ids_NoDup).
  destruct (ordered_spec (rank_of l) conn) as (Hperm' & _).
  apply StronglySorted_unique_strong with (R := newer_first_by (rank_of l)).
  - intros a b Ha Hb Hab Hba. rewrite Hperm', <- Hperm in Ha.
    apply (NoDup_fmap_inj id l); [assumption..|].
    apply (rank_of_inj l).
    + apply list_elem_of_fmap. eauto.
    + apply list_elem_of_fmap. eauto.
    + unfold newer_first_by in Hab, Hba. lia.
  - unfold ordered. apply StronglySorted_merge_sort; apply _.
  - now apply rank_of_sorted.
  - now rewrite Hperm'.
Qed.

(** Without ties the order of the query is fixed. *)
Lemma ordered_no_ties conn rank1 rank2 :
  no_ties conn -> ordered rank1 conn = ordered rank2 conn.
Proof.
  intros Hties.
  destruct (ordered_spec rank1 conn) as (Hperm1 & Hsorted1 & _).
  destruct (ordered_spec rank2 conn) as (Hperm2 & Hsorted2 & _).
  apply StronglySorted_unique_strong with (R := newer_first);
    [|assumption|assumption|now rewrite Hperm1, Hperm2].
  intros a b Ha Hb Hab Hba.
  apply ordered_rows in Ha as (k1 & r1 & Hk1 & ->).
  apply ordered_rows in Hb as (k2 & r2 & Hk2 & ->).
  unfold newer_first in Hab, Hba. simpl in Hab, Hba.
  assert (Hsame : (k1, r1) = (k2, r2)).
  { apply (NoDup_fmap_inj _ _ _ _ Hties); [now apply elem_of_map_to_list..|].
    simpl. lia. }
  congruence.
Qed.

(** The page from offset 0 that is as long as the table is the whole
    listing. *)
Lemma full_page rank conn :
  Z.of_nat (size conn) <= bigint_max ->
  get_messages_with_sentiment rank conn (Z.of_nat (size conn)) 0 None
  = Response200 {| messages := ordered rank conn; total := Z.of_nat (size conn);
                   limit := Z.of_nat (size conn); offset := 0 |}.
Proof.
  intros Hsize. unfold get_messages_with_sentiment.
  replace ((Z.of_nat (size conn) <? 0) || (0 <? 0)) with false
    by (symmetry; rewrite orb_false_iff, !Z.ltb_ge; lia).
  replace ((bigint_max <? Z.of_nat (size conn)) || (bigint_max <? 0)) with false
    by (symmetry; rewrite orb_false_iff, !Z.ltb_ge; unfold bigint_max in *; lia).
  cbn [truthy]. f_equal. f_equal.
  change (drop (Z.to_nat 0) (ordered rank conn)) with (ordered rank conn).
  apply take_ge. destruct (ordered_spec rank conn) as (_ & _ & ->). lia.
Qed.

Lemma page_whole_listing rank conn page :
  get_messages_with_sentiment rank conn (Z.of_nat (size conn)) 0 None
  = Response200 page ->
  Z.of_nat (size conn) <= bigint_max /\ messages page = ordered rank conn.
Proof.
  destruct (Z_le_gt_dec (Z.of_nat (size conn)) bigint_max) as [Hsize|Hsize].
  - rewrite full_page by exact Hsize. now intros [= <-].
  - unfold get_messages_with_sentiment. cbn [truthy].
    replace ((Z.of_nat (size conn) <? 0) || (0 <? 0)) with false
      by (symmetry; rewrite orb_false_iff, !Z.ltb_ge; lia).
    replace ((bigint_max <? Z.of_nat (size conn)) || (bigint_max <? 0)) with true;
      [discriminate|].
    symmetry. rewrite orb_true_iff, !Z.ltb_lt. lia.
Qed.

Lemma in_range l o :
  0 <= l <= bigint_max -> 0 <= o <= bigint_max ->
  (l <? 0) || (o <? 0) = false /\ (bigint_max <? l) || (bigint_max <? o) = false.
Proof. intros Hl Ho. rewrite !orb_false_iff, !Z.ltb_ge. lia. Qed.

(** X10. Consecutive pages tile the listing when no two stored rows share
    their [analyzed_at]: for limits and offsets that [bigint] holds, the
    page of [l1] rows at offset [o] followed by the page of [l2] rows at
    offset [o + l1] is the page of [l1 + l2] rows at offset [o], however
    the engine orders ties in each of the three queries, and all three
    report the same total. *)
Theorem pages_tile rank1 rank2 rank3 conn l1 l2 o thread_id :
  no_ties conn ->
  0 <= l1 -> 0 <= l2 -> 0 <= o ->
  o + l1 <= bigint_max -> l1 + l2 <= bigint_max ->
  truthy thread_id = false ->
  exists first second both,
    get_messages_with_sentiment rank1 conn l1 o thread_id = Response200 first
    /\ get_messages_with_sentiment rank2 conn l2 (o + l1) thread_id
       = Response200 second
    /\ get_messages_with_sentiment rank3 conn (l1 + l2) o thread_id
       = Response200 both
    /\ messages first ++ messages second = messages both
    /\ total first = total both /\ total second = total both.
Proof.
  intros Hties Hl1 Hl2 Ho Hbig1 Hbig2 Hfilter.
  unfold get_messages_with_sentiment. rewrite Hfilter.
  destruct (in_range l1 o) as [-> ->]; [lia..|].
  destruct (in_range l2 (o + l1)) as [-> ->]; [lia..|].
  destruct (in_range (l1 + l2) o) as [-> ->]; [lia..|].
  do 3 eexists. repeat split. simpl.
  rewrite (ordered_no_ties conn rank2 rank1), (ordered_no_ties conn rank3 rank1)
    by assumption.
  rewrite !Z2Nat.inj_add by lia. rewrite <- drop_drop. apply take_take_drop.
Qed.

(** X11. At an offset at or past the number of stored rows that [bigint]
    holds, the page is empty and [total] is still the number of stored
    rows; at an offset that [bigint] does not hold (of no more than 4300
    digits) the query fails with status 500. *)
Theorem page_past_end rank conn l o thread_id :
  0 <= l <= bigint_max -> Z.of_nat (size conn) <= o ->
  truthy thread_id = false ->
  (o <= bigint_max ->
   exists page,
     get_messages_with_sentiment rank conn l o thread_id = Response200 page
     /\ messages page = [] /\ total page = Z.of_nat (size conn))
  /\ (bigint_max < o < 10 ^ max_str_digits ->
      get_messages_with_sentiment rank conn l o thread_id = HTTPError 500).
Proof.
  intros Hl Ho Hfilter. unfold get_messages_with_sentiment. rewrite Hfilter.
  split.
  - intros Hbig. destruct (in_range l o) as [-> ->]; [lia..|].
    eexists. split; [reflexivity|]. simpl. split; [|reflexivity].
    rewrite drop_ge; [apply take_nil|].
    destruct (ordered_spec rank conn) as (_ & _ & ->). lia.
  - intros [Hbig _].
    replace ((l <? 0) || (o <? 0)) with false
      by (symmetry; rewrite orb_false_iff, !Z.ltb_ge; lia).
    replace ((bigint_max <? l) || (bigint_max <? o)) with true; [reflexivity|].
    symmetry. rewrite orb_true_iff, !Z.ltb_lt. lia.
Qed.

(** X12. A page shows stored rows and nothing else, each at most once:
    the ids on a page are pairwise distinct and every message is the
    projection of the stored row with its id; a page from offset 0 that is
    as long as the table shows every stored row. *)
Theorem page_shows_stored_rows rank conn l o thread_id page :
  get_messages_with_sentiment rank conn l o thread_id = Response200 page ->
  NoDup (id <$> messages page)
  /\ (forall m, m ∈ messages page ->
                exists r, conn !! id m = Some r /\ m = to_message (id m, r))
  /\ (o = 0 -> Z.of_nat (size conn) <= l ->
      forall k r, conn !! k = Some r -> to_message (k, r) ∈ messages page).
Proof.
  unfold get_messages_with_sentiment.
  destruct (truthy thread_id); [discriminate|].
  destruct ((l <? 0) || (o <? 0)); [discriminate|].
  destruct ((bigint_max <? l) || (bigint_max <? o)); [discriminate|].
  intros [= <-]. simpl.
  assert (Hsub : take (Z.to_nat l) (drop (Z.to_nat o) (ordered rank conn))
                 `sublist_of` ordered rank conn).
  { etransitivity; [apply sublist_take|apply sublist_drop]. }
  split; [|split].
  - eapply sublist_NoDup; [apply ordered_ids_NoDup|apply fmap_sublist; exact Hsub].
  - intros m Hm. eapply elem_of_sublist in Hm; [|exact Hsub].
    apply ordered_rows in Hm as (k & r & Hk & ->). now exists r.
  - intros -> Hl k r Hk. simpl. rewrite take_ge.
    + apply ordered_rows. eauto.
    + change (drop (Z.to_nat 0) (ordered rank conn)) with (ordered rank conn).
      destruct (ordered_spec rank conn) as (_ & _ & ->). lia.
Qed.

End PagingExtras.

(** ** Start-up and health *)

Section StartupExtras.
Import Main.

Lemma wait_loop_connects i : forall remaining connect delay retries slept0,
  0 <= delay -> (i < remaining)%nat ->
  (forall j, (j < i)%nat -> connect (retries + j)%nat = Raise DatabaseError) ->
  connect (retries + i)%nat = Ok tt ->
  wait_loop remaining connect delay retries slept0
  = {| returned := Ok true; attempts := S (retries + i);
       slept := slept0 + Z.of_nat i * delay |}.
Proof.
  induction i as [|i IH]; intros remaining connect delay retries slept0 Hd Hi Hfail Hok;
    (destruct remaining as [|remaining]; [lia|]); simpl.
  - rewrite Nat.add_0_r in Hok. rewrite Hok. f_equal; lia.
  - pose proof (Hfail 0%nat ltac:(lia)) as H0. rewrite Nat.add_0_r in H0. rewrite H0.
    replace (delay <? 0) with false by (symmetry; apply Z.ltb_ge; lia).
    rewrite (IH remaining connect delay (S retries) (slept0 + delay)); try lia.
    + f_equal; lia.
    + intros j Hj. replace (S retries + j)%nat with (retries + S j)%nat by lia.
      apply Hfail. lia.
    + now replace (S retries + i)%nat with (retries + S i)%nat by lia.
Qed.

Lemma wait_loop_gives_up remaining : forall connect delay retries slept0,
  0 <= delay ->
  (forall j, (j < remaining)%nat -> connect (retries + j)%nat = Raise DatabaseError) ->
  wait_loop remaining connect delay retries slept0
  = {| returned := Raise OtherError; attempts := (retries + remaining)%nat;
       slept := slept0 + Z.of_nat remaining * delay |}.
Proof.
  induction remaining as [|remaining IH]; intros connect delay retries slept0 Hd Hfail;
    simpl.
  - f_equal; lia.
  - pose proof (Hfail 0%nat ltac:(lia)) as H0. rewrite Nat.add_0_r in H0. rewrite H0.
    replace (delay <? 0) with false by (symmetry; apply Z.ltb_ge; lia).
    rewrite IH; try lia.
    + f_equal; lia.
    + intros j Hj. replace (S retries + j)%nat with (retries + S j)%nat by lia.
      apply Hfail. lia.
Qed.

Lemma wait_loop_sound remaining : forall connect delay retries slept0,
  let w := wait_loop remaining connect delay retries slept0 in
  (retries <= attempts w <= retries + remaining)%nat
  /\ forall b, returned w = Ok b ->
       b = true
       /\ exists i, attempts w = S (retries + i) /\ (i < remaining)%nat
                    /\ connect (retries + i)%nat = Ok tt
                    /\ forall j, (j < i)%nat ->
                                 connect (retries + j)%nat = Raise DatabaseError.
Proof.
  induction remaining as [|remaining IH]; intros connect delay retries slept0; simpl.
  - split; [lia|]. intros b Hb. discriminate.
  - destruct (connect retries) as [[]|e] eqn:Hc; simpl.
    + split; [lia|]. intros b [= <-]. split; [reflexivity|]. exists 0%nat.
      rewrite Nat.add_0_r. repeat split; [lia|exact Hc|]. intros j Hj. lia.
    + destruct e; simpl; try (split; [lia|intros b Hb; discriminate]).
      destruct (delay <? 0); simpl; [split; [lia|intros b Hb; discriminate]|].
      destruct (IH connect delay (S retries) (slept0 + delay)) as [Hbound Hok].
      split; [lia|]. intros b Hb.
      destruct (Hok b Hb) as (-> & i & Hatt & Hi & Hconn & Hfail).
      split; [reflexivity|]. exists (S i).
      replace (retries + S i)%nat with (S retries + i)%nat by lia.
      repeat split; [exact Hatt|lia|exact Hconn|].
      intros [|j] Hj; [now rewrite Nat.add_0_r|].
      replace (retries + S j)%nat with (S retries + j)%nat by lia. apply Hfail. lia.
Qed.

(** X13. If the database refuses the first [i] connections and accepts the
    next one, with [i] below [max_retries], [wait_for_db] returns [True]
    after [i + 1] attempts and [i] sleeps of [delay_seconds]. *)
Theorem wait_for_db_connects max_retries delay_seconds connect i :
  0 <= delay_seconds -> Z.of_nat i < max_retries ->
  (forall j, (j < i)%nat -> connect j = Raise DatabaseError) ->
  connect i = Ok tt ->
  wait_for_db max_retries delay_seconds connect
  = {| returned := Ok true; attempts := S i; slept := Z.of_nat i * delay_seconds |}.
Proof.
  intros Hd Hi Hfail Hok. unfold wait_for_db.
  rewrite (wait_loop_connects i); simpl; try assumption; [reflexivity|lia].
Qed.

(** X14. If the database refuses every one of the first [max_retries]
    connections, [wait_for_db] raises its final exception after exactly
    [max_retries] attempts and as many sleeps; with [max_retries] at most 0
    it raises without a single attempt. *)
Theorem wait_for_db_gives_up max_retries delay_seconds connect :
  0 <= delay_seconds ->
  (forall j, Z.of_nat j < max_retries -> connect j = Raise DatabaseError) ->
  wait_for_db max_retries delay_seconds connect
  = {| returned := Raise OtherError; attempts := Z.to_nat max_retries;
       slept := Z.of_nat (Z.to_nat max_retries) * delay_seconds |}.
Proof.
  intros Hd Hfail. unfold wait_for_db.
  rewrite wait_loop_gives_up; simpl; [reflexivity|assumption|].
  intros j Hj. apply Hfail. lia.
Qed.

(** X15. Whatever the database does, [wait_for_db] calls [connect] at most
    [max_retries] times, and it returns only [True], and only when its
    last attempt connected after a run of [psycopg2.Error] refusals. *)
Theorem wait_for_db_sound max_retries delay_seconds connect :
  let w := wait_for_db max_retries delay_seconds connect in
  Z.of_nat (attempts w) <= Z.max 0 max_retries
  /\ forall b, returned w = Ok b ->
       b = true
       /\ exists i, attempts w = S i /\ Z.of_nat i < max_retries
                    /\ connect i = Ok tt
                    /\ forall j, (j < i)%nat -> connect j = Raise DatabaseError.
Proof.
  unfold wait_for_db.
  destruct (wait_loop_sound (Z.to_nat max_retries) connect delay_seconds 0 0)
    as [Hbound Hok].
  split; [simpl in Hbound; lia|].
  intros b Hb. destruct (Hok b Hb) as (-> & i & Hatt & Hi & Hconn & Hfail).
  split; [reflexivity|]. exists i. simpl in *. repeat split; [exact Hatt|lia|exact Hconn|exact Hfail].
Qed.

(** X16. [GET /health] always answers: healthy exactly when the connection
    is made and [SELECT 1] goes through, unhealthy with the error
    otherwise; the connection is closed whenever it was opened. *)
Theorem health_check_reports connect fault now :
  let '(h, events) := health_check connect fault now in
  health_timestamp h = now
  /\ (status h = "healthy" <-> (exists conn, connect = Ok conn) /\ fault = None)
  /\ (status h = "healthy" -> database h = "connected" /\ error h = None)
  /\ (status h <> "healthy" ->
      status h = "unhealthy" /\ database h = "disconnected" /\ is_Some (error h))
  /\ (events = [Opened; Closed] <-> exists conn, connect = Ok conn)
  /\ (events = [] <-> exists e, connect = Raise e).
Proof.
  unfold health_check, get_db_connection.
  destruct connect as [conn|e]; [destruct fault as [e|]|].
  - destruct e; simpl; repeat split; try discriminate; try tauto; eauto;
      intros [[? ?] ?] || intros [? ?]; discriminate.
  - simpl. repeat split; try discriminate; try tauto; eauto.
    intros [? ?]; discriminate.
  - destruct e; simpl; repeat split; try discriminate; try tauto; eauto;
      intros [[? ?] ?] || intros [? ?]; discriminate.
Qed.

(** X17. The statistics endpoints never let a [psycopg2.Error] out: a
    refused connection or a failed query is answered with status 500, and
    with the connection made and the query through they return the rows of
    the query.  The connection is closed exactly when it was opened. *)
Theorem stats_endpoints_contain_errors connect now fault :
  let '(o, events) := sentiment_stats connect now fault in
  let '(o', events') := sentiment_summary connect now fault in
  o <> Fail (Exn DatabaseError) /\ o' <> Fail (Exn DatabaseError)
  /\ ((connect = Raise DatabaseError
       \/ (exists conn, connect = Ok conn) /\ fault = Some DatabaseError) ->
      o = Fail (Http 500) /\ o' = Fail (Http 500))
  /\ (forall conn, connect = Ok conn -> fault = None ->
        o = Return (hourly (recent conn now))
        /\ o' = Return (summary_of (recent conn now)))
  /\ events = events'
  /\ (events = [Opened; Closed] <-> exists conn, connect = Ok conn)
  /\ (events = [] <-> exists e, connect = Raise e).
Proof.
  unfold sentiment_stats, sentiment_summary, get_db_connection,
    get_sentiment_stats, get_sentiment_summary, query.
  destruct connect as [conn|e]; [destruct fault as [e|]|]; try destruct e; simpl;
    repeat split; try discriminate; try congruence; eauto;
    try (intros [?|[[? ?] ?]]; discriminate);
    try (intros [? ?]; discriminate);
    try (intros ? ? ?; discriminate);
    try match goal with
        | Hc : _ \/ _ |- _ => destruct Hc as [Hc|[[? ?] Hc]]; discriminate
        end.
Qed.

End StartupExtras.

(** ** The statistics *)

Section StatsExtras.
Import Store Main.

#[local] Instance later_first_trans : Transitive later_first.
Proof. unfold later_first. intros a b c Hab Hbc. lia. Qed.

#[local] Instance later_first_total : Total later_first.
Proof. unfold later_first. intros a b. lia. Qed.

Lemma sum_over_ext g g' ks :
  (forall k, g k = g' k) -> sum_over g ks = sum_over g' ks.
Proof. intros Hg. induction ks as [|k ks IH]; simpl; [reflexivity|]. now rewrite Hg, IH. Qed.

Lemma sum_over_add g h ks :
  sum_over (fun k => g k + h k) ks = sum_over g ks + sum_over h ks.
Proof. induction ks as [|k ks IH]; simpl; [reflexivity|]. rewrite IH. lia. Qed.

Lemma sum_over_zero ks : sum_over (fun _ => 0) ks = 0.
Proof. induction ks as [|k ks IH]; simpl; [reflexivity|]. now rewrite IH. Qed.

Lemma sum_over_indicator x v ks :
  NoDup ks ->
  sum_over (fun k => if (x =? k)%N then v else 0) ks = if decide (x ∈ ks) then v else 0.
Proof.
  induction 1 as [|k ks Hk Hnd IH].
  - now rewrite decide_False by apply not_elem_of_nil.
  - change (sum_over (fun k0 => if (x =? k0)%N then v else 0) (k :: ks))
      with ((if (x =? k)%N then v else 0)
            + sum_over (fun k0 => if (x =? k0)%N then v else 0) ks).
    rewrite IH. destruct (N.eqb_spec x k) as [->|Hne].
    + destruct (decide (k ∈ ks)); [contradiction|].
      destruct (decide (k ∈ k :: ks)) as [_|Hn]; [lia|].
      exfalso. apply Hn. now left.
    + destruct (decide (x ∈ ks)) as [Hin|Hout];
        destruct (decide (x ∈ k :: ks)) as [Hin'|Hout']; try lia.
      * exfalso. apply Hout'. now right.
      * apply elem_of_cons in Hin' as [?|?]; contradiction.
Qed.

(** Adding a column up bucket by bucket is adding it up over the rows. *)
Lemma sum_by_bucket column ks rows :
  NoDup ks ->
  (forall r, r ∈ rows -> date_trunc_hour (analyzed_at r) ∈ ks) ->
  sum_over (fun k => sum_of column (List.filter (in_bucket k) rows)) ks
  = sum_of column rows.
Proof.
  intros Hnd. induction rows as [|r rows IH]; intros Hks; simpl.
  - apply sum_over_zero.
  - rewrite (sum_over_ext _
               (fun k => (if (date_trunc_hour (analyzed_at r) =? k)%N
                          then column r else 0)
                         + sum_of column (List.filter (in_bucket k) rows))).
    + rewrite sum_over_add, sum_over_indicator by assumption.
      rewrite decide_True by (apply Hks; now left).
      rewrite IH; [reflexivity|]. intros r' Hr'. apply Hks. now right.
    + intros k. unfold in_bucket at 1.
      destruct (date_trunc_hour (analyzed_at r) =? k)%N; reflexivity.
Qed.

Lemma sum_of_ones rows : sum_of (fun _ => 1) rows = Z.of_nat (length rows).
Proof. induction rows as [|r rows IH]; simpl; [reflexivity|]. rewrite IH. lia. Qed.

Lemma length_by_bucket ks rows :
  NoDup ks ->
  (forall r, r ∈ rows -> date_trunc_hour (analyzed_at r) ∈ ks) ->
  sum_over (fun k => Z.of_nat (length (List.filter (in_bucket k) rows))) ks
  = Z.of_nat (length rows).
Proof.
  intros Hnd Hks. rewrite <- sum_of_ones, <- (sum_by_bucket (fun _ => 1) ks rows Hnd Hks).
  apply sum_over_ext. intros k. now rewrite sum_of_ones.
Qed.

Lemma total_over_buckets column rows ks :
  total_over column (map (bucket_of rows) ks)
  = sum_over (fun k => column (bucket_of rows k)) ks.
Proof. induction ks as [|k ks IH]; simpl; [reflexivity|]. now rewrite IH. Qed.

(** The hours of the buckets: each hour with a row, once, latest first. *)
Lemma bucket_hours rows :
  let ks := merge_sort later_first
              (remove_dups (map (fun r => date_trunc_hour (analyzed_at r)) rows)) in
  NoDup ks
  /\ (forall k, k ∈ ks <-> exists r, r ∈ rows /\ date_trunc_hour (analyzed_at r) = k)
  /\ StronglySorted later_first ks.
Proof.
  intros ks. split; [|split].
  - unfold ks. rewrite merge_sort_Permutation. apply NoDup_remove_dups.
  - intros k. unfold ks. rewrite merge_sort_Permutation, elem_of_remove_dups.
    change (map (fun r => date_trunc_hour (analyzed_at r)) rows)
      with ((fun r => date_trunc_hour (analyzed_at r)) <$> rows).
    rewrite list_elem_of_fmap. split; intros (r & ? & ?); exists r; auto.
  - apply StronglySorted_merge_sort; apply _.
Qed.

(** X18. The summary adds up the hourly statistics: over the same table
    and clock, its message count is the sum of the buckets' counts, and
    each of its three totals is the sum of that column over the buckets.
    Over an empty window there is no bucket, the message count is 0, and
    the three totals are [NULL] rather than 0. *)
Theorem summary_adds_up_buckets conn now :
  exists buckets summary,
    get_sentiment_stats conn now None = Return buckets
    /\ get_sentiment_summary conn now None = Return summary
    /\ summary_total_messages summary = total_over total_messages buckets
    /\ (recent conn now <> [] ->
        total_positive summary = Some (total_over bucket_positive buckets)
        /\ total_negative summary = Some (total_over bucket_negative buckets)
        /\ total_neutral summary = Some (total_over bucket_neutral buckets))
    /\ (recent conn now = [] ->
        buckets = [] /\ summary_total_messages summary = 0
        /\ total_positive summary = None /\ total_negative summary = None
        /\ total_neutral summary = None).
Proof.
  do 2 eexists. split; [reflexivity|]. split; [reflexivity|].
  set (rows := recent conn now).
  destruct (bucket_hours rows) as (Hnd & Hks & _).
  assert (Hall : forall r, r ∈ rows ->
            date_trunc_hour (analyzed_at r)
            ∈ merge_sort later_first
                (remove_dups (map (fun r => date_trunc_hour (analyzed_at r)) rows))).
  { intros r Hr. apply Hks. now exists r. }
  unfold hourly. rewrite !total_over_buckets. simpl.
  split; [now rewrite length_by_bucket|]. split.
  - intros Hne. rewrite !sum_by_bucket by assumption.
    unfold sql_sum. now destruct rows.
  - intros ->. repeat split.
Qed.

Lemma date_trunc_hour_spec t :
  (date_trunc_hour t mod hour = 0)%N
  /\ (date_trunc_hour t <= t)%N /\ (t < date_trunc_hour t + hour)%N.
Proof.
  unfold date_trunc_hour.
  assert (Hh : hour <> 0%N) by discriminate.
  pose proof (N.div_mod t hour Hh) as Hdm.
  pose proof (N.mod_lt t hour Hh) as Hlt.
  set (q := (t / hour)%N) in *. set (m := (t mod hour)%N) in *.
  assert (Heq : (t - m = q * hour)%N) by lia.
  rewrite Heq. split; [apply N.Div0.mod_mul|lia].
Qed.

(** X19. The hourly statistics have one bucket for each hour that has a
    message in the window, and no other: every stored row analysed within
    the last 24 hours has the bucket of its hour; the buckets are on the
    hour, strictly descending in time (so no hour has two), none is empty,
    none starts more than 25 hours before the clock, and each is the
    group of the rows of the window in its hour: their number and the
    sums of their counts. *)
Theorem hourly_buckets_shape conn now :
  let buckets := hourly (recent conn now) in
  StronglySorted (fun a b => (time_bucket b < time_bucket a)%N) buckets
  /\ Forall (fun b => (time_bucket b mod hour = 0)%N
                      /\ 1 <= total_messages b
                      /\ Z.of_N now - day - Z.of_N hour < Z.of_N (time_bucket b))
       buckets
  /\ (forall id r, conn !! id = Some r ->
                   Z.of_N now - day <= Z.of_N (analyzed_at r) ->
                   exists b, b ∈ buckets
                             /\ time_bucket b = date_trunc_hour (analyzed_at r))
  /\ Forall (fun b =>
               let group :=
                 List.filter (fun r => (date_trunc_hour (analyzed_at r)
                                        =? time_bucket b)%N)
                   (recent conn now) in
               total_messages b = Z.of_nat (length group)
               /\ bucket_positive b = sum_of positive_count group
               /\ bucket_negative b = sum_of negative_count group
               /\ bucket_neutral b = sum_of neutral_count group)
       buckets.
Proof.
  set (rows := recent conn now). simpl.
  destruct (bucket_hours rows) as (Hnd & Hks & Hsorted).
  unfold hourly.
  set (ks := merge_sort later_first
               (remove_dups (map (fun r => date_trunc_hour (analyzed_at r)) rows))) in *.
  split; [|split; [|split]]; cycle 2.
  - intros id r Hid Hwindow.
    assert (Hr : r ∈ rows).
    { unfold rows, recent. apply list_elem_of_In, filter_In. split.
      - apply list_elem_of_In.
        change (map snd (map_to_list conn)) with (snd <$> map_to_list conn).
        apply list_elem_of_fmap. exists (id, r). split; [reflexivity|].
        now apply elem_of_map_to_list.
      - unfold in_window. now apply Z.leb_le. }
    exists (bucket_of rows (date_trunc_hour (analyzed_at r))). split; [|reflexivity].
    change (map (bucket_of rows) ks) with (bucket_of rows <$> ks).
    apply list_elem_of_fmap. eexists. split; [reflexivity|].
    apply Hks. eauto.
  - apply Forall_forall. intros b Hb.
    change (map (bucket_of rows) ks) with (bucket_of rows <$> ks) in Hb.
    apply list_elem_of_fmap in Hb as (k & -> & Hk). repeat split.
  - clear Hks. induction Hsorted as [|k ks' Hs IH Hk]; [constructor|].
    apply NoDup_cons in Hnd as [Hnotin Hnd]. simpl. constructor; [now apply IH|].
    apply Forall_forall. intros b Hb.
    pose proof (proj1 (Forall_forall _ _) Hk) as Hk0. clear Hk. rename Hk0 into Hk.
    change (map (bucket_of rows) ks') with (bucket_of rows <$> ks') in Hb.
    apply list_elem_of_fmap in Hb as (k' & -> & Hk'). simpl.
    specialize (Hk k' Hk'). unfold later_first in Hk.
    assert (k' <> k) by (intros ->; contradiction). lia.
  - apply Forall_forall. intros b Hb.
    change (map (bucket_of rows) ks) with (bucket_of rows <$> ks) in Hb.
    apply list_elem_of_fmap in Hb as (k & -> & Hk). simpl.
    apply Hks in Hk as (r & Hr & <-).
    destruct (date_trunc_hour_spec (analyzed_at r)) as (Hmod & Hle & Hlt).
    split; [exact Hmod|]. split.
    + assert (Hin : r ∈ List.filter (in_bucket (date_trunc_hour (analyzed_at r))) rows).
      { apply list_elem_of_In, filter_In. split; [now apply list_elem_of_In|].
        unfold in_bucket. apply N.eqb_refl. }
      destruct (List.filter (in_bucket (date_trunc_hour (analyzed_at r))) rows);
        [now apply elem_of_nil in Hin|simpl; lia].
    + unfold rows, recent in Hr. apply list_elem_of_In, filter_In in Hr as [_ Hw].
      unfold in_window in Hw. apply Z.leb_le in Hw. clear Hmod.
      unfold hour, day in *. lia.
Qed.

(** X20. In a table where every row carries counts the tagging stage can
    produce, no bucket has a negative count and the three counts of a
    bucket add up to at most its number of messages, with equality when no
    row of the table carries the all-zero vector of a classifier failure. *)
Theorem bucket_counts_bounded conn now :
  map_Forall (fun _ r => Crawl.tagged_counts r) conn ->
  Forall (fun b => 0 <= bucket_positive b /\ 0 <= bucket_negative b
                   /\ 0 <= bucket_neutral b
                   /\ bucket_positive b + bucket_negative b + bucket_neutral b
                      <= total_messages b)
    (hourly (recent conn now))
  /\ ((forall k r, conn !! k = Some r ->
                   (positive_count r, negative_count r, neutral_count r) <> (0, 0, 0)) ->
      Forall (fun b => bucket_positive b + bucket_negative b + bucket_neutral b
                       = total_messages b)
        (hourly (recent conn now))).
Proof.
  intros Hinv.
  assert (Hrows : forall r, r ∈ recent conn now ->
            exists k, conn !! k = Some r /\ Crawl.tagged_counts r).
  { intros r Hr. unfold recent in Hr. apply list_elem_of_In, filter_In in Hr as [Hr _].
    apply list_elem_of_In in Hr.
    change (map snd (map_to_list conn)) with (snd <$> map_to_list conn) in Hr.
    apply list_elem_of_fmap in Hr as ([k r'] & -> & Hkr).
    apply elem_of_map_to_list in Hkr. exists k. split; [exact Hkr|].
    exact (Hinv k r' Hkr). }
  assert (Hgroup : forall (P : Row -> Prop) k,
            (forall r, r ∈ recent conn now -> P r) ->
            Forall P (List.filter (in_bucket k) (recent conn now))).
  { intros P k HP. apply Forall_forall. intros r Hr.
    apply list_elem_of_In, filter_In in Hr as [Hr _]. apply HP.
    now apply list_elem_of_In. }
  split.
  - apply Forall_forall. intros b Hb. unfold hourly in Hb.
    match type of Hb with
    | b ∈ map ?f ?l => change (map f l) with (f <$> l) in Hb
    end.
    apply list_elem_of_fmap in Hb as (k & -> & _). simpl.
    assert (Hg : Forall Crawl.tagged_counts
                   (List.filter (in_bucket k) (recent conn now))).
    { apply Hgroup. intros r Hr. now destruct (Hrows r Hr) as (k' & _ & Ht). }
    induction Hg as [|r g Hr _ IH]; simpl; [lia|].
    unfold Crawl.tagged_counts in Hr.
    repeat (apply elem_of_cons in Hr as [Hr|Hr]; [injection Hr as -> -> ->; lia|]).
    now apply elem_of_nil in Hr.
  - intros Hhot. apply Forall_forall. intros b Hb. unfold hourly in Hb.
    match type of Hb with
    | b ∈ map ?f ?l => change (map f l) with (f <$> l) in Hb
    end.
    apply list_elem_of_fmap in Hb as (k & -> & _). simpl.
    assert (Hg : Forall (fun r => Crawl.tagged_counts r
                                  /\ (positive_count r, negative_count r,
                                      neutral_count r) <> (0, 0, 0))
                   (List.filter (in_bucket k) (recent conn now))).
    { apply Hgroup. intros r Hr. destruct (Hrows r Hr) as (k' & Hk' & Ht).
      split; [exact Ht|]. now apply (Hhot k'). }
    induction Hg as [|r g [Hr Hnz] _ IH]; simpl.
    + reflexivity.
    + unfold Crawl.tagged_counts in Hr.
      repeat (apply elem_of_cons in Hr as [Hr|Hr];
              [injection Hr as Hp Hn Hu; rewrite Hp, Hn, Hu in *;
               first [lia|congruence]|]).
      now apply elem_of_nil in Hr.
Qed.

End StatsExtras.

(** ** From the page to the table to the API *)

Section EndToEnd.
Context `{Spider.Lib} `{Pipelines.Classifier}.
Import Store Pipelines.

Lemma counts_inj a b c a' b' c' :
  counts a b c = counts a' b' c' -> (a, b, c) = (a', b', c').
Proof.
  intros Heq.
  destruct (counts_lookup a b c) as (Hp & Hn & Hu & _).
  destruct (counts_lookup a' b' c') as (Hp' & Hn' & Hu' & _).
  rewrite Heq in Hp, Hn, Hu. congruence.
Qed.

Lemma as_text_of_opt o : SentimentAnalysisPipeline.as_text (of_opt o) = Ok o.
Proof. now destruct o. Qed.

(** The row the storage stage writes for a tagged item has the counts of
    [analyze_sentiment] and the clock of the tagging stage. *)
Lemma tagged_row_counts it text now id row :
  it !! "message_content" = Some text ->
  bind (SentimentAnalysisPipeline.params (FetchMessagePipeline.process_item it now).1)
    SentimentAnalysisPipeline.row_of = Ok (id, row) ->
  exists p n u,
    (FetchMessagePipeline.analyze_sentiment text).1 = counts p n u
    /\ (p, n, u) ∈ [(1, 0, 0); (0, 1, 0); (0, 0, 1); (0, 0, 0)]
    /\ positive_count row = p /\ negative_count row = n /\ neutral_count row = u
    /\ analyzed_at row = now.
Proof.
  intros Htext Hrow.
  destruct (process_item_tagged it text now Htext) as (Hp & Hn & Hu & Hat & _).
  destruct (analyze_sentiment_counts text) as (p & n & u & Hc & Hshape).
  rewrite Hc in Hp, Hn, Hu.
  destruct (counts_lookup p n u) as (Hp' & Hn' & Hu' & _).
  rewrite Hp' in Hp. rewrite Hn' in Hn. rewrite Hu' in Hu.
  apply row_of_item in Hrow as (_ & _ & _ & _ & _ & _ & _ & Hrp & Hrn & Hru & Hrt).
  exists p, n, u. split; [exact Hc|]. split; [exact Hshape|].
  repeat split; congruence.
Qed.

Lemma upsert_lookup_counts t id row :
  exists stored,
    upsert t id row !! id = Some stored
    /\ positive_count stored = positive_count row
    /\ negative_count stored = negative_count row
    /\ neutral_count stored = neutral_count row
    /\ analyzed_at stored = analyzed_at row.
Proof.
  unfold upsert. destruct (t !! id) as [old|]; rewrite lookup_insert_eq;
    eexists; (split; [reflexivity|]); repeat split.
Qed.

(** X21. Tagging and storing an item keeps the table within the counts the
    tagging stage can produce: if every stored row carries one of the
    vectors (1,0,0), (0,1,0), (0,0,1), (0,0,0), so does every row after the
    item went through both stages, whatever the faults. *)
Theorem run_item_keeps_tagged_counts p it text now f :
  it !! "message_content" = Some text ->
  map_Forall (fun _ r => Crawl.tagged_counts r) (SentimentAnalysisPipeline.db p) ->
  map_Forall (fun _ r => Crawl.tagged_counts r)
    (SentimentAnalysisPipeline.db (run_item p it now f).1.2).
Proof.
  intros Htext Hinv. unfold run_item.
  pose proof (tagged_row_counts it text now) as Hcounts.
  destruct (FetchMessagePipeline.process_item it now) as [tagged log1].
  simpl in Hcounts.
  destruct (process_item_cases p tagged f) as [(id & row & Hrow & Hp)|[Hp _]].
  - rewrite Hp. simpl.
    destruct (Hcounts id row Htext Hrow) as (a & b & c & _ & Hshape & <- & <- & <- & _).
    unfold upsert. destruct (SentimentAnalysisPipeline.db p !! id) as [old|];
      apply map_Forall_insert_2; assumption.
  - destruct (SentimentAnalysisPipeline.process_item p tagged f) as [[r p'] log2].
    simpl in Hp. now subst p'.
Qed.

Ltac other_key :=
  repeat (apply not_elem_of_cons; split; [discriminate|]); apply not_elem_of_nil.

(** The label the query derives from the counts of [analyze_sentiment] is
    the label of [analyze_text_sentiment], read three ways. *)
Lemma label_of_counts text a b c row :
  (FetchMessagePipeline.analyze_sentiment text).1 = counts a b c ->
  positive_count row = a -> negative_count row = b ->
  Api.sentiment_of row = Crawl.three_way (Main.analyze_text_sentiment text).
Proof.
  intros Ha Hp Hn.
  unfold Api.sentiment_of. rewrite Hp, Hn.
  unfold Main.analyze_text_sentiment, Crawl.three_way.
  unfold FetchMessagePipeline.analyze_sentiment in Ha.
  destruct (sentiment text) as [l|e];
    [destruct (value_eqb l (VStr "positive"));
     [|destruct (value_eqb l (VStr "negative"))]|];
    simpl in Ha; apply counts_inj in Ha; injection Ha as <- <- <-; reflexivity.
Qed.

(** X22. The label stored with a message is the label [POST /analyze/text]
    gives for the text of the item written last, read three ways: when an
    item is logged as stored, the row of its id is in the table, its
    [sentiment] is ['positive'] or ['negative'] if the classifier says so
    for the item's text and ['neutral'] for any other label and for a
    classifier failure, and its [analyzed_at] is the clock of the tagging
    stage.  If the id was not stored before, the row's [message_content] is
    that text, so the label served is the label of the text served.  If it
    was, the row keeps the [message_content] it had and carries the label
    of the new item's text. *)
Theorem stored_label_agrees p it text now f id :
  it !! "message_content" = Some text ->
  Stored (VStr id) ∈ (run_item p it now f).2 ->
  exists row,
    SentimentAnalysisPipeline.db (run_item p it now f).1.2 !! id = Some row
    /\ Api.sentiment_of row = Crawl.three_way (Main.analyze_text_sentiment text)
    /\ analyzed_at row = now
    /\ (SentimentAnalysisPipeline.db p !! id = None ->
        of_opt (message_content row) = text)
    /\ (forall old, SentimentAnalysisPipeline.db p !! id = Some old ->
                    message_content row = message_content old).
Proof.
  intros Htext. unfold run_item.
  pose proof (tagged_row_counts it text now) as Hcounts.
  pose proof (process_item_log it now (VStr id)) as Hlog1.
  pose proof (process_item_frame it now "message_content") as Hframe.
  destruct (FetchMessagePipeline.process_item it now) as [tagged log1].
  simpl in Hcounts, Hlog1, Hframe.
  destruct (process_item_cases p tagged f) as [(id' & row & Hrow & Hp)|[_ Hlog2]].
  - rewrite Hp. cbn [fst snd SentimentAnalysisPipeline.db].
    intros [Hin|Hin]%elem_of_app; [contradiction|].
    apply list_elem_of_singleton in Hin. injection Hin as ->.
    destruct (Hcounts id' row Htext Hrow)
      as (a & b & c & Ha & Hshape & Hpa & Hnb & Huc & Ht).
    assert (Hcontent : of_opt (message_content row) = text).
    { pose proof (row_of_item _ _ _ Hrow) as (_ & _ & _ & _ & _ & Hmc & _).
      rewrite Hframe in Hmc by other_key. congruence. }
    unfold upsert.
    destruct (SentimentAnalysisPipeline.db p !! id') as [old|] eqn:Hold;
      rewrite lookup_insert_eq; eexists; (split; [reflexivity|]).
    + split; [now apply (label_of_counts text a b c)|].
      split; [exact Ht|]. split; [discriminate|].
      now intros old' [= <-].
    + split; [now apply (label_of_counts text a b c)|].
      split; [exact Ht|]. split; [intros _; exact Hcontent|discriminate].
  - destruct (SentimentAnalysisPipeline.process_item p tagged f) as [[r p'] log2].
    simpl in *. intros [Hin|Hin]%elem_of_app; [contradiction|].
    exfalso. exact (Hlog2 _ Hin).
Qed.

(** The item of the spider, once tagged, gives the eleven parameters of
    the statement. *)
Lemma spider_item_params oid title date poster post_time content thread_url now :
  let it : gmap string value :=
    <["id" := of_opt oid]>
    (<["thread_title" := of_opt title]>
    (<["thread_date" := of_opt date]>
    (<["latest_poster" := of_opt poster]>
    (<["latest_post_time" := of_opt post_time]>
    (<["message_content" := VStr content]>
    (<["thread_url" := VStr thread_url]> ∅)))))) in
  exists p n u,
    (FetchMessagePipeline.analyze_sentiment (VStr content)).1 = counts p n u
    /\ (FetchMessagePipeline.process_item it now).1 !! "id" = Some (of_opt oid)
    /\ SentimentAnalysisPipeline.params (FetchMessagePipeline.process_item it now).1
       = Ok [of_opt oid; of_opt title; of_opt date; of_opt poster; of_opt post_time;
             VStr content; VStr thread_url; VInt p; VInt n; VInt u; VStamp now].
Proof.
  intros it.
  assert (Htext : it !! "message_content" = Some (VStr content)).
  { unfold it. now rewrite !lookup_insert_ne, lookup_insert_eq by discriminate. }
  destruct (process_item_tagged it (VStr content) now Htext) as (Hp & Hn & Hu & Hat & Hid).
  destruct (analyze_sentiment_counts (VStr content)) as (p & n & u & Hc & _).
  rewrite Hc in Hp, Hn, Hu.
  destruct (counts_lookup p n u) as (Hp' & Hn' & Hu' & _).
  rewrite Hp' in Hp. rewrite Hn' in Hn. rewrite Hu' in Hu.
  exists p, n, u. split; [exact Hc|].
  assert (Hframe : forall k, k ∉ ["positive"; "negative"; "neutral"; "processed_at"] ->
            (FetchMessagePipeline.process_item it now).1 !! k = it !! k)
    by (intros k; apply process_item_frame).
  assert (Hk1 : (FetchMessagePipeline.process_item it now).1 !! "thread_title"
               = Some (of_opt title)).
  { rewrite Hframe by other_key. unfold it.
    now rewrite !lookup_insert_ne, lookup_insert_eq by discriminate. }
  assert (Hk2 : (FetchMessagePipeline.process_item it now).1 !! "thread_date"
               = Some (of_opt date)).
  { rewrite Hframe by other_key. unfold it.
    now rewrite !lookup_insert_ne, lookup_insert_eq by discriminate. }
  assert (Hk3 : (FetchMessagePipeline.process_item it now).1 !! "latest_poster"
               = Some (of_opt poster)).
  { rewrite Hframe by other_key. unfold it.
    now rewrite !lookup_insert_ne, lookup_insert_eq by discriminate. }
  assert (Hk4 : (FetchMessagePipeline.process_item it now).1 !! "latest_post_time"
               = Some (of_opt post_time)).
  { rewrite Hframe by other_key. unfold it.
    now rewrite !lookup_insert_ne, lookup_insert_eq by discriminate. }
  assert (Hk5 : (FetchMessagePipeline.process_item it now).1 !! "message_content"
               = Some (VStr content)).
  { rewrite Hframe by other_key. exact Htext. }
  assert (Hk6 : (FetchMessagePipeline.process_item it now).1 !! "thread_url"
               = Some (VStr thread_url)).
  { rewrite Hframe by other_key. unfold it.
    now rewrite !lookup_insert_ne, lookup_insert_eq by discriminate. }
  assert (Hkid : (FetchMessagePipeline.process_item it now).1 !! "id"
                 = Some (of_opt oid)).
  { rewrite Hid. unfold it. now rewrite lookup_insert_eq. }
  split; [exact Hkid|].
  unfold SentimentAnalysisPipeline.params, SentimentAnalysisPipeline.lookup_key.
  rewrite Hkid, Hk1, Hk2, Hk3, Hk4, Hk5, Hk6, Hp, Hn, Hu, Hat. reflexivity.
Qed.

(** With an id, they bind to a row column by column. *)
Lemma spider_item_row id title date poster post_time content thread_url now :
  let it : gmap string value :=
    <["id" := of_opt (Some id)]>
    (<["thread_title" := of_opt title]>
    (<["thread_date" := of_opt date]>
    (<["latest_poster" := of_opt poster]>
    (<["latest_post_time" := of_opt post_time]>
    (<["message_content" := VStr content]>
    (<["thread_url" := VStr thread_url]> ∅)))))) in
  exists p n u,
    (FetchMessagePipeline.analyze_sentiment (VStr content)).1 = counts p n u
    /\ bind (SentimentAnalysisPipeline.params
               (FetchMessagePipeline.process_item it now).1)
         SentimentAnalysisPipeline.row_of
       = Ok (id, {| thread_title := title; thread_date := date;
                    latest_poster := poster; latest_post_time := post_time;
                    message_content := Some content; thread_url := Some thread_url;
                    positive_count := p; negative_count := n; neutral_count := u;
                    analyzed_at := now |}).
Proof.
  intros it.
  destruct (spider_item_params (Some id) title date poster post_time content
              thread_url now) as (p & n & u & Hc & _ & Hps).
  cbv zeta in Hps. fold it in Hps.
  exists p, n, u. split; [exact Hc|]. rewrite Hps. simpl.
  rewrite !as_text_of_opt. reflexivity.
Qed.

(** Without an id, the store refuses them: the key is null. *)
Lemma spider_item_refused title date poster post_time content thread_url now p f :
  let it : gmap string value :=
    <["id" := of_opt None]>
    (<["thread_title" := of_opt title]>
    (<["thread_date" := of_opt date]>
    (<["latest_poster" := of_opt poster]>
    (<["latest_post_time" := of_opt post_time]>
    (<["message_content" := VStr content]>
    (<["thread_url" := VStr thread_url]> ∅)))))) in
  let tagged := (FetchMessagePipeline.process_item it now).1 in
  SentimentAnalysisPipeline.has_conn p = true ->
  SentimentAnalysisPipeline.execute_fault f = None ->
  (exists ps, SentimentAnalysisPipeline.params tagged = Ok (VNone :: ps))
  /\ SentimentAnalysisPipeline.try_store p tagged f = Raise DatabaseError
  /\ SentimentAnalysisPipeline.process_item p tagged f
     = (bind (SentimentAnalysisPipeline.raise_if
                (SentimentAnalysisPipeline.rollback_fault f))
          (fun _ => Ok tagged),
        p, [StoreError VNone DatabaseError]).
Proof.
  intros it tagged Hconn Hexec.
  destruct (spider_item_params None title date poster post_time content
              thread_url now) as (a & b & u & _ & Hid & Hps).
  cbv zeta in Hid, Hps. fold it in Hid, Hps. fold tagged in Hid, Hps.
  assert (Htry : SentimentAnalysisPipeline.try_store p tagged f = Raise DatabaseError).
  { unfold SentimentAnalysisPipeline.try_store. rewrite Hconn, Hps, Hexec. simpl.
    rewrite !as_text_of_opt. reflexivity. }
  split; [eexists; exact Hps|]. split; [exact Htry|].
  unfold SentimentAnalysisPipeline.process_item. rewrite Htry.
  unfold SentimentAnalysisPipeline.on_error, SentimentAnalysisPipeline.lookup_key.
  rewrite Hid, Hconn. reflexivity.
Qed.

(** X23. From the page to the API.  A reply for which an id can be derived
    and that is not stored yet, once through the tagging and the storage
    stage of a connected pipeline without faults, is served by the messages
    query, however the engine orders ties (the table being one whose row
    count [bigint] holds): a page from offset 0 as long as the table has a
    message with
    that id, the extracted content, poster and post time, the thread title
    and date of the listing, the URL of the page, the clock of the tagging
    stage, and the label of the classifier read three ways. *)
Theorem crawl_round_trip response thread_info c id p now rank :
  Spider.resp_meta response = Some thread_info ->
  last (Spider.message_containers (Spider.resp_body response)) = Some c ->
  Spider.generate_item_id (Spider.resp_url response) (Spider.timestamp_of c) = Some id ->
  SentimentAnalysisPipeline.has_conn p = true ->
  SentimentAnalysisPipeline.db p !! id = None ->
  Z.of_nat (size (SentimentAnalysisPipeline.db p)) < Api.bigint_max ->
  exists it,
    Spider.parse_latest_message response = Ok [it]
    /\ exists tagged p' log page m,
         run_item p it now SentimentAnalysisPipeline.no_fault = (Ok tagged, p', log)
         /\ Api.get_messages_with_sentiment rank (SentimentAnalysisPipeline.db p')
              (Z.of_nat (size (SentimentAnalysisPipeline.db p'))) 0 None
            = Api.Response200 page
         /\ m ∈ Api.messages page
         /\ Api.id m = id
         /\ Api.m_message_content m
            = Some (Spider.normalize (Spider.message_fragments c))
         /\ Api.m_latest_poster m = Spider.username_of c
         /\ Api.m_latest_post_time m = Spider.timestamp_of c
         /\ Api.m_thread_title m = Spider.thread_title thread_info
         /\ Api.m_thread_date m = Spider.thread_date thread_info
         /\ Api.m_thread_url m = Some (Spider.resp_url response)
         /\ Api.m_analyzed_at m = now
         /\ Api.sentiment m
            = Crawl.three_way
                (Main.analyze_text_sentiment
                   (VStr (Spider.normalize (Spider.message_fragments c)))).
Proof.
  intros Hmeta Hlast Hgen Hconn Hnew Hsize. unfold Spider.parse_latest_message.
  rewrite Hmeta, Hlast, Hgen. eexists. split; [reflexivity|].
  set (content := Spider.normalize (Spider.message_fragments c)).
  destruct (spider_item_row id (Spider.thread_title thread_info)
              (Spider.thread_date thread_info) (Spider.username_of c)
              (Spider.timestamp_of c) content (Spider.resp_url response) now)
    as (a & b & u & Hc & Hrow).
  cbv zeta in Hrow. unfold run_item.
  destruct (FetchMessagePipeline.process_item _ now) as [tagged log1]. simpl in Hrow.
  destruct (process_item_cases p tagged SentimentAnalysisPipeline.no_fault)
    as [(id' & row & Hrow' & Hp)|[Hp _]].
  - rewrite Hrow in Hrow'. injection Hrow' as <- <-. rewrite Hp.
    set (row := {| thread_title := Spider.thread_title thread_info;
                   thread_date := Spider.thread_date thread_info;
                   latest_poster := Spider.username_of c;
                   latest_post_time := Spider.timestamp_of c;
                   message_content := Some content;
                   thread_url := Some (Spider.resp_url response);
                   positive_count := a; negative_count := b; neutral_count := u;
                   analyzed_at := now |}) in *.
    set (d := upsert (SentimentAnalysisPipeline.db p) id row).
    assert (Hd : d !! id = Some row) by (apply upsert_fresh; exact Hnew).
    assert (Hsize' : Z.of_nat (size d) <= Api.bigint_max).
    { unfold d, upsert. rewrite Hnew, map_size_insert_None by exact Hnew. lia. }
    clearbody d.
    exists tagged, {| SentimentAnalysisPipeline.has_conn := true;
                      SentimentAnalysisPipeline.db := d |},
      (log1 ++ [Stored (VStr id)]).
    exists {| Api.messages := Api.ordered rank d; Api.total := Z.of_nat (size d);
              Api.limit := Z.of_nat (size d); Api.offset := 0 |}.
    exists (Api.to_message (id, row)).
    split; [reflexivity|]. split; [now apply full_page|].
    split; [apply ordered_rows; eauto|].
    unfold row, Api.to_message. cbn [Api.id Api.m_message_content Api.m_latest_poster
      Api.m_latest_post_time Api.m_thread_title Api.m_thread_date Api.m_thread_url
      Api.m_analyzed_at Api.sentiment thread_title thread_date latest_poster
      latest_post_time message_content thread_url analyzed_at].
    repeat split.
    unfold Api.sentiment_of, Crawl.three_way, Main.analyze_text_sentiment.
    cbn [positive_count negative_count].
    unfold FetchMessagePipeline.analyze_sentiment in Hc.
    destruct (sentiment (VStr content)) as [l|e];
      [destruct (value_eqb l (VStr "positive"));
       [|destruct (value_eqb l (VStr "negative"))]|];
      simpl in Hc; apply counts_inj in Hc; injection Hc as <- <- <-; reflexivity.
  - exfalso.
    assert (Hok : (SentimentAnalysisPipeline.process_item p tagged
                     SentimentAnalysisPipeline.no_fault).1
                  = (Ok tagged,
                     {| SentimentAnalysisPipeline.has_conn := true;
                        SentimentAnalysisPipeline.db :=
                          upsert (SentimentAnalysisPipeline.db p) id _ |}))
      by (apply process_item_stores; [exact Hconn|exact Hrow]).
    rewrite (surjective_pairing (SentimentAnalysisPipeline.process_item p tagged _).1)
      in Hok.
    injection Hok as _ Hp'. rewrite Hp in Hp'.
    assert (Hdb : SentimentAnalysisPipeline.db p !! id
                  = upsert (SentimentAnalysisPipeline.db p) id
                      {| thread_title := Spider.thread_title thread_info;
                         thread_date := Spider.thread_date thread_info;
                         latest_poster := Spider.username_of c;
                         latest_post_time := Spider.timestamp_of c;
                         message_content := Some content;
                         thread_url := Some (Spider.resp_url response);
                         positive_count := a; negative_count := b;
                         neutral_count := u; analyzed_at := now |} !! id)
      by (rewrite Hp' at 1; reflexivity).
    rewrite Hnew in Hdb. unfold upsert in Hdb. rewrite Hnew, lookup_insert_eq in Hdb.
    discriminate.
Qed.

End EndToEnd.

(** ** Items without an id *)

Section NullId.
Context `{Spider.Lib} `{Pipelines.Classifier}.
Import Spider Pipelines.

(** C3, amended. On a thread page with a reply for which
    [generate_item_id] returns [None], [parse_latest_message] still yields
    one item, with [None] as its id.  The tagging stage processes it like
    any other item.  The storage stage of a connected pipeline attempts
    the write: the eleven parameters are bound, the first of them [None],
    and unless the driver fails before, the store refuses the statement on
    the null primary key; the error is logged with the id [None], the
    transaction is rolled back, and the item is returned to the stages
    that follow (or the exception of the rollback is raised).  Whatever
    the connection and the faults, the table is left as it was. *)
Theorem null_id_item_forwarded response thread_info c :
  resp_meta response = Some thread_info ->
  last (message_containers (resp_body response)) = Some c ->
  generate_item_id (resp_url response) (timestamp_of c) = None ->
  exists it,
    parse_latest_message response = Ok [it]
    /\ it !! "id" = Some VNone
    /\ forall now p f,
         let tagged := (FetchMessagePipeline.process_item it now).1 in
         let log1 := (FetchMessagePipeline.process_item it now).2 in
         tagged !! "id" = Some VNone
         /\ tagged !! "processed_at" = Some (VStamp now)
         /\ (exists p n u, (tagged !! "positive", tagged !! "negative", tagged !! "neutral")
                           = (Some (VInt p), Some (VInt n), Some (VInt u)))
         /\ SentimentAnalysisPipeline.db (run_item p it now f).1.2
            = SentimentAnalysisPipeline.db p
         /\ (SentimentAnalysisPipeline.has_conn p = true ->
             SentimentAnalysisPipeline.execute_fault f = None ->
             (exists ps, SentimentAnalysisPipeline.params tagged = Ok (VNone :: ps))
             /\ SentimentAnalysisPipeline.try_store p tagged f = Raise DatabaseError
             /\ (SentimentAnalysisPipeline.rollback_fault f = None ->
                 run_item p it now f
                 = (Ok tagged, p, log1 ++ [StoreError VNone DatabaseError]))
             /\ (forall e, SentimentAnalysisPipeline.rollback_fault f = Some e ->
                 run_item p it now f
                 = (Raise e, p, log1 ++ [StoreError VNone DatabaseError]))).
Proof.
  intros Hmeta Hlast Hnone. unfold parse_latest_message.
  rewrite Hmeta, Hlast, Hnone. eexists. split; [reflexivity|].
  set (it := <["id" := of_opt None]> _).
  assert (Hid : it !! "id" = Some VNone) by apply lookup_insert_eq.
  assert (Htext : exists text, it !! "message_content" = Some text).
  { eexists. unfold it. rewrite !lookup_insert_ne by discriminate.
    apply lookup_insert_eq. }
  destruct Htext as (text & Htext).
  split; [exact Hid|]. intros now p f.
  destruct (process_item_tagged it text now Htext) as (Hp & Hn & Hu & Hat & Hid').
  cbv zeta. rewrite Hid' , Hid.
  split; [reflexivity|]. split; [exact Hat|]. split; [|split].
  - rewrite Hp, Hn, Hu.
    unfold FetchMessagePipeline.analyze_sentiment.
    destruct (sentiment text) as [l|e]; simpl.
    + destruct (value_eqb l (VStr "positive")); [now exists 1, 0, 0|].
      destruct (value_eqb l (VStr "negative")); [now exists 0, 1, 0|now exists 0, 0, 1].
    + now exists 0, 0, 0.
  - unfold run_item. rewrite Hid in Hid'.
    destruct (FetchMessagePipeline.process_item it now) as [tagged log1].
    pose proof (process_item_null_id p tagged f Hid') as Hdb.
    destruct (SentimentAnalysisPipeline.process_item p tagged f) as [[r p'] log2].
    exact Hdb.
  - intros Hconn Hexec.
    destruct (spider_item_refused (thread_title thread_info) (thread_date thread_info)
                (username_of c) (timestamp_of c)
                (normalize (message_fragments c)) (resp_url response) now p f
                Hconn Hexec) as (Hps & Htry & Hrun).
    fold it in Hps, Htry, Hrun.
    split; [exact Hps|]. split; [exact Htry|].
    unfold run_item.
    destruct (FetchMessagePipeline.process_item it now) as [tagged log1].
    cbn [fst snd] in *. rewrite Hrun.
    split; [intros ->; reflexivity|intros e ->; reflexivity].
Qed.

End NullId.

(** A page whose only reply has no post time: no id can be derived, and
    the item is emitted all the same. *)
Lemma null_id_item_emitted :
  let page := Sample.thread_page "https://voz.vn/t/chuyen-tro.12345/latest"
                Sample.info [Sample.undated_reply] in
  Spider.generate_item_id (H := Sample.lib) (Spider.resp_url page) None = None
  /\ Spider.parse_latest_message (H := Sample.lib) page <> Ok []
  /\ exists it, Spider.parse_latest_message (H := Sample.lib) page = Ok [it]
                /\ it !! "id" = Some VNone
                /\ it !! "message_content" = Some (VStr "khong biet").
Proof.
  split; [reflexivity|]. split; [discriminate|].
  eexists. split; [reflexivity|]. split; reflexivity.
Qed.

Lemma null_id_item_forwarded_witness :
  exists it,
    Spider.parse_latest_message (H := Sample.lib)
      (Sample.thread_page "https://voz.vn/t/chuyen-tro.12345/latest"
         Sample.info [Sample.undated_reply]) = Ok [it]
    /\ it !! "id" = Some VNone
    /\ exists tagged log1,
         Pipelines.run_item (H := Sample.classifier) Scenario.running_pipeline it 400
           Pipelines.SentimentAnalysisPipeline.no_fault
         = (Ok tagged, Scenario.running_pipeline,
            log1 ++ [Pipelines.StoreError VNone DatabaseError])
         /\ tagged !! "id" = Some VNone
         /\ tagged !! "processed_at" = Some (VStamp 400).
Proof.
  edestruct (null_id_item_forwarded (H := Sample.lib) (H0 := Sample.classifier)
               (Sample.thread_page "https://voz.vn/t/chuyen-tro.12345/latest"
                  Sample.info [Sample.undated_reply]))
    as (it & Hparse & Hid & Hstages).
  - reflexivity.
  - vm_compute. reflexivity.
  - reflexivity.
  - exists it. split; [exact Hparse|]. split; [exact Hid|].
    destruct (Hstages 400%N Scenario.running_pipeline
                Pipelines.SentimentAnalysisPipeline.no_fault)
      as (Htid & Hat & _ & _ & Hwrite).
    destruct Hwrite as (_ & _ & Hrun & _); [reflexivity|reflexivity|].
    eexists _, _. split; [apply Hrun; reflexivity|]. split; [exact Htid|exact Hat].
Defined.

(** ** The further properties at concrete inputs *)

Lemma parse_one_request_per_link_witness :
  exists requests,
    Spider.parse (H := Sample.lib) Scenario.listing_with_ad = Ok requests
    /\ length requests = 2%nat
    /\ length (Spider.thread_containers (Spider.resp_body Scenario.listing_with_ad))
       = 3%nat.
Proof.
  assert (Hrun : exists requests,
             Spider.parse (H := Sample.lib) Scenario.listing_with_ad = Ok requests)
    by (eexists; vm_compute; reflexivity).
  destruct Hrun as (requests & Hparse). exists requests. split; [exact Hparse|].
  destruct (parse_one_request_per_link (H := Sample.lib) _ _ Hparse) as (_ & Hlen & _).
  split; [rewrite Hlen|]; vm_compute; reflexivity.
Defined.

Lemma parse_mixed_keys_witness :
  Spider.parse (H := Sample.lib) Sample.utc_and_undated = Raise TypeError.
Proof.
  assert (Hrun : exists threads,
             Spider.collect_threads (H := Sample.lib)
               (Spider.resp_url Sample.utc_and_undated)
               (Spider.thread_containers (Spider.resp_body Sample.utc_and_undated))
             = Ok threads
             /\ exists x y, threads = [y; x] /\ Spider.timestamp x = None
                            /\ exists t off, Spider.timestamp y = Some (Spider.Aware t off)).
  { eexists. split; [vm_compute; reflexivity|]. do 2 eexists.
    split; [reflexivity|]. split; [reflexivity|]. do 2 eexists. reflexivity. }
  destruct Hrun as (threads & Hcollect & x & y & -> & Hx & Hy).
  destruct (parse_mixed_keys (H := Sample.lib) _ _ Hcollect) as (_ & _ & Hmixed).
  apply (Hmixed x y); [apply list_elem_of_further, list_elem_of_here
                      |apply list_elem_of_here|exact Hx|exact Hy].
Defined.

Lemma parse_latest_message_shape_witness :
  Spider.parse_latest_message (H := Sample.lib) Scenario.no_reply = Raise IndexError
  /\ exists it, Spider.parse_latest_message (H := Sample.lib) Scenario.two_replies
                = Ok [it]
                /\ dom it = Crawl.item_keys.
Proof.
  split.
  - apply (parse_latest_message_shape (H := Sample.lib) Scenario.no_reply Sample.info);
      reflexivity.
  - apply (parse_latest_message_shape (H := Sample.lib) Scenario.two_replies Sample.info);
      [reflexivity|]. vm_compute. discriminate.
Defined.

Lemma store_all_keeps_content_witness :
  exists r,
    Pipelines.SentimentAnalysisPipeline.db
      (Crawl.store_all Scenario.running_pipeline
         [ (Sample.tagged_item (Some "91a7") "sua lai roi" 0 1 0 500,
            Pipelines.SentimentAnalysisPipeline.no_fault);
           (Sample.tagged_item None "khong co id" 0 0 1 600,
            Pipelines.SentimentAnalysisPipeline.no_fault) ]) !! "91a7" = Some r
    /\ Crawl.content_of r = Crawl.content_of (Sample.stored_row "toi thay tot" 1 0 0 100).
Proof.
  apply (store_all_keeps_content _ Scenario.running_pipeline "91a7"
           (Sample.stored_row "toi thay tot" 1 0 0 100)).
  vm_compute. reflexivity.
Defined.

Lemma pages_tile_witness :
  let by_id : string -> N := fun k => N.of_nat (String.length k) in
  let reversed : string -> N := fun k => (100 - N.of_nat (String.length k))%N in
  exists first second both,
    Api.get_messages_with_sentiment by_id Sample.three_rows 1 0 None
    = Api.Response200 first
    /\ Api.get_messages_with_sentiment reversed Sample.three_rows 2 (0 + 1) None
       = Api.Response200 second
    /\ Api.get_messages_with_sentiment (fun _ => 0%N) Sample.three_rows (1 + 2) 0 None
       = Api.Response200 both
    /\ Api.messages first ++ Api.messages second = Api.messages both
    /\ Api.total first = Api.total both /\ Api.total second = Api.total both.
Proof.
  intros by_id reversed.
  apply (pages_tile by_id reversed (fun _ => 0%N) Sample.three_rows 1 2 0 None);
    [|lia|lia|lia|unfold Api.bigint_max; lia|unfold Api.bigint_max; lia|reflexivity].
  apply (bool_decide_unpack _). vm_compute. exact I.
Defined.

Lemma page_past_end_witness :
  (exists page,
     Api.get_messages_with_sentiment (fun _ => 0%N) Sample.three_rows 10 3 None
     = Api.Response200 page
     /\ Api.messages page = [] /\ Api.total page = Z.of_nat (size Sample.three_rows))
  /\ Api.get_messages_with_sentiment (fun _ => 0%N) Sample.three_rows 10
       9223372036854775808 None
     = Api.HTTPError 500.
Proof.
  split.
  - apply (page_past_end (fun _ => 0%N) Sample.three_rows 10 3 None);
      [unfold Api.bigint_max; lia| |reflexivity|unfold Api.bigint_max; lia].
    vm_compute. discriminate.
  - apply (page_past_end (fun _ => 0%N) Sample.three_rows 10
             9223372036854775808 None);
      [unfold Api.bigint_max; lia| |reflexivity|split; vm_compute; reflexivity].
    vm_compute. discriminate.
Defined.

Lemma page_shows_stored_rows_witness :
  exists page,
    Api.get_messages_with_sentiment (fun _ => 0%N) Sample.three_rows 2 1 None
    = Api.Response200 page
    /\ NoDup (Api.id <$> Api.messages page).
Proof.
  assert (Hrun : exists page,
             Api.get_messages_with_sentiment (fun _ => 0%N) Sample.three_rows 2 1 None
             = Api.Response200 page) by (eexists; reflexivity).
  destruct Hrun as (page & Hpage). exists page. split; [exact Hpage|].
  apply (page_shows_stored_rows _ _ _ _ _ _ Hpage).
Defined.

Lemma wait_for_db_connects_witness :
  Main.wait_for_db 30 2 Scenario.slow_start
  = {| Main.returned := Ok true; Main.attempts := 3; Main.slept := 4 |}.
Proof.
  apply (wait_for_db_connects 30 2 Scenario.slow_start 2); [lia|lia| |reflexivity].
  intros [|[|j]] Hj; [reflexivity|reflexivity|lia].
Defined.

Lemma wait_for_db_gives_up_witness :
  Main.wait_for_db 30 2 Scenario.down
  = {| Main.returned := Raise OtherError; Main.attempts := 30; Main.slept := 60 |}.
Proof.
  apply (wait_for_db_gives_up 30 2 Scenario.down); [lia|]. intros j _. reflexivity.
Defined.

Lemma three_rows_tagged :
  map_Forall (fun _ r => Crawl.tagged_counts r) Sample.three_rows.
Proof.
  unfold Sample.three_rows.
  repeat (apply map_Forall_insert_2;
          [unfold Crawl.tagged_counts; simpl;
           repeat first [apply list_elem_of_here|apply list_elem_of_further]|]).
  apply map_Forall_empty.
Qed.

Lemma bucket_counts_bounded_witness :
  Forall (fun b => 0 <= Main.bucket_positive b /\ 0 <= Main.bucket_negative b
                   /\ 0 <= Main.bucket_neutral b
                   /\ Main.bucket_positive b + Main.bucket_negative b
                      + Main.bucket_neutral b <= Main.total_messages b)
    (Main.hourly (Main.recent Sample.three_rows 250)).
Proof.
  apply (bucket_counts_bounded Sample.three_rows 250). apply three_rows_tagged.
Defined.

Lemma run_item_keeps_tagged_counts_witness :
  map_Forall (fun _ r => Crawl.tagged_counts r)
    (Pipelines.SentimentAnalysisPipeline.db
       (Pipelines.run_item (H := Sample.classifier) Scenario.running_pipeline
          (Sample.tagged_item (Some "c4e9") "cai nay tot" 7 7 7 0) 400
          Pipelines.SentimentAnalysisPipeline.no_fault).1.2).
Proof.
  apply (run_item_keeps_tagged_counts (H0 := Sample.classifier) _ _ (VStr "cai nay tot"));
    [vm_compute; reflexivity|apply three_rows_tagged].
Defined.

Lemma hourly_buckets_shape_witness :
  exists b,
    b ∈ Main.hourly (Main.recent Sample.three_rows 400)
    /\ Main.time_bucket b = 0%N
    /\ Main.total_messages b = 3.
Proof.
  destruct (hourly_buckets_shape Sample.three_rows 400) as (_ & _ & Hall & Hgroup).
  destruct (Hall "91a7" (Sample.stored_row "toi thay tot" 1 0 0 100))
    as (b & Hb & Hhour).
  - reflexivity.
  - vm_compute. discriminate.
  - exists b. split; [exact Hb|]. split; [exact Hhour|].
    apply (proj1 (List.Forall_forall _ _)) with (x := b) in Hgroup;
      [|now apply list_elem_of_In].
    destruct Hgroup as (Htotal & _). rewrite Htotal, Hhour. vm_compute. reflexivity.
Defined.

Lemma stored_label_agrees_witness :
  exists row,
    Pipelines.SentimentAnalysisPipeline.db
      (Pipelines.run_item (H := Sample.classifier) Scenario.fresh_pipeline
         (Sample.tagged_item (Some "c4e9") "cai nay te" 7 7 7 0) 400
         Pipelines.SentimentAnalysisPipeline.no_fault).1.2 !! "c4e9" = Some row
    /\ Api.sentiment_of row = "negative"
    /\ Store.analyzed_at row = 400%N
    /\ of_opt (Store.message_content row) = VStr "cai nay te".
Proof.
  destruct (stored_label_agrees (H0 := Sample.classifier) Scenario.fresh_pipeline
              (Sample.tagged_item (Some "c4e9") "cai nay te" 7 7 7 0)
              (VStr "cai nay te") 400
              Pipelines.SentimentAnalysisPipeline.no_fault "c4e9")
    as (row & Hrow & Hlabel & Hat & Hfresh & _).
  - vm_compute. reflexivity.
  - vm_compute. apply list_elem_of_further, list_elem_of_here.
  - exists row. split; [exact Hrow|]. split; [|split; [exact Hat|]].
    + rewrite Hlabel. vm_compute. reflexivity.
    + apply Hfresh. reflexivity.
Defined.

(** A second write on a stored id: the row keeps the text it had and
    carries the label of the new text, which is not the label of the text
    it shows. *)
Example relabelled_row_keeps_text :
  exists row,
    Pipelines.SentimentAnalysisPipeline.db
      (Pipelines.run_item (H := Sample.classifier) Scenario.running_pipeline
         (Sample.tagged_item (Some "91a7") "cai nay te" 0 0 0 0) 400
         Pipelines.SentimentAnalysisPipeline.no_fault).1.2 !! "91a7" = Some row
    /\ Store.message_content row = Some "toi thay tot"
    /\ Api.sentiment_of row = "negative"
    /\ Crawl.three_way
         (Main.analyze_text_sentiment (H := Sample.classifier) (VStr "toi thay tot"))
       = "positive".
Proof. eexists. split; [vm_compute; reflexivity|]. repeat split. Qed.

(** With ties two queries may order the rows differently: the page at
    offset 1 then repeats the row of the page at offset 0. *)
Example pages_overlap_on_ties :
  exists first second,
    Api.get_messages_with_sentiment Scenario.first_91a7 Scenario.tied_rows 1 0 None
    = Api.Response200 first
    /\ Api.get_messages_with_sentiment Scenario.first_0b3c Scenario.tied_rows 1 1 None
       = Api.Response200 second
    /\ map Api.id (Api.messages first) = ["91a7"]
    /\ map Api.id (Api.messages second) = ["91a7"].
Proof. do 2 eexists. repeat split; vm_compute; reflexivity. Qed.

Lemma crawl_round_trip_witness :
  exists it,
    Spider.parse_latest_message (H := Sample.lib) Scenario.two_replies = Ok [it]
    /\ exists tagged p' log,
         Pipelines.run_item (H := Sample.classifier) Scenario.fresh_pipeline it 400
           Pipelines.SentimentAnalysisPipeline.no_fault = (Ok tagged, p', log)
         /\ exists m, m ∈ Api.ordered (fun _ => 0%N)
                                 (Pipelines.SentimentAnalysisPipeline.db p')
                      /\ Api.id m = "91a7f088c2dccc6232f8e11fe59ce2d0"
                      /\ Api.m_message_content m = Some "toi thay tot"
                      /\ Api.sentiment m = "positive".
Proof.
  destruct (crawl_round_trip (H := Sample.lib) (H0 := Sample.classifier)
              Scenario.two_replies Sample.info Scenario.last_reply
              "91a7f088c2dccc6232f8e11fe59ce2d0" Scenario.fresh_pipeline 400
              (fun _ => 0%N))
    as (it & Hparse & tagged & p' & log & page & m & Hrun & Hpage & Hm & Hid
        & Hcontent & _ & _ & _ & _ & _ & _ & Hlabel).
  - reflexivity.
  - vm_compute. reflexivity.
  - vm_compute. reflexivity.
  - reflexivity.
  - reflexivity.
  - vm_compute. reflexivity.
  - exists it. split; [exact Hparse|]. exists tagged, p', log. split; [exact Hrun|].
    exists m. apply page_whole_listing in Hpage as (_ & <-).
    split; [exact Hm|]. split; [exact Hid|]. split.
    + rewrite Hcontent. vm_compute. reflexivity.
    + rewrite Hlabel. vm_compute. reflexivity.
Defined.

(** ** Two more facts on the stages *)

Section StageExtras.
Context `{Pipelines.Classifier}.
Import Store Pipelines.

(** X24. A call of the storage stage adds at most one row, and none when
    the id of the item is already stored: updates never change the number
    of rows the messages endpoint reports as [total]. *)
Theorem stored_rows_count p it f :
  let p' := (SentimentAnalysisPipeline.process_item p it f).1.2 in
  (size (SentimentAnalysisPipeline.db p') = size (SentimentAnalysisPipeline.db p)
   \/ size (SentimentAnalysisPipeline.db p') = S (size (SentimentAnalysisPipeline.db p)))
  /\ (forall id, it !! "id" = Some (VStr id) ->
                 is_Some (SentimentAnalysisPipeline.db p !! id) ->
                 size (SentimentAnalysisPipeline.db p')
                 = size (SentimentAnalysisPipeline.db p)).
Proof.
  simpl. destruct (process_item_cases p it f) as [(id & row & Hrow & ->)|[-> _]].
  - simpl. apply row_of_item in Hrow as (Hid & _). unfold upsert.
    destruct (SentimentAnalysisPipeline.db p !! id) as [old|] eqn:Hold.
    + assert (Hsame : size (<[id := on_conflict old row]> (SentimentAnalysisPipeline.db p))
                      = size (SentimentAnalysisPipeline.db p)).
      { apply map_size_insert_Some. eauto. }
      split; [now left|]. intros id' Hid' _. exact Hsame.
    + rewrite map_size_insert_None by assumption. split; [now right|].
      intros id' Hid' [old Hold']. rewrite Hid in Hid'. injection Hid' as <-.
      congruence.
  - split; [now left|reflexivity].
Qed.

(** X25. Tagging is idempotent: an item that went through the tagging
    stage and goes through it again under the same clock comes out as it
    went in. *)
Theorem process_item_twice it now :
  (FetchMessagePipeline.process_item (FetchMessagePipeline.process_item it now).1 now).1
  = (FetchMessagePipeline.process_item it now).1.
Proof.
  destruct (it !! "message_content") as [text|] eqn:Htext.
  - assert (Htext' : (FetchMessagePipeline.process_item it now).1 !! "message_content"
                     = Some text).
    { rewrite process_item_frame; [exact Htext|].
      repeat (apply not_elem_of_cons; split; [discriminate|]). apply not_elem_of_nil. }
    assert (Hshape : forall it0, it0 !! "message_content" = Some text ->
               (FetchMessagePipeline.process_item it0 now).1
               = <["processed_at" := VStamp now]>
                   (FetchMessagePipeline.analyze_sentiment text).1 ∪ it0).
    { intros it0 H0. unfold FetchMessagePipeline.process_item. rewrite H0.
      destruct (FetchMessagePipeline.analyze_sentiment text) as [sc log]. simpl.
      now destruct ((<["processed_at" := VStamp now]> sc ∪ it0) !! "id"). }
    rewrite (Hshape _ Htext'), (Hshape it Htext).
    now rewrite (assoc_L (∪)), (idemp_L (∪)).
  - assert (Hsame : FetchMessagePipeline.process_item it now
                    = (it, [ProcessingError KeyError])).
    { unfold FetchMessagePipeline.process_item. now rewrite Htext. }
    rewrite Hsame. simpl. now rewrite Hsame.
Qed.

End StageExtras.
